(** * SEACrowd data loaders: burapha_th, cub_bahasa, mswc

    A shallow embedding of the three dataset loaders
    ([seacrowd/sea_datasets/{burapha_th,cub_bahasa,mswc}]) and of the
    properties their example generators are expected to have.

    Python generators are modelled by a small monad that records the values
    yielded so far together with the way the run ended (normal exhaustion, or
    an exception that escaped).  Python [int] is [Z], [str] is [string],
    [dict] is an insertion-ordered association list, and the pandas frames are
    lists of rows carrying their index label. *)

From Stdlib Require Import String Ascii List ZArith Lia Bool DecimalString Sorted.
Import ListNotations.
Open Scope string_scope.
Open Scope Z_scope.
Open Scope list_scope.

(** ** Python primitives *)

Module Py.

(** Exceptions that can escape the modelled code. *)
Inductive exn : Type :=
| ValueError (msg : string)
| KeyError (key : string)
| IndexError
| NotImplementedError
| UnboundLocalError (name : string)
| OSError (path : string).

(** A generator run: what was yielded, then how the body ended. *)
Definition Gen (Y A : Type) : Type := (list Y * (exn + A))%type.

Definition ret {Y A} (a : A) : Gen Y A := ([], inr a).

Definition bind {Y A B} (m : Gen Y A) (f : A -> Gen Y B) : Gen Y B :=
  match snd m with
  | inl e => (fst m, inl e)
  | inr a => (fst m ++ fst (f a), snd (f a))
  end.

Definition yield {Y} (y : Y) : Gen Y unit := ([y], inr tt).

Definition raise {Y A} (e : exn) : Gen Y A := ([], inl e).

(** Lifting of a plain fallible computation (no yields). *)
Definition lift {Y A} (r : exn + A) : Gen Y A := ([], r).

Definition yielded {Y A} (g : Gen Y A) : list Y := fst g.
Definition ending {Y A} (g : Gen Y A) : exn + A := snd g.

(** [for x in xs: body], with the loop-carried local variables in [s]. *)
Fixpoint for_each {Y X S} (xs : list X) (s : S) (body : X -> S -> Gen Y S)
  : Gen Y S :=
  match xs with
  | [] => ret s
  | x :: xs' => bind (body x s) (fun s' => for_each xs' s' body)
  end.

(** The same loop for fallible code that yields nothing. *)
Fixpoint for_each_r {X S} (xs : list X) (s : S) (body : X -> S -> exn + S)
  : exn + S :=
  match xs with
  | [] => inr s
  | x :: xs' =>
      match body x s with
      | inl e => inl e
      | inr s' => for_each_r xs' s' body
      end
  end.

(** [str(n)] for an [int]. *)
Definition str (n : Z) : string := NilZero.string_of_int (Z.to_int n).

(** ['0' * n]. *)
Fixpoint zeros (n : nat) : string :=
  match n with
  | O => ""
  | S n' => String "0" (zeros n')
  end.

(** [s.zfill(width)]: left padding with zeros, after a leading sign. *)
Definition zfill (s : string) (width : nat) : string :=
  if (width <=? String.length s)%nat then s
  else
    let fill := zeros (width - String.length s) in
    match s with
    | String c rest =>
        if (Ascii.eqb c "+" || Ascii.eqb c "-")%bool
        then String c (fill ++ rest)%string
        else (fill ++ s)%string
    | EmptyString => fill
    end.

(** [range(n)]. *)
Definition range (n : nat) : list Z := map Z.of_nat (seq 0 n).

(** [s.split(sep)] for a one-character separator: never empty, empty
    segments kept. *)
Fixpoint str_split (sep : ascii) (s : string) : list string :=
  match s with
  | EmptyString => [""]
  | String c rest =>
      if Ascii.eqb c sep then "" :: str_split sep rest
      else
        match str_split sep rest with
        | [] => [String c ""]
        | seg :: segs => String c seg :: segs
        end
  end.

(** [l[i]] for a non-negative position. *)
Definition getitem {A} (l : list A) (i : nat) : exn + A :=
  match nth_error l i with
  | Some a => inr a
  | None => inl IndexError
  end.

(** [l.index(x)]: the first position holding [x], or [ValueError]. *)
Fixpoint index_from (l : list string) (x : string) (pos : Z) : exn + Z :=
  match l with
  | [] => inl (ValueError x)
  | y :: l' => if String.eqb y x then inr pos else index_from l' x (pos + 1)
  end.

Definition index (l : list string) (x : string) : exn + Z := index_from l x 0.

(** [s.endswith("/")]. *)
Fixpoint ends_with_sep (s : string) : bool :=
  match s with
  | EmptyString => false
  | String c EmptyString => Ascii.eqb c "/"
  | String _ rest => ends_with_sep rest
  end.

(** One step of [posixpath.join]. *)
Definition path_join2 (path b : string) : string :=
  if String.prefix "/" b then b
  else if ((path =? "")%string || ends_with_sep path)%bool then (path ++ b)%string
  else (path ++ "/" ++ b)%string.

(** [os.path.join(a, *p)]. *)
Definition os_path_join (a : string) (p : list string) : string :=
  fold_left path_join2 p a.

(** A [dict] with string keys: insertion ordered, keys unique. *)
Definition dict (V : Type) : Type := list (string * V).

(** [d[k] = v]: an existing key keeps its place and takes the new value. *)
Fixpoint dict_set {V} (d : dict V) (k : string) (v : V) : dict V :=
  match d with
  | [] => [(k, v)]
  | (k', v') :: d' =>
      if String.eqb k' k then (k', v) :: d' else (k', v') :: dict_set d' k v
  end.

Fixpoint dict_find {V} (d : dict V) (k : string) : option V :=
  match d with
  | [] => None
  | (k', v') :: d' => if String.eqb k' k then Some v' else dict_find d' k
  end.

(** [d[k]]. *)
Definition dict_get {V} (d : dict V) (k : string) : exn + V :=
  match dict_find d k with
  | Some v => inr v
  | None => inl (KeyError k)
  end.

(** [d.items()]. *)
Definition items {V} (d : dict V) : list (string * V) := d.

(** The part of the file system the loaders look at: [os.listdir]. *)
Record filesystem : Type := {
  listdir : string -> exn + list string
}.

End Py.

Notation "x <- m ;; k" := (Py.bind m (fun x => k))
  (at level 61, m at next level, right associativity).
Notation "m ;;; k" := (Py.bind m (fun _ => k))
  (at level 61, right associativity).

(** Sequencing of fallible code that yields nothing. *)
Definition rbind {A B} (r : Py.exn + A) (f : A -> Py.exn + B) : Py.exn + B :=
  match r with
  | inl e => inl e
  | inr a => f a
  end.

Notation "x <~ r ;; k" := (rbind r (fun x => k))
  (at level 61, r at next level, right associativity).

(** ** Shared configuration and record shapes *)

(** [seacrowd.utils.configs.SEACrowdConfig]. *)
Record SEACrowdConfig : Type := {
  name : string;
  version : string;
  description : string;
  schema : string;
  subset_id : string
}.

(** [datasets.SplitGenerator], with its [gen_kwargs] of type [K]. *)
Record SplitGenerator (K : Type) : Type := {
  split_name : string;
  gen_kwargs : K
}.
Arguments split_name {K} _.
Arguments gen_kwargs {K} _.

(** The unified image-text record: [id], [image_paths], [texts] and
    [metadata = {context, labels}], over the type [P] of image references
    and the type [L] of label codes. *)
Module Schemas.

Record metadata (L : Type) : Type := {
  context : option string;
  labels : list L
}.
Arguments context {L} _.
Arguments labels {L} _.

Record imtext (P L : Type) : Type := {
  id : string;
  image_paths : list P;
  texts : option string;
  meta : metadata L
}.
Arguments id {P L} _.
Arguments image_paths {P L} _.
Arguments texts {P L} _.
Arguments meta {P L} _.

End Schemas.

(** ** burapha_th: handwriting images in one directory per class *)

Module BuraphaTh.
Import Py.

Definition _DATASETNAME : string := "burapha_th".

Definition _URLS : dict (dict string) :=
  [ ("character",
      [ ("test", "https://services.informatics.buu.ac.th/datasets/Burapha-TH/character/20210306-test.zip");
        ("train", "https://services.informatics.buu.ac.th/datasets/Burapha-TH/character/20210306-train.zip") ]);
    ("digit",
      [ ("test", "https://services.informatics.buu.ac.th/datasets/Burapha-TH/digit/20210307-test.zip");
        ("train", "https://services.informatics.buu.ac.th/datasets/Burapha-TH/digit/20210307-train.zip") ]);
    ("syllable",
      [ ("test", "https://services.informatics.buu.ac.th/datasets/Burapha-TH/syllable/20210309-test-ori.zip");
        ("train", "https://services.informatics.buu.ac.th/datasets/Burapha-TH/syllable/20210309-train-ori.zip") ]) ].

Definition _SOURCE_VERSION : string := "1.0.0".
Definition _SEACROWD_VERSION : string := "2024.06.20".
Definition _SUBSETS : list string := ["character"; "digit"; "syllable"].

Definition config_constructor (subset schema version : string)
  : SEACrowdConfig :=
  {| name := (_DATASETNAME ++ "_" ++ subset ++ "_" ++ schema)%string;
     version := version;
     description := (_DATASETNAME ++ " " ++ subset ++ " " ++ schema ++ " schema")%string;
     schema := schema;
     subset_id := (_DATASETNAME ++ "_" ++ subset)%string |}.

Definition BUILDER_CONFIGS : list SEACrowdConfig :=
  map (fun subset => config_constructor subset "source" _SOURCE_VERSION) _SUBSETS
  ++ map (fun subset => config_constructor subset "seacrowd_imtext" _SEACROWD_VERSION) _SUBSETS.

(** The two class enumerations, as class attributes. *)
Definition label_chr_dig : list string := map (fun i => zfill (str i) 2) (range 78).
Definition label_syl : list string := map (fun i => zfill (str i) 3) (range 320).

(** [self.config.subset_id.split("_")[2]]. *)
Definition get_task (config : SEACrowdConfig) : exn + string :=
  getitem (str_split "_" (subset_id config)) 2.

(** The two feature sets [_info] can declare, by their label names. *)
Inductive Features : Type :=
| SourceFeatures (label_names : list string)
| ImageTextFeatures (label_names : list string).

Definition _info (config : SEACrowdConfig) : exn + Features :=
  task <~ get_task config ;;
  if (schema config =? "source")%string then
    inr (SourceFeatures
           (if ((task =? "character") || (task =? "digit"))%string
            then label_chr_dig else label_syl))
  else if (schema config =? "seacrowd_imtext")%string then
    inr (ImageTextFeatures
           (if ((task =? "character") || (task =? "digit"))%string
            then label_chr_dig else label_syl))
  else inl NotImplementedError.

(** The arguments handed to [_generate_examples]. *)
Record kwargs : Type := {
  filepath : dict (list string);
  split : string
}.

(** The download manager, as far as the loader uses it: a dictionary of
    URLs goes in, a dictionary of local paths comes out. *)
Record DownloadManager : Type := {
  download_and_extract : dict string -> exn + dict string
}.

(** The body of the scan loop: one child directory of the train directory. *)
Definition scan_dir (fs : filesystem) (train_path dir_name : string)
    (data_pair : dict (list string)) : exn + dict (list string) :=
  let dir_name_split := str_split "-" dir_name in
  entries <~ listdir fs (os_path_join train_path [dir_name]) ;;
  let file_names :=
    fold_left (fun file_names file_name =>
                 file_names ++ [os_path_join train_path [dir_name; file_name]])
              entries [] in
  label <~ getitem dir_name_split 0 ;;
  inr (dict_set data_pair label file_names).

(** The scan of the train directory: the loop that fills [data_pair]. *)
Definition scan_layout (fs : filesystem) (train_path : string)
  : exn + dict (list string) :=
  dir_names <~ listdir fs train_path ;;
  for_each_r dir_names [] (scan_dir fs train_path).

Definition _split_generators (config : SEACrowdConfig)
    (dl_manager : DownloadManager) (fs : filesystem)
  : exn + list (SplitGenerator kwargs) :=
  task <~ get_task config ;;
  urls <~ dict_get _URLS task ;;
  _local_path <~ download_and_extract dl_manager urls ;;
  train_path <~ dict_get _local_path "train" ;;
  test_path <~ dict_get _local_path "test" ;;
  let '(train_path, test_path) :=
    if existsb (String.eqb task) ["character"; "digit"]
    then (os_path_join train_path ["train"], os_path_join test_path ["test"])
    else (os_path_join train_path ["train-ori"], os_path_join test_path ["test-ori"]) in
  data_pair <~ scan_layout fs train_path ;;
  inr [ {| split_name := "train";
           gen_kwargs := {| filepath := data_pair; split := "train" |} |};
        {| split_name := "test";
           gen_kwargs := {| filepath := data_pair; split := "test" |} |} ].

(** The source-schema record. *)
Record source_example : Type := {
  id : string;
  image_paths : string;
  label : list Z
}.

Inductive example : Type :=
| Source (e : source_example)
| Imtext (e : Schemas.imtext string Z).

(** The body of the inner loop of [_generate_examples]: one image. *)
Definition generate_example (config : SEACrowdConfig) (task key img : string)
    (counter : Z) : Gen (Z * example) Z :=
  (if (schema config =? "source")%string then
     code <- lift (if ((task =? "character") || (task =? "digit"))%string
                   then index label_chr_dig key else index label_syl key) ;;
     yield (counter,
            Source {| id := str counter; image_paths := img; label := [code] |})
   else if (schema config =? "seacrowd_imtext")%string then
     code <- lift (if existsb (String.eqb task) ["character"; "digit"]
                   then index label_chr_dig key else index label_syl key) ;;
     yield (counter,
            Imtext {| Schemas.id := str counter;
                      Schemas.image_paths := [img];
                      Schemas.texts := None;
                      Schemas.meta := {| Schemas.context := None;
                                         Schemas.labels := [code] |} |})
   else ret tt) ;;;
  ret (counter + 1).

Definition _generate_examples (config : SEACrowdConfig)
    (filepath : dict (list string)) (split : string) : Gen (Z * example) unit :=
  task <- lift (get_task config) ;;
  let counter := 0 in
  for_each (items filepath) counter
    (fun '(key, imgs) counter =>
       for_each imgs counter (generate_example config task key)) ;;;
  ret tt.

(** Running a split generator: its [gen_kwargs] are passed by keyword. *)
Definition run_split (config : SEACrowdConfig) (g : SplitGenerator kwargs)
  : Gen (Z * example) unit :=
  _generate_examples config (filepath (gen_kwargs g)) (split (gen_kwargs g)).

(** *** Vocabulary of the properties *)

(** The enumeration in which a task resolves its labels. *)
Definition enumeration (task : string) : list string :=
  if ((task =? "character") || (task =? "digit"))%string
  then label_chr_dig else label_syl.

(** The items of a scanned index in iteration order: one (label, file) pair
    per file, labels in insertion order. *)
Definition dataset_items (filepath : dict (list string))
  : list (string * string) :=
  flat_map (fun kv => map (pair (fst kv)) (snd kv)) (items filepath).

(** The label a child directory of the train directory stands for. *)
Definition dir_label (dir_name : string) : string :=
  hd "" (str_split "-" dir_name).

(** The paths the scan records for the files of one child directory. *)
Definition dir_files (train_path dir_name : string) (entries : list string)
  : list string :=
  map (fun file_name => os_path_join train_path [dir_name; file_name]) entries.

(** What one iteration of the scan does to the index when the directory
    [d] lists the entries [files d]. *)
Definition scan_step (train_path : string) (files : string -> list string)
    (acc : dict (list string)) (d : string) : dict (list string) :=
  dict_set acc (dir_label d) (dir_files train_path d (files d)).

(** The label codes carried by a record, whatever its shape. *)
Definition example_labels (e : example) : list Z :=
  match e with
  | Source e => label e
  | Imtext e => Schemas.labels (Schemas.meta e)
  end.

(** The [id] field of a record and the image files it refers to, whatever
    its shape. *)
Definition example_id (e : example) : string :=
  match e with
  | Source e => id e
  | Imtext e => Schemas.id e
  end.

Definition example_images (e : example) : list string :=
  match e with
  | Source e => [image_paths e]
  | Imtext e => Schemas.image_paths e
  end.

(** The class names a feature set declares for its labels. *)
Definition label_names (f : Features) : list string :=
  match f with
  | SourceFeatures names => names
  | ImageTextFeatures names => names
  end.

(** The directory in which [_split_generators] looks for the train images
    of a task, below the extracted train archive. *)
Definition train_dir (task train_root : string) : string :=
  os_path_join train_root
    [if existsb (String.eqb task) ["character"; "digit"]
     then "train" else "train-ori"].

(** A run of the builder: [datasets.GeneratorBasedBuilder] evaluates
    [_info] when the builder is set up, before it asks for any example. *)
Definition builder_run (config : SEACrowdConfig)
    (filepath : dict (list string)) (split : string) : Gen (Z * example) unit :=
  lift (_info config) ;;; _generate_examples config filepath split.

End BuraphaTh.

(** ** pandas

    A frame is the list of its rows in order, each with its index label. *)
Module Pd.
Import Py.

Definition DataFrame (R : Type) : Type := list (Z * R).

(** A frame built from rows gets the default index 0, 1, 2, ... *)
Definition from_rows {R} (rows : list R) : DataFrame R :=
  combine (range (length rows)) rows.

(** [df.iterrows()]. *)
Definition iterrows {R} (df : DataFrame R) : list (Z * R) := df.

(** [df[mask]]: the selected rows keep their index labels. *)
Definition select {R} (mask : R -> bool) (df : DataFrame R) : DataFrame R :=
  filter (fun ir => mask (snd ir)) df.

(** [pd.merge(left, right, on=...)], an inner join: the rows of [left] in
    order, each paired with every row of [right] that has the same key; the
    result gets a fresh default index. *)
Definition merge {L R O} (left : DataFrame L) (right : DataFrame R)
    (same_key : L -> R -> bool) (joined : L -> R -> O) : DataFrame O :=
  from_rows
    (flat_map (fun l => map (fun r => joined (snd l) (snd r))
                            (filter (fun r => same_key (snd l) (snd r)) right))
              left).

End Pd.

(** ** cub_bahasa: bird images joined with bilingual captions *)

Module CubBahasa.
Import Py Pd.

Definition _DATASETNAME : string := "cub_bahasa".
Definition _SOURCE_VERSION : string := "1.0.0".
Definition _SEACROWD_VERSION : string := "2024.06.20".
Definition SEACROWD_SCHEMA_NAME : string := "imtext".

(** The class table, a [dict] from class id to class name. *)
Definition IMAGE_CLASS : list (Z * string) :=
  [ (1, "001.Black_footed_Albatross");
    (2, "002.Laysan_Albatross");
    (3, "003.Sooty_Albatross");
    (4, "004.Groove_billed_Ani");
    (5, "005.Crested_Auklet");
    (6, "006.Least_Auklet");
    (7, "007.Parakeet_Auklet");
    (8, "008.Rhinoceros_Auklet");
    (9, "009.Brewer_Blackbird");
    (10, "010.Red_winged_Blackbird");
    (11, "011.Rusty_Blackbird");
    (12, "012.Yellow_headed_Blackbird");
    (13, "013.Bobolink");
    (14, "014.Indigo_Bunting");
    (15, "015.Lazuli_Bunting");
    (16, "016.Painted_Bunting");
    (17, "017.Cardinal");
    (18, "018.Spotted_Catbird");
    (19, "019.Gray_Catbird");
    (20, "020.Yellow_breasted_Chat");
    (21, "021.Eastern_Towhee");
    (22, "022.Chuck_will_Widow");
    (23, "023.Brandt_Cormorant");
    (24, "024.Red_faced_Cormorant");
    (25, "025.Pelagic_Cormorant");
    (26, "026.Bronzed_Cowbird");
    (27, "027.Shiny_Cowbird");
    (28, "028.Brown_Creeper");
    (29, "029.American_Crow");
    (30, "030.Fish_Crow");
    (31, "031.Black_billed_Cuckoo");
    (32, "032.Mangrove_Cuckoo");
    (33, "033.Yellow_billed_Cuckoo");
    (34, "034.Gray_crowned_Rosy_Finch");
    (35, "035.Purple_Finch");
    (36, "036.Northern_Flicker");
    (37, "037.Acadian_Flycatcher");
    (38, "038.Great_Crested_Flycatcher");
    (39, "039.Least_Flycatcher");
    (40, "040.Olive_sided_Flycatcher");
    (41, "041.Scissor_tailed_Flycatcher");
    (42, "042.Vermilion_Flycatcher");
    (43, "043.Yellow_bellied_Flycatcher");
    (44, "044.Frigatebird");
    (45, "045.Northern_Fulmar");
    (46, "046.Gadwall");
    (47, "047.American_Goldfinch");
    (48, "048.European_Goldfinch");
    (49, "049.Boat_tailed_Grackle");
    (50, "050.Eared_Grebe");
    (51, "051.Horned_Grebe");
    (52, "052.Pied_billed_Grebe");
    (53, "053.Western_Grebe");
    (54, "054.Blue_Grosbeak");
    (55, "055.Evening_Grosbeak");
    (56, "056.Pine_Grosbeak");
    (57, "057.Rose_breasted_Grosbeak");
    (58, "058.Pigeon_Guillemot");
    (59, "059.California_Gull");
    (60, "060.Glaucous_winged_Gull");
    (61, "061.Heermann_Gull");
    (62, "062.Herring_Gull");
    (63, "063.Ivory_Gull");
    (64, "064.Ring_billed_Gull");
    (65, "065.Slaty_backed_Gull");
    (66, "066.Western_Gull");
    (67, "067.Anna_Hummingbird");
    (68, "068.Ruby_throated_Hummingbird");
    (69, "069.Rufous_Hummingbird");
    (70, "070.Green_Violetear");
    (71, "071.Long_tailed_Jaeger");
    (72, "072.Pomarine_Jaeger");
    (73, "073.Blue_Jay");
    (74, "074.Florida_Jay");
    (75, "075.Green_Jay");
    (76, "076.Dark_eyed_Junco");
    (77, "077.Tropical_Kingbird");
    (78, "078.Gray_Kingbird");
    (79, "079.Belted_Kingfisher");
    (80, "080.Green_Kingfisher");
    (81, "081.Pied_Kingfisher");
    (82, "082.Ringed_Kingfisher");
    (83, "083.White_breasted_Kingfisher");
    (84, "084.Red_legged_Kittiwake");
    (85, "085.Horned_Lark");
    (86, "086.Pacific_Loon");
    (87, "087.Mallard");
    (88, "088.Western_Meadowlark");
    (89, "089.Hooded_Merganser");
    (90, "090.Red_breasted_Merganser");
    (91, "091.Mockingbird");
    (92, "092.Nighthawk");
    (93, "093.Clark_Nutcracker");
    (94, "094.White_breasted_Nuthatch");
    (95, "095.Baltimore_Oriole");
    (96, "096.Hooded_Oriole");
    (97, "097.Orchard_Oriole");
    (98, "098.Scott_Oriole");
    (99, "099.Ovenbird");
    (100, "100.Brown_Pelican");
    (101, "101.White_Pelican");
    (102, "102.Western_Wood_Pewee");
    (103, "103.Sayornis");
    (104, "104.American_Pipit");
    (105, "105.Whip_poor_Will");
    (106, "106.Horned_Puffin");
    (107, "107.Common_Raven");
    (108, "108.White_necked_Raven");
    (109, "109.American_Redstart");
    (110, "110.Geococcyx");
    (111, "111.Loggerhead_Shrike");
    (112, "112.Great_Grey_Shrike");
    (113, "113.Baird_Sparrow");
    (114, "114.Black_throated_Sparrow");
    (115, "115.Brewer_Sparrow");
    (116, "116.Chipping_Sparrow");
    (117, "117.Clay_colored_Sparrow");
    (118, "118.House_Sparrow");
    (119, "119.Field_Sparrow");
    (120, "120.Fox_Sparrow");
    (121, "121.Grasshopper_Sparrow");
    (122, "122.Harris_Sparrow");
    (123, "123.Henslow_Sparrow");
    (124, "124.Le_Conte_Sparrow");
    (125, "125.Lincoln_Sparrow");
    (126, "126.Nelson_Sharp_tailed_Sparrow");
    (127, "127.Savannah_Sparrow");
    (128, "128.Seaside_Sparrow");
    (129, "129.Song_Sparrow");
    (130, "130.Tree_Sparrow");
    (131, "131.Vesper_Sparrow");
    (132, "132.White_crowned_Sparrow");
    (133, "133.White_throated_Sparrow");
    (134, "134.Cape_Glossy_Starling");
    (135, "135.Bank_Swallow");
    (136, "136.Barn_Swallow");
    (137, "137.Cliff_Swallow");
    (138, "138.Tree_Swallow");
    (139, "139.Scarlet_Tanager");
    (140, "140.Summer_Tanager");
    (141, "141.Artic_Tern");
    (142, "142.Black_Tern");
    (143, "143.Caspian_Tern");
    (144, "144.Common_Tern");
    (145, "145.Elegant_Tern");
    (146, "146.Forsters_Tern");
    (147, "147.Least_Tern");
    (148, "148.Green_tailed_Towhee");
    (149, "149.Brown_Thrasher");
    (150, "150.Sage_Thrasher");
    (151, "151.Black_capped_Vireo");
    (152, "152.Blue_headed_Vireo");
    (153, "153.Philadelphia_Vireo");
    (154, "154.Red_eyed_Vireo");
    (155, "155.Warbling_Vireo");
    (156, "156.White_eyed_Vireo");
    (157, "157.Yellow_throated_Vireo");
    (158, "158.Bay_breasted_Warbler");
    (159, "159.Black_and_white_Warbler");
    (160, "160.Black_throated_Blue_Warbler");
    (161, "161.Blue_winged_Warbler");
    (162, "162.Canada_Warbler");
    (163, "163.Cape_May_Warbler");
    (164, "164.Cerulean_Warbler");
    (165, "165.Chestnut_sided_Warbler");
    (166, "166.Golden_winged_Warbler");
    (167, "167.Hooded_Warbler");
    (168, "168.Kentucky_Warbler");
    (169, "169.Magnolia_Warbler");
    (170, "170.Mourning_Warbler");
    (171, "171.Myrtle_Warbler");
    (172, "172.Nashville_Warbler");
    (173, "173.Orange_crowned_Warbler");
    (174, "174.Palm_Warbler");
    (175, "175.Pine_Warbler");
    (176, "176.Prairie_Warbler");
    (177, "177.Prothonotary_Warbler");
    (178, "178.Swainson_Warbler");
    (179, "179.Tennessee_Warbler");
    (180, "180.Wilson_Warbler");
    (181, "181.Worm_eating_Warbler");
    (182, "182.Yellow_Warbler");
    (183, "183.Northern_Waterthrush");
    (184, "184.Louisiana_Waterthrush");
    (185, "185.Bohemian_Waxwing");
    (186, "186.Cedar_Waxwing");
    (187, "187.American_Three_toed_Woodpecker");
    (188, "188.Pileated_Woodpecker");
    (189, "189.Red_bellied_Woodpecker");
    (190, "190.Red_cockaded_Woodpecker");
    (191, "191.Red_headed_Woodpecker");
    (192, "192.Downy_Woodpecker");
    (193, "193.Bewick_Wren");
    (194, "194.Cactus_Wren");
    (195, "195.Carolina_Wren");
    (196, "196.House_Wren");
    (197, "197.Marsh_Wren");
    (198, "198.Rock_Wren");
    (199, "199.Winter_Wren");
    (200, "200.Common_Yellowthroat") ].

Fixpoint int_dict_find {V} (d : list (Z * V)) (k : Z) : option V :=
  match d with
  | [] => None
  | (k', v) :: d' => if k' =? k then Some v else int_dict_find d' k
  end.

(** [self.IMAGE_CLASS[class_id]]. *)
Definition image_class (class_id : Z) : exn + string :=
  match int_dict_find IMAGE_CLASS class_id with
  | Some v => inr v
  | None => inl (KeyError (str class_id))
  end.

(** The two entries of [BUILDER_CONFIGS]. *)
Definition source_config : SEACrowdConfig :=
  {| name := (_DATASETNAME ++ "_source")%string;
     version := _SOURCE_VERSION;
     description := (_DATASETNAME ++ " source schema")%string;
     schema := "source";
     subset_id := _DATASETNAME |}.

Definition imtext_config : SEACrowdConfig :=
  {| name := (_DATASETNAME ++ "_seacrowd_" ++ SEACROWD_SCHEMA_NAME)%string;
     version := _SEACROWD_VERSION;
     description := (_DATASETNAME ++ " SEACrowd schema")%string;
     schema := ("seacrowd_" ++ SEACROWD_SCHEMA_NAME)%string;
     subset_id := _DATASETNAME |}.

Definition BUILDER_CONFIGS : list SEACrowdConfig :=
  [source_config; imtext_config].

(** *** pathlib

    A pure POSIX path is the list of its parts, with its root in front when
    it is absolute (as [PurePosixPath.parts] has it).  The root is ["/"],
    except that exactly two leading slashes make the root ["//"]. *)
Definition Path : Type := list string.

(** The root of a path given as a string, if it has one. *)
Definition path_root (s : string) : option string :=
  if String.prefix "///" s then Some "/"
  else if String.prefix "//" s then Some "//"
  else if String.prefix "/" s then Some "/"
  else None.

Definition is_root (part : string) : bool :=
  ((part =? "/") || (part =? "//"))%string.

Definition path_of_str (s : string) : Path :=
  let segs := filter (fun seg => negb (seg =? "")%string && negb (seg =? ".")%string)
                     (str_split "/" s) in
  match path_root s with
  | Some root => root :: segs
  | None => segs
  end.

(** [p / q]: an absolute right operand replaces the left one. *)
Definition path_div (p q : Path) : Path :=
  match q with
  | root :: _ => if is_root root then q else p ++ q
  | [] => p
  end.

(** [p.name]: the last part, unless the path is the bare root. *)
Definition path_name (p : Path) : string :=
  match rev p with
  | [] => ""
  | last_part :: before =>
      match before with
      | [] => if is_root last_part then "" else last_part
      | _ => last_part
      end
  end.

(** [p.parent]: the path without its last part; the bare root and the empty
    path are their own parent. *)
Definition path_parent (p : Path) : Path :=
  match rev p with
  | [] => []
  | last_part :: before =>
      match before with
      | [] => if is_root last_part then p else []
      | _ => rev before
      end
  end.

(** *** The downloaded material *)

Module Json.
Record caption : Type := { english : string; indo : string }.
Record item : Type := { filename : string; captions : list caption }.
Record text_data : Type := { dataset : list item }.
End Json.

(** What [download_and_extract] left on disk, already parsed: the root of
    the image archive and the contents of the three tables and of the
    caption file. *)
Record extracted : Type := {
  image_root : string;
  images_txt : list (Z * string);
  image_class_labels_txt : list (Z * Z);
  train_test_split_txt : list (Z * Z);
  captions_json : Json.text_data
}.

(** One row of [df_text]. *)
Record text_row : Type := {
  t_image_name : string;
  t_en_caption : string;
  t_id_caption : string
}.

(** One row of [grouped_text]. *)
Record grouped_row : Type := {
  g_image_name : string;
  g_en_caption : list string;
  g_id_caption : list string
}.

(** One row of the fully merged frame. *)
Record row : Type := {
  image_id : Z;
  image_path : Path;
  en_caption : list string;
  id_caption : list string;
  class_id : Z;
  is_train : Z
}.

(** [df_text]: one row per caption of every item. *)
Definition df_text_rows (text_data : Json.text_data) : list text_row :=
  flat_map (fun item =>
              map (fun caption =>
                     {| t_image_name := Json.filename item;
                        t_en_caption := Json.english caption;
                        t_id_caption := Json.indo caption |})
                  (Json.captions item))
           (Json.dataset text_data).

(** Adding one caption row to the groups, which are kept sorted by name. *)
Fixpoint group_insert (r : text_row) (groups : list grouped_row)
  : list grouped_row :=
  let fresh := {| g_image_name := t_image_name r;
                  g_en_caption := [t_en_caption r];
                  g_id_caption := [t_id_caption r] |} in
  match groups with
  | [] => [fresh]
  | g :: rest =>
      match String.compare (t_image_name r) (g_image_name g) with
      | Eq => {| g_image_name := g_image_name g;
                 g_en_caption := g_en_caption g ++ [t_en_caption r];
                 g_id_caption := g_id_caption g ++ [t_id_caption r] |} :: rest
      | Lt => fresh :: groups
      | Gt => g :: group_insert r rest
      end
  end.

(** [df_text.groupby('image_name').agg(list).reset_index()]; an empty
    [df_text] has no column to group by. *)
Definition groupby_image_name (df_text : list text_row)
  : exn + DataFrame grouped_row :=
  match df_text with
  | [] => inl (KeyError "image_name")
  | _ => inr (from_rows (fold_left (fun groups r => group_insert r groups) df_text []))
  end.

Record kwargs : Type := {
  data : DataFrame row;
  split : string
}.

(** The tables of [_split_generators], read and merged into one frame. *)
Definition merge_tables (dl : extracted) : exn + DataFrame row :=
  let image_meta :=
    path_div (path_div (path_of_str (image_root dl)) ["CUB_200_2011"]) ["images.txt"] in
  let df_image : DataFrame (Z * Path) :=
    map (fun ir => (fst ir, (fst (snd ir),
           path_div (path_div (path_parent image_meta) ["images"])
                    (path_of_str (snd (snd ir))))))
        (from_rows (images_txt dl)) in
  let df_label := from_rows (image_class_labels_txt dl) in
  let df_text := df_text_rows (captions_json dl) in
  grouped_text <~ groupby_image_name df_text ;;
  let df_split := from_rows (train_test_split_txt dl) in
  let df :=
    merge df_image grouped_text
          (fun im g => (path_name (snd im) =? g_image_name g)%string)
          (fun im g => (im, g)) in
  let df :=
    merge df df_label
          (fun ig lb => fst (fst ig) =? fst lb)
          (fun ig lb => (ig, snd lb)) in
  let df :=
    merge df df_split
          (fun igl sp => fst (fst (fst igl)) =? fst sp)
          (fun igl sp =>
             {| image_id := fst (fst (fst igl));
                image_path := snd (fst (fst igl));
                en_caption := g_en_caption (snd (fst igl));
                id_caption := g_id_caption (snd (fst igl));
                class_id := snd igl;
                is_train := snd sp |}) in
  inr df.

Definition _split_generators (dl : extracted)
  : exn + list (SplitGenerator kwargs) :=
  df <~ merge_tables dl ;;
  inr [ {| split_name := "train";
           gen_kwargs := {| data := select (fun r => is_train r =? 1) df;
                            split := "train" |} |};
        {| split_name := "test";
           gen_kwargs := {| data := select (fun r => is_train r =? 0) df;
                            split := "test" |} |} ].

(** The source-schema record. *)
Module Src.
Record caption : Type := { caption_eng : string; caption_ind : string }.
Record example : Type := {
  image_id : Z;
  class_id : Z;
  image_path : Path;
  class_name : string;
  captions : list caption
}.
End Src.

Inductive example : Type :=
| Source (e : Src.example)
| Imtext (e : Schemas.imtext Path string).

(** The list comprehension building the captions of a source record. *)
Definition source_captions (r : row) : exn + list Src.caption :=
  for_each_r (map Z.to_nat (range (length (en_caption r)))) []
    (fun i acc =>
       eng <~ getitem (en_caption r) i ;;
       ind <~ getitem (id_caption r) i ;;
       inr (acc ++ [ {| Src.caption_eng := eng; Src.caption_ind := ind |} ])).

(** The body of the innermost loop under the unified schema: caption [i] of
    one row. *)
Definition imtext_example (r : row) (i : nat) (key : Z)
  : Gen (Z * example) Z :=
  texts <- lift (getitem (id_caption r) i) ;;
  context <- lift (getitem (en_caption r) i) ;;
  class_name <- lift (image_class (class_id r)) ;;
  yield (key,
         Imtext {| Schemas.id := str key;
                   Schemas.image_paths := [image_path r];
                   Schemas.texts := Some texts;
                   Schemas.meta := {| Schemas.context := Some context;
                                      Schemas.labels := [class_name] |} |}) ;;;
  ret (key + 1).

Definition _generate_examples (config : SEACrowdConfig)
    (data : DataFrame row) (split : string) : Gen (Z * example) unit :=
  if (schema config =? "source")%string then
    for_each (iterrows data) tt
      (fun '(key, r) _ =>
         class_name <- lift (image_class (class_id r)) ;;
         captions <- lift (source_captions r) ;;
         yield (key,
                Source {| Src.image_id := image_id r;
                          Src.class_id := class_id r;
                          Src.image_path := image_path r;
                          Src.class_name := class_name;
                          Src.captions := captions |}))
  else if (schema config =? "seacrowd_" ++ SEACROWD_SCHEMA_NAME)%string then
    let key := 0 in
    for_each (iterrows data) key
      (fun '(_, r) key =>
         for_each (map Z.to_nat (range (length (id_caption r)))) key
                  (imtext_example r)) ;;;
    ret tt
  else ret tt.

Definition run_split (config : SEACrowdConfig) (g : SplitGenerator kwargs)
  : Gen (Z * example) unit :=
  _generate_examples config (data (gen_kwargs g)) (split (gen_kwargs g)).

(** *** Vocabulary of the properties *)

(** The path an entry of [images.txt] stands for, and its file name. *)
Definition image_path_of (dl : extracted) (entry : string) : Path :=
  path_div
    (path_div
       (path_parent
          (path_div (path_div (path_of_str (image_root dl)) ["CUB_200_2011"])
                    ["images.txt"]))
       ["images"])
    (path_of_str entry).

Definition image_name_of (dl : extracted) (entry : string) : string :=
  path_name (image_path_of dl entry).

(** How many captions the caption file holds under a file name. *)
Definition caption_count (text_data : Json.text_data) (image_name : string)
  : nat :=
  length (filter (fun t => (t_image_name t =? image_name)%string)
                 (df_text_rows text_data)).

(** The same download with another [images.txt]. *)
Definition with_images (dl : extracted) (images : list (Z * string))
  : extracted :=
  {| image_root := image_root dl;
     images_txt := images;
     image_class_labels_txt := image_class_labels_txt dl;
     train_test_split_txt := train_test_split_txt dl;
     captions_json := captions_json dl |}.

(** The loop of the unified schema over the rows of a frame. *)
Definition unified_loop (data : DataFrame row) (key : Z)
  : Gen (Z * example) Z :=
  for_each data key
    (fun ir key => for_each (seq 0 (length (id_caption (snd ir)))) key
                            (imtext_example (snd ir))).

(** The inner join of two lists of rows, without the index. *)
Definition cross {L R O} (same_key : L -> R -> bool) (joined : L -> R -> O)
    (left : list L) (right : list R) : list O :=
  flat_map (fun l => map (joined l) (filter (same_key l) right)) left.

(** The groups of captions, one per file name. *)
Definition groups_of (text_data : Json.text_data) : list grouped_row :=
  fold_left (fun groups r => group_insert r groups) (df_text_rows text_data) [].

(** The rows of the merged frame that come from the given entries of
    [images.txt]. *)
Definition merged_rows (dl : extracted) (entries : list (Z * string))
  : list row :=
  cross (fun igl sp => fst (fst (fst igl)) =? fst sp)
        (fun igl sp =>
           {| image_id := fst (fst (fst igl));
              image_path := snd (fst (fst igl));
              en_caption := g_en_caption (snd (fst igl));
              id_caption := g_id_caption (snd (fst igl));
              class_id := snd igl;
              is_train := snd (sp : Z * Z) |})
        (cross (fun ig lb => fst (fst ig) =? fst lb)
               (fun ig lb => (ig, snd (lb : Z * Z)))
               (cross (fun im g => (path_name (snd im) =? g_image_name g)%string)
                      (fun (im : Z * Path) (g : grouped_row) => (im, g))
                      (map (fun e => (fst e, image_path_of dl (snd e))) entries)
                      (groups_of (captions_json dl)))
               (image_class_labels_txt dl))
        (train_test_split_txt dl).

(** The number of captions held by a list of rows. *)
Definition caption_total (rows : list row) : nat :=
  list_sum (map (fun r => length (id_caption r)) rows).

(** The entries of [images.txt] for which the caption file has a caption. *)
Definition matched_images (dl : extracted) : list (Z * string) :=
  filter (fun e => (0 <? caption_count (captions_json dl)
                                       (image_name_of dl (snd e)))%nat)
         (images_txt dl).

(** A row the generator can turn into records: as many English as
    Indonesian captions, a class id of the class table, and a split flag. *)
Definition well_formed (r : row) : Prop :=
  length (en_caption r) = length (id_caption r)
  /\ (exists class_name, image_class (class_id r) = inr class_name)
  /\ (is_train r = 0 \/ is_train r = 1).

(** An entry of [images.txt] with exactly one label row, whose class is in
    the class table, and exactly one split row, whose flag is 0 or 1. *)
Definition has_label_and_split (dl : extracted) (e : Z * string) : Prop :=
  exists lb sp class_name,
    filter (fun lb => fst e =? fst lb) (image_class_labels_txt dl) = [lb]
    /\ filter (fun sp => fst e =? fst sp) (train_test_split_txt dl) = [sp]
    /\ image_class (snd lb) = inr class_name
    /\ (snd sp = 0 \/ snd sp = 1).

(** The captions held under a file name by a list of groups. *)
Definition group_total (image_name : string) (gs : list grouped_row) : nat :=
  list_sum (map (fun g => length (g_id_caption g))
                (filter (fun g => (image_name =? g_image_name g)%string) gs)).

(** The record the unified schema builds for caption [j] of a row. *)
Definition caption_record (r : row) (class_name : string) (j : nat) (key : Z)
  : example :=
  Imtext {| Schemas.id := str key;
            Schemas.image_paths := [image_path r];
            Schemas.texts := nth_error (id_caption r) j;
            Schemas.meta := {| Schemas.context := nth_error (en_caption r) j;
                               Schemas.labels := [class_name] |} |}.

(** The two feature sets [_info] can declare; the unified one names its
    labels. *)
Inductive Features : Type :=
| SourceFeatures
| ImageTextFeatures (label_names : list string).

(** [_info]: under any other schema the local [features] is never bound. *)
Definition _info (config : SEACrowdConfig) : exn + Features :=
  if (schema config =? "source")%string then inr SourceFeatures
  else if (schema config =? "seacrowd_" ++ SEACROWD_SCHEMA_NAME)%string then
    inr (ImageTextFeatures (map snd IMAGE_CLASS))
  else inl (UnboundLocalError "features").

(** The captions of a text row and of a group, English ([true]) or
    Indonesian ([false]). *)
Definition text_field (english : bool) (t : text_row) : string :=
  if english then t_en_caption t else t_id_caption t.

Definition group_field (english : bool) (g : grouped_row) : list string :=
  if english then g_en_caption g else g_id_caption g.

(** The groups are ordered by file name, strictly. *)
Definition name_lt (g1 g2 : grouped_row) : Prop :=
  String.compare (g_image_name g1) (g_image_name g2) = Lt.

(** The number of captions of a source record; none for the other shape. *)
Definition source_caption_count (e : example) : nat :=
  match e with
  | Source e => length (Src.captions e)
  | Imtext _ => 0
  end.

(** The source record of a row, given its class name: the fields of the
    row, and its captions paired position by position. *)
Definition source_record (r : row) (class_name : string) : example :=
  Source {| Src.image_id := image_id r;
            Src.class_id := class_id r;
            Src.image_path := image_path r;
            Src.class_name := class_name;
            Src.captions :=
              map (fun p => {| Src.caption_eng := fst p;
                               Src.caption_ind := snd p |})
                  (combine (en_caption r) (id_caption r)) |}.

(** The captions held under a file name by a list of groups, in order. *)
Definition held_captions (english : bool) (image_name : string)
    (gs : list grouped_row) : list string :=
  concat (map (group_field english)
              (filter (fun g => (image_name =? g_image_name g)%string) gs)).

(** A run of the builder: [_info] is evaluated when the builder is set up,
    before any example is asked for. *)
Definition builder_run (config : SEACrowdConfig) (data : DataFrame row)
    (split : string) : Gen (Z * example) unit :=
  lift (_info config) ;;; _generate_examples config data split.

(** Every group holds a caption. *)
Definition holds_caption (g : grouped_row) : Prop := g_id_caption g <> [].

(** The class names a record carries, whatever its shape. *)
Definition example_class_names (e : example) : list string :=
  match e with
  | Source e => [Src.class_name e]
  | Imtext e => Schemas.labels (Schemas.meta e)
  end.

End CubBahasa.

(** ** mswc: spoken words read from parquet files *)

Module Mswc.
Import Py Pd.

Definition _DATASETNAME : string := "mswc".

Section Loader.

(** A row of a parquet file, as [row.to_dict()] returns it. *)
Variable row : Type.

(** [pd.read_parquet]. *)
Variable read_parquet : string -> exn + DataFrame row.

(** [str(TASK_TO_SCHEMA[Tasks.SPEECH_RECOGNITION]).lower()]; the table is
    imported from [seacrowd.utils.constants]. *)
Variable task_schema : string.

Definition _SUPPORTED_SCHEMA_STRINGS : list string :=
  map (fun task => ("seacrowd_" ++ task)%string) [task_schema].

(** The loop over the files and their rows, shared by both branches. *)
Definition generate_rows (paths : list string) (idx : Z) : Gen (Z * row) Z :=
  for_each paths idx
    (fun path idx =>
       df <- lift (read_parquet path) ;;
       for_each (iterrows df) idx
         (fun '(_, r) idx => yield (idx, r) ;;; ret (idx + 1))).

Definition _generate_examples (config : SEACrowdConfig) (paths : list string)
  : Gen (Z * row) unit :=
  let is_schema_found := false in
  let idx := 0 in
  st <- (if (schema config =? "source")%string then
           idx <- generate_rows paths idx ;;
           ret (true, idx)
         else
           for_each _SUPPORTED_SCHEMA_STRINGS (is_schema_found, idx)
             (fun seacrowd_schema '(is_schema_found, idx) =>
                if (schema config =? seacrowd_schema)%string then
                  idx <- generate_rows paths idx ;;
                  ret (true, idx)
                else ret (is_schema_found, idx))) ;;
  if negb (fst st)
  then raise (ValueError ("Invalid config: " ++ name config)%string)
  else ret tt.

(** The two feature sets [_info] can declare. *)
Inductive Features : Type :=
| SourceFeatures
| SpeechTextFeatures.

Definition _info (config : SEACrowdConfig) : exn + Features :=
  if (schema config =? "source")%string then inr SourceFeatures
  else if (schema config =? "seacrowd_" ++ task_schema)%string then
    inr SpeechTextFeatures
  else inl (ValueError ("Invalid config: " ++ name config)%string).

(** A run of the builder: [_info] is evaluated when the builder is set up,
    before any example is asked for. *)
Definition builder_run (config : SEACrowdConfig) (paths : list string)
  : Gen (Z * row) unit :=
  lift (_info config) ;;; _generate_examples config paths.

End Loader.

End Mswc.

(** ** Vocabulary shared by the properties of the three generators *)

Module Spec.
Import Py.

(** The yielded ids are [k], [k + 1], [k + 2], ... in this order. *)
Fixpoint ids_from {E} (k : Z) (ys : list (Z * E)) : Prop :=
  match ys with
  | [] => True
  | y :: ys' => fst y = k /\ ids_from (k + 1) ys'
  end.

(** Sequential ids: they start at 0 and go up by exactly one. *)
Definition sequential_ids {E} (ys : list (Z * E)) : Prop := ids_from 0 ys.

(** A loop body that keeps a counter: started with the counter at [k] it
    yields under the ids [k], [k + 1], ... and, when it ends normally, leaves
    the counter one past the last id it used. *)
Definition counts {E} (k : Z) (g : Gen (Z * E) Z) : Prop :=
  ids_from k (yielded g)
  /\ forall k', ending g = inr k' -> k' = k + Z.of_nat (length (yielded g)).

(** A list without repeated strings, decided. *)
Fixpoint nodupb (l : list string) : bool :=
  match l with
  | [] => true
  | x :: l' => negb (existsb (String.eqb x) l') && nodupb l'
  end.

(** The rows of a list numbered [k], [k + 1], ... in order. *)
Fixpoint numbered {R} (k : Z) (rows : list R) : list (Z * R) :=
  match rows with
  | [] => []
  | r :: rows' => (k, r) :: numbered (k + 1) rows'
  end.

End Spec.

(** ** Sample inputs *)

Module Samples.
Import Py.

(** A train directory in which two child directories carry the label 00. *)
Definition fs_shared_label : filesystem :=
  {| listdir := fun p =>
       if (p =? "/data/train")%string then inr ["00-a"; "01-b"; "00-c"]
       else if (p =? "/data/train/00-a")%string then inr ["x.png"; "y.png"]
       else if (p =? "/data/train/01-b")%string then inr ["z.png"]
       else if (p =? "/data/train/00-c")%string then inr ["w.png"]
       else inl (OSError p) |}.

(** A train directory with one child directory per label; there is no test
    directory at all. *)
Definition fs_digits : filesystem :=
  {| listdir := fun p =>
       if (p =? "/cache/tr/train")%string then inr ["03-three"; "07-seven"]
       else if (p =? "/cache/tr/train/03-three")%string then inr ["p.png"; "q.png"]
       else if (p =? "/cache/tr/train/07-seven")%string then inr ["r.png"]
       else inl (OSError p) |}.

Definition dl_digits : BuraphaTh.DownloadManager :=
  {| BuraphaTh.download_and_extract := fun _ =>
       inr [("test", "/cache/te"); ("train", "/cache/tr")] |}.

(** Three images, all with captions, labels and split rows; the first one
    belongs to the test split. *)
Definition cub_download : CubBahasa.extracted :=
  {| CubBahasa.image_root := "/cache/cub";
     CubBahasa.images_txt :=
       [ (1, "001.Black_footed_Albatross/a.jpg");
         (2, "001.Black_footed_Albatross/b.jpg");
         (3, "002.Laysan_Albatross/c.jpg") ];
     CubBahasa.image_class_labels_txt := [(1, 1); (2, 1); (3, 2)];
     CubBahasa.train_test_split_txt := [(1, 0); (2, 1); (3, 1)];
     CubBahasa.captions_json :=
       {| CubBahasa.Json.dataset :=
            [ {| CubBahasa.Json.filename := "a.jpg";
                 CubBahasa.Json.captions :=
                   [ {| CubBahasa.Json.english := "a bird";
                        CubBahasa.Json.indo := "seekor burung" |} ] |};
              {| CubBahasa.Json.filename := "b.jpg";
                 CubBahasa.Json.captions :=
                   [ {| CubBahasa.Json.english := "a white bird";
                        CubBahasa.Json.indo := "burung putih" |} ] |};
              {| CubBahasa.Json.filename := "c.jpg";
                 CubBahasa.Json.captions :=
                   [ {| CubBahasa.Json.english := "a grey bird";
                        CubBahasa.Json.indo := "burung abu-abu" |} ] |} ] |} |}.

(** Three images with labels and split rows; the caption file has two
    captions for each of the first two and none for the third. *)
Definition cub_two_of_three : CubBahasa.extracted :=
  {| CubBahasa.image_root := "/cache/cub";
     CubBahasa.images_txt :=
       [ (1, "001.Black_footed_Albatross/a.jpg");
         (2, "001.Black_footed_Albatross/b.jpg");
         (3, "002.Laysan_Albatross/c.jpg") ];
     CubBahasa.image_class_labels_txt := [(1, 1); (2, 1); (3, 2)];
     CubBahasa.train_test_split_txt := [(1, 0); (2, 1); (3, 1)];
     CubBahasa.captions_json :=
       {| CubBahasa.Json.dataset :=
            [ {| CubBahasa.Json.filename := "b.jpg";
                 CubBahasa.Json.captions :=
                   [ {| CubBahasa.Json.english := "a white bird";
                        CubBahasa.Json.indo := "burung putih" |};
                     {| CubBahasa.Json.english := "a bird on a rock";
                        CubBahasa.Json.indo := "burung di atas batu" |} ] |};
              {| CubBahasa.Json.filename := "a.jpg";
                 CubBahasa.Json.captions :=
                   [ {| CubBahasa.Json.english := "a bird";
                        CubBahasa.Json.indo := "seekor burung" |};
                     {| CubBahasa.Json.english := "a large bird";
                        CubBahasa.Json.indo := "burung besar" |} ] |} ] |} |}.

(** A joined row with three captions. *)
Definition gull_row : CubBahasa.row :=
  {| CubBahasa.image_id := 7;
     CubBahasa.image_path := ["/"; "cub"; "images"; "g.jpg"];
     CubBahasa.en_caption := ["a gull"; "a grey gull"; "a gull at sea"];
     CubBahasa.id_caption := ["camar"; "camar abu-abu"; "camar di laut"];
     CubBahasa.class_id := 59;
     CubBahasa.is_train := 1 |}.

(** A configuration whose schema no loader declares. *)
Definition bogus_config : SEACrowdConfig :=
  BuraphaTh.config_constructor "digit" "bogus_schema" "1.0.0".

(** A file system on which nothing can be listed. *)
Definition fs_nothing : filesystem :=
  {| listdir := fun p => inl (OSError p) |}.

(** A train directory whose second child cannot be listed. *)
Definition fs_broken_child : filesystem :=
  {| listdir := fun p =>
       if (p =? "/cache/tr/train")%string then inr ["03-three"; "07-seven"]
       else if (p =? "/cache/tr/train/03-three")%string then inr ["p.png"]
       else inl (OSError p) |}.

(** Two images in the train split; the class id of the second one is not in
    the class table. *)
Definition cub_bad_class : CubBahasa.extracted :=
  {| CubBahasa.image_root := "/cache/cub";
     CubBahasa.images_txt :=
       [ (1, "001.Black_footed_Albatross/a.jpg");
         (2, "001.Black_footed_Albatross/b.jpg") ];
     CubBahasa.image_class_labels_txt := [(1, 1); (2, 201)];
     CubBahasa.train_test_split_txt := [(1, 1); (2, 1)];
     CubBahasa.captions_json :=
       {| CubBahasa.Json.dataset :=
            [ {| CubBahasa.Json.filename := "a.jpg";
                 CubBahasa.Json.captions :=
                   [ {| CubBahasa.Json.english := "a bird";
                        CubBahasa.Json.indo := "seekor burung" |} ] |};
              {| CubBahasa.Json.filename := "b.jpg";
                 CubBahasa.Json.captions :=
                   [ {| CubBahasa.Json.english := "a white bird";
                        CubBahasa.Json.indo := "burung putih" |} ] |} ] |} |}.

(** A joined row whose class id is not in the class table. *)
Definition stray_row : CubBahasa.row :=
  {| CubBahasa.image_id := 8;
     CubBahasa.image_path := ["/"; "cub"; "images"; "s.jpg"];
     CubBahasa.en_caption := ["a bird"];
     CubBahasa.id_caption := ["seekor burung"];
     CubBahasa.class_id := 999;
     CubBahasa.is_train := 1 |}.

(** The tables of [cub_two_of_three] with a second label row for image 1. *)
Definition cub_repeated_label : CubBahasa.extracted :=
  {| CubBahasa.image_root := CubBahasa.image_root cub_two_of_three;
     CubBahasa.images_txt := CubBahasa.images_txt cub_two_of_three;
     CubBahasa.image_class_labels_txt := [(1, 1); (1, 2); (2, 1); (3, 2)];
     CubBahasa.train_test_split_txt :=
       CubBahasa.train_test_split_txt cub_two_of_three;
     CubBahasa.captions_json := CubBahasa.captions_json cub_two_of_three |}.

End Samples.

(** * Properties *)

(** ** The generator monad *)

Section GenFacts.
Import Py.
Context {Y : Type}.

Lemma bind_ret_l {A B} (a : A) (f : A -> Gen Y B) : bind (ret a) f = f a.
Proof. unfold bind, ret; simpl. now destruct (f a). Qed.

Lemma bind_lift_inr {A B} (a : A) (f : A -> Gen Y B) :
  bind (lift (inr a)) f = f a.
Proof. apply bind_ret_l. Qed.

Lemma bind_lift_inl {A B} (e : exn) (f : A -> Gen Y B) :
  bind (lift (inl e)) f = ([], inl e).
Proof. reflexivity. Qed.

Lemma bind_assoc {A B C} (m : Gen Y A) (f : A -> Gen Y B) (g : B -> Gen Y C) :
  bind (bind m f) g = bind m (fun a => bind (f a) g).
Proof.
  destruct m as [ys [e | a]]; unfold bind; simpl; [reflexivity |].
  destruct (f a) as [ys' [e' | b]]; simpl; [reflexivity |].
  now rewrite app_assoc.
Qed.

Lemma bind_ext {A B} (m : Gen Y A) (f g : A -> Gen Y B) :
  (forall a, f a = g a) -> bind m f = bind m g.
Proof.
  intros H. unfold bind. destruct (snd m); [reflexivity |]. now rewrite H.
Qed.

Lemma bind_yielded_prefix {A B} (m : Gen Y A) (f : A -> Gen Y B) :
  exists rest, yielded (bind m f) = yielded m ++ rest.
Proof.
  unfold bind, yielded. destruct (snd m); simpl.
  - exists []. now rewrite app_nil_r.
  - now eexists.
Qed.

Lemma for_each_ext {X S} (xs : list X) (s : S) (b1 b2 : X -> S -> Gen Y S) :
  (forall x s', b1 x s' = b2 x s') -> for_each xs s b1 = for_each xs s b2.
Proof.
  intros H. revert s. induction xs as [| x xs IH]; intros s; simpl.
  - reflexivity.
  - rewrite H. apply bind_ext. intros a. apply IH.
Qed.

Lemma for_each_app {X S} (xs ys : list X) (s : S) (body : X -> S -> Gen Y S) :
  for_each (xs ++ ys) s body
  = bind (for_each xs s body) (fun s' => for_each ys s' body).
Proof.
  revert s. induction xs as [| x xs IH]; intros s; simpl.
  - now rewrite bind_ret_l.
  - rewrite bind_assoc. apply bind_ext. intros a. apply IH.
Qed.

Lemma for_each_map {X X' S} (f : X -> X') (xs : list X) (s : S)
    (body : X' -> S -> Gen Y S) :
  for_each (map f xs) s body = for_each xs s (fun x => body (f x)).
Proof.
  revert s. induction xs as [| x xs IH]; intros s; simpl.
  - reflexivity.
  - apply bind_ext. intros a. apply IH.
Qed.

(** A loop over a list of lists is the loop over the flattened list. *)
Lemma for_each_nested {K X S} (kxs : list (K * list X)) (s : S)
    (body : K -> X -> S -> Gen Y S) :
  for_each kxs s (fun kx s' => for_each (snd kx) s' (body (fst kx)))
  = for_each (flat_map (fun kx => map (pair (fst kx)) (snd kx)) kxs) s
             (fun kx s' => body (fst kx) (snd kx) s').
Proof.
  revert s. induction kxs as [| [k xs] kxs IH]; intros s; simpl.
  - reflexivity.
  - rewrite for_each_app, for_each_map. simpl.
    apply bind_ext. intros a. apply IH.
Qed.

(** A loop none of whose iterations yields, yields nothing. *)
Lemma for_each_silent {X S} (xs : list X) (s : S) (body : X -> S -> Gen Y S) :
  (forall x s', yielded (body x s') = []) ->
  yielded (for_each xs s body) = [].
Proof.
  intros H. revert s. induction xs as [| x xs IH]; intros s; simpl.
  - reflexivity.
  - unfold bind, yielded in *. specialize (H x s).
    destruct (body x s) as [ys [e | a]]; simpl in *; subst; [reflexivity |].
    apply IH.
Qed.

End GenFacts.

(** ** Counters and ids *)

Section Counting.
Import Py Spec.
Context {E : Type}.

Lemma ids_from_app (ys zs : list (Z * E)) (k : Z) :
  ids_from k ys -> ids_from (k + Z.of_nat (length ys)) zs ->
  ids_from k (ys ++ zs).
Proof.
  revert k. induction ys as [| y ys IH]; intros k Hy Hz; simpl in *.
  - now replace (k + 0) with k in Hz by lia.
  - destruct Hy as [Hk Hy]. split; [exact Hk |].
    apply IH; [exact Hy |].
    now replace (k + 1 + Z.of_nat (length ys))
      with (k + Z.pos (Pos.of_succ_nat (length ys))) by lia.
Qed.

Lemma ids_from_nth (ys : list (Z * E)) (k : Z) (n : nat) (y : Z * E) :
  ids_from k ys -> nth_error ys n = Some y -> fst y = k + Z.of_nat n.
Proof.
  revert k n. induction ys as [| y0 ys IH]; intros k n Hy Hn.
  - now destruct n.
  - destruct Hy as [Hk Hy]. destruct n as [| n]; simpl in Hn.
    + injection Hn as <-. lia.
    + rewrite (IH _ _ Hy Hn). lia.
Qed.

(** The ids of a sequential run are exactly [range(len(ys))]. *)
Lemma ids_from_range (ys : list (Z * E)) (k : Z) :
  ids_from k ys <-> map fst ys = map (fun i => k + i) (range (length ys)).
Proof.
  unfold range. revert k. induction ys as [| y ys IH]; intros k; simpl.
  - tauto.
  - rewrite IH, <- seq_shift, !map_map. split.
    + intros [-> ->]. f_equal; [lia |]. apply map_ext. intros; lia.
    + intros H. injection H as H1 H2. split; [lia |].
      rewrite H2. apply map_ext. intros; lia.
Qed.

Lemma counts_bind (k : Z) (m : Gen (Z * E) Z) (f : Z -> Gen (Z * E) Z) :
  counts k m -> (forall k', ending m = inr k' -> counts k' (f k')) ->
  counts k (bind m f).
Proof.
  destruct m as [ys [e | a]]; unfold counts, bind, yielded, ending; simpl;
    intros [Hy Hk] Hf.
  - split; [exact Hy | discriminate].
  - specialize (Hk a eq_refl). destruct (Hf a eq_refl) as [Hy' Hk']. subst a.
    split.
    + now apply ids_from_app.
    + intros k' Hend. rewrite (Hk' k' Hend), length_app. lia.
Qed.

Lemma counts_for_each {X} (xs : list X) (body : X -> Z -> Gen (Z * E) Z) :
  (forall x k, counts k (body x k)) ->
  forall k, counts k (for_each xs k body).
Proof.
  intros Hbody. induction xs as [| x xs IH]; intros k; simpl.
  - split; simpl; [exact I |]. intros k' H. injection H as <-. lia.
  - apply counts_bind; [apply Hbody |]. intros k' _. apply IH.
Qed.

Lemma counts_raise (k : Z) (e : exn) : counts k (@lift (Z * E) Z (inl e)).
Proof. split; simpl; [exact I | discriminate]. Qed.

Lemma counts_yield_next (k : Z) (x : E) :
  counts k (bind (yield (k, x)) (fun _ => ret (k + 1))).
Proof.
  split; simpl; [tauto |]. intros k' H. injection H as <-. reflexivity.
Qed.

End Counting.

(** ** Value lookup in a list *)

Section Index.
Import Py.

Lemma index_from_found (l : list string) (x : string) (p c : Z) :
  index_from l x p = inr c ->
  p <= c
  /\ nth_error l (Z.to_nat (c - p)) = Some x
  /\ forall j, (j < Z.to_nat (c - p))%nat -> nth_error l j <> Some x.
Proof.
  revert p. induction l as [| y l IH]; intros p H; simpl in H; [discriminate |].
  destruct (String.eqb_spec y x) as [-> | Hne].
  - injection H as <-. replace (p - p) with 0 by lia. simpl.
    repeat split; [lia | intros j Hj; lia].
  - destruct (IH _ H) as (Hle & Hnth & Hfirst).
    replace (Z.to_nat (c - p)) with (S (Z.to_nat (c - (p + 1)))) by lia.
    repeat split; [lia | exact Hnth |].
    intros [| j] Hj; simpl.
    + congruence.
    + apply Hfirst. lia.
Qed.

Lemma index_from_In (l : list string) (x : string) (p : Z) :
  In x l -> exists c, index_from l x p = inr c.
Proof.
  revert p. induction l as [| y l IH]; intros p Hin; [contradiction |]. simpl.
  destruct (String.eqb_spec y x) as [-> | Hne]; [now eexists |].
  apply IH. destruct Hin; [contradiction | assumption].
Qed.

Lemma index_from_absent (l : list string) (x : string) (p : Z) :
  ~ In x l -> index_from l x p = inl (ValueError x).
Proof.
  revert p. induction l as [| y l IH]; intros p Hnin; simpl; [reflexivity |].
  destruct (String.eqb_spec y x) as [-> | Hne].
  - exfalso. apply Hnin. now left.
  - apply IH. intros Hin. apply Hnin. now right.
Qed.

(** [l.index(x)] succeeds exactly on the members of [l], and then returns
    the first position that holds [x]. *)
Lemma index_spec (l : list string) (x : string) :
  match index l x with
  | inr c =>
      0 <= c /\ nth_error l (Z.to_nat c) = Some x
      /\ forall j, (j < Z.to_nat c)%nat -> nth_error l j <> Some x
  | inl e => e = ValueError x /\ ~ In x l
  end.
Proof.
  unfold index. destruct (in_dec string_dec x l) as [Hin | Hnin].
  - destruct (index_from_In l x 0 Hin) as [c Hc]. rewrite Hc.
    destruct (index_from_found _ _ _ _ Hc) as (H1 & H2 & H3).
    now replace (c - 0) with c in * by lia.
  - now rewrite (index_from_absent l x 0 Hnin).
Qed.

End Index.

(** ** A counting loop that resolves one label per item *)

Section ResolvingLoop.
Import Py.
Context {E : Type}.
Variable enum : list string.
Variable mk : Z -> string -> Z -> E.
Variable body : string * string -> Z -> Gen (Z * E) Z.

Hypothesis body_eq : forall kv k,
  body kv k =
  match index enum (fst kv) with
  | inl e => ([], inl e)
  | inr code => ([(k, mk k (snd kv) code)], inr (k + 1))
  end.

Lemma resolving_loop_nth (its : list (string * string)) (k : Z) (n : nat)
    (i : Z) (e : E) :
  nth_error (yielded (for_each its k body)) n = Some (i, e) ->
  exists key img code,
    nth_error its n = Some (key, img)
    /\ index enum key = inr code
    /\ i = k + Z.of_nat n
    /\ e = mk i img code.
Proof.
  revert k n. induction its as [| [key img] its IH]; intros k n H.
  - now destruct n.
  - simpl in H. rewrite body_eq in H. simpl in H.
    destruct (index enum key) as [err | code] eqn:Hix.
    + now destruct n.
    + unfold bind, yielded in H. simpl in H. destruct n as [| n]; simpl in H.
      * injection H as <- <-. exists key, img, code.
        split; [reflexivity |]. split; [exact Hix |].
        split; [simpl; lia | reflexivity].
      * destruct (IH _ _ H) as (key' & img' & code' & H1 & H2 & H3 & H4).
        exists key', img', code'.
        split; [exact H1 |]. split; [exact H2 |]. split; [lia | exact H4].
Qed.

Lemma resolving_loop_fails (pre post : list (string * string))
    (key img : string) (k : Z) :
  Forall (fun kv => In (fst kv) enum) pre -> ~ In key enum ->
  length (yielded (for_each (pre ++ (key, img) :: post) k body)) = length pre
  /\ ending (for_each (pre ++ (key, img) :: post) k body)
     = inl (ValueError key).
Proof.
  intros Hpre Hkey. revert k.
  induction Hpre as [| [key0 img0] pre Hin _ IH]; intros k; simpl.
  - rewrite body_eq. simpl. unfold index.
    now rewrite (index_from_absent enum key 0 Hkey).
  - rewrite body_eq. simpl in *.
    destruct (index_from_In enum key0 0 Hin) as [code Hcode].
    unfold index. rewrite Hcode.
    destruct (IH (k + 1)) as [Hlen Hend].
    unfold bind, yielded, ending in *. simpl. now rewrite Hlen, Hend.
Qed.

Lemma resolving_loop_completes (its : list (string * string)) (k : Z) :
  Forall (fun kv => In (fst kv) enum) its ->
  length (yielded (for_each its k body)) = length its
  /\ ending (for_each its k body) = inr (k + Z.of_nat (length its)).
Proof.
  intros Hits. revert k.
  induction Hits as [| [key0 img0] its Hin _ IH]; intros k; simpl.
  - split; [reflexivity | f_equal; lia].
  - rewrite body_eq. simpl in *.
    destruct (index_from_In enum key0 0 Hin) as [code Hcode].
    unfold index. rewrite Hcode.
    destruct (IH (k + 1)) as [Hlen Hend].
    unfold bind, yielded, ending in *. simpl. rewrite Hlen, Hend.
    split; [reflexivity | f_equal; lia].
Qed.

Lemma resolving_loop_counts (its : list (string * string)) (k : Z) :
  Spec.counts k (for_each its k body).
Proof.
  apply counts_for_each. intros kv k'. rewrite body_eq.
  destruct (index enum (fst kv)).
  - split; simpl; [exact I | discriminate].
  - split; simpl; [tauto |]. intros k'' H. now injection H as <-.
Qed.

End ResolvingLoop.

(** ** burapha_th *)

Section BuraphaFacts.
Import Py BuraphaTh.

Lemma task_membership (task : string) :
  existsb (String.eqb task) ["character"; "digit"]
  = ((task =? "character") || (task =? "digit"))%string.
Proof. simpl. now rewrite orb_false_r. Qed.

Lemma get_task_constructor (subset schema version : string) :
  In subset _SUBSETS ->
  get_task (config_constructor subset schema version) = inr subset.
Proof. intros [<- | [<- | [<- | []]]]; reflexivity. Qed.

(** The record built under the source schema. *)
Lemma generate_example_source (config : SEACrowdConfig)
    (task : string) (kv : string * string) (k : Z) :
  schema config = "source" ->
  generate_example config task (fst kv) (snd kv) k =
  match index (enumeration task) (fst kv) with
  | inl e => ([], inl e)
  | inr code =>
      ([(k, Source {| id := str k; image_paths := snd kv; label := [code] |})],
       inr (k + 1))
  end.
Proof.
  intros Hs. unfold generate_example, enumeration. rewrite Hs. simpl.
  destruct ((task =? "character") || (task =? "digit"))%string;
    match goal with |- context [index ?l ?x] => destruct (index l x) end;
    reflexivity.
Qed.

(** The record built under the unified image-text schema. *)
Lemma generate_example_imtext (config : SEACrowdConfig)
    (task : string) (kv : string * string) (k : Z) :
  schema config = "seacrowd_imtext" ->
  generate_example config task (fst kv) (snd kv) k =
  match index (enumeration task) (fst kv) with
  | inl e => ([], inl e)
  | inr code =>
      ([(k, Imtext {| Schemas.id := str k;
                      Schemas.image_paths := [snd kv];
                      Schemas.texts := None;
                      Schemas.meta := {| Schemas.context := None;
                                         Schemas.labels := [code] |} |})],
       inr (k + 1))
  end.
Proof.
  intros Hs. unfold generate_example, enumeration.
  rewrite Hs, task_membership. simpl.
  destruct ((task =? "character") || (task =? "digit"))%string;
    match goal with |- context [index ?l ?x] => destruct (index l x) end;
    reflexivity.
Qed.

(** Under a schema the loader does not declare, an item yields nothing. *)
Lemma generate_example_other (config : SEACrowdConfig)
    (task key img : string) (k : Z) :
  schema config <> "source" -> schema config <> "seacrowd_imtext" ->
  generate_example config task key img k = ([], inr (k + 1)).
Proof.
  intros H1 H2. unfold generate_example.
  destruct (String.eqb_spec (schema config) "source"); [contradiction |].
  destruct (String.eqb_spec (schema config) "seacrowd_imtext");
    [contradiction | reflexivity].
Qed.

(** The generator is one loop over the items of the index. *)
Lemma generate_examples_items (config : SEACrowdConfig)
    (filepath : dict (list string)) (split task : string) :
  get_task config = inr task ->
  _generate_examples config filepath split =
  bind (for_each (dataset_items filepath) 0
          (fun kv c => generate_example config task (fst kv) (snd kv) c))
       (fun _ => ret tt).
Proof.
  intros Ht. unfold _generate_examples. rewrite Ht, bind_lift_inr.
  unfold dataset_items.
  rewrite <- (for_each_nested (items filepath) 0 (generate_example config task)).
  f_equal. apply for_each_ext. now intros [key imgs] s.
Qed.

Lemma yielded_then_ret {Y A B} (m : Gen Y A) (b : B) :
  yielded (bind m (fun _ => ret b)) = yielded m.
Proof.
  unfold bind, yielded. destruct (snd m); simpl; [reflexivity |].
  apply app_nil_r.
Qed.

Lemma ending_then_ret {Y A B} (m : Gen Y A) (b : B) :
  ending (bind m (fun _ => ret b))
  = match ending m with inl e => inl e | inr _ => inr b end.
Proof. unfold bind, ending. now destruct (snd m). Qed.

End BuraphaFacts.

Section BuraphaRecords.
Import Py BuraphaTh.

(** Every record the generator yields under a declared schema comes from
    the item at the same position of the index, carries that position as its
    id, and holds the code its label resolves to. *)
Lemma burapha_yield_nth (subset schema version split : string)
    (filepath : dict (list string)) (n : nat) (i : Z) (e : example) :
  In subset _SUBSETS ->
  schema = "source" \/ schema = "seacrowd_imtext" ->
  nth_error (yielded (_generate_examples
                        (config_constructor subset schema version)
                        filepath split)) n = Some (i, e) ->
  exists key img code,
    nth_error (dataset_items filepath) n = Some (key, img)
    /\ index (enumeration subset) key = inr code
    /\ i = Z.of_nat n
    /\ ((schema = "source"
         /\ e = Source {| id := str i; image_paths := img; label := [code] |})
        \/ (schema = "seacrowd_imtext"
            /\ e = Imtext {| Schemas.id := str i;
                             Schemas.image_paths := [img];
                             Schemas.texts := None;
                             Schemas.meta := {| Schemas.context := None;
                                                Schemas.labels := [code] |} |})).
Proof.
  intros Hsub Hschema H.
  rewrite (generate_examples_items _ _ _ subset) in H
    by now apply get_task_constructor.
  rewrite yielded_then_ret in H.
  destruct Hschema as [-> | ->].
  - destruct (resolving_loop_nth (enumeration subset)
                (fun k img code =>
                   Source {| id := str k; image_paths := img; label := [code] |})
                _ (fun kv k => generate_example_source
                                 (config_constructor subset "source" version)
                                 subset kv k eq_refl)
                _ _ _ _ _ H) as (key & img & code & H1 & H2 & H3 & H4).
    exists key, img, code. repeat (split; [assumption || lia |]). now left.
  - destruct (resolving_loop_nth (enumeration subset)
                (fun k img code =>
                   Imtext {| Schemas.id := str k;
                             Schemas.image_paths := [img];
                             Schemas.texts := None;
                             Schemas.meta := {| Schemas.context := None;
                                                Schemas.labels := [code] |} |})
                _ (fun kv k => generate_example_imtext
                                 (config_constructor subset "seacrowd_imtext" version)
                                 subset kv k eq_refl)
                _ _ _ _ _ H) as (key & img & code & H1 & H2 & H3 & H4).
    exists key, img, code. repeat (split; [assumption || lia |]). now right.
Qed.

Lemma index_member (l : list string) (x : string) (code : Z) :
  index l x = inr code ->
  In x l /\ 0 <= code /\ getitem l (Z.to_nat code) = inr x.
Proof.
  intros H. pose proof (index_spec l x) as Hs. rewrite H in Hs.
  destruct Hs as (H0 & Hn & _). unfold getitem. rewrite Hn.
  repeat split; [| exact H0]. eapply nth_error_In, Hn.
Qed.

Lemma index_absent (l : list string) (x : string) (e : exn) :
  index l x = inl e -> ~ In x l.
Proof.
  intros H. pose proof (index_spec l x) as Hs. rewrite H in Hs. apply Hs.
Qed.

(** C4: round trip of the label resolution under the source schema.  Every
    record yielded under the source schema comes from an item whose
    directory label is a member of the task's enumeration, its [label] list
    holds one integer, and indexing the enumeration with that integer gives
    back the directory label. *)
Theorem C4_source_label_round_trip (subset version split : string)
    (filepath : dict (list string)) (n : nat) (i : Z) (e : example) :
  In subset _SUBSETS ->
  nth_error (yielded (_generate_examples
                        (config_constructor subset "source" version)
                        filepath split)) n = Some (i, e) ->
  exists key img code,
    nth_error (dataset_items filepath) n = Some (key, img)
    /\ In key (enumeration subset)
    /\ e = Source {| id := str i; image_paths := img; label := [code] |}
    /\ 0 <= code
    /\ getitem (enumeration subset) (Z.to_nat code) = inr key.
Proof.
  intros Hsub H.
  destruct (burapha_yield_nth _ _ _ _ _ _ _ _ Hsub (or_introl eq_refl) H)
    as (key & img & code & H1 & H2 & _ & [[_ H4] | [Hs _]]);
    [| discriminate Hs].
  destruct (index_member _ _ _ H2) as (Hin & H0 & Hget).
  now exists key, img, code.
Qed.

Lemma C4_source_label_round_trip_witness :
  exists key img code,
    nth_error (dataset_items [("07", ["a.png"; "b.png"]); ("10", ["c.png"])]) 2
    = Some (key, img)
    /\ In key (enumeration "digit")
    /\ Source {| id := "2"; image_paths := "c.png"; label := [10] |}
       = Source {| id := str 2; image_paths := img; label := [code] |}
    /\ 0 <= code
    /\ getitem (enumeration "digit") (Z.to_nat code) = inr key.
Proof.
  apply (C4_source_label_round_trip "digit" "1.0.0" "train"
           [("07", ["a.png"; "b.png"]); ("10", ["c.png"])] 2).
  - simpl. tauto.
  - reflexivity.
Defined.

(** The run of the generator under a declared schema, by the membership of
    the labels of its items. *)
Lemma burapha_run_fails (subset schema version split : string)
    (filepath : dict (list string)) (pre post : list (string * string))
    (key img : string) :
  In subset _SUBSETS ->
  schema = "source" \/ schema = "seacrowd_imtext" ->
  dataset_items filepath = pre ++ (key, img) :: post ->
  Forall (fun kv => In (fst kv) (enumeration subset)) pre ->
  ~ In key (enumeration subset) ->
  let run := _generate_examples (config_constructor subset schema version)
                                filepath split in
  length (yielded run) = length pre /\ ending run = inl (ValueError key).
Proof.
  intros Hsub Hschema Hits Hpre Hkey run. subst run.
  rewrite (generate_examples_items _ _ _ subset)
    by now apply get_task_constructor.
  rewrite yielded_then_ret, ending_then_ret, Hits.
  destruct Hschema as [-> | ->].
  - destruct (resolving_loop_fails (enumeration subset)
                (fun k img code =>
                   Source {| id := str k; image_paths := img; label := [code] |}) _
                (fun kv k => generate_example_source
                               (config_constructor subset "source" version)
                               subset kv k eq_refl)
                pre post key img 0 Hpre Hkey) as [Hlen Hend].
    now rewrite Hlen, Hend.
  - destruct (resolving_loop_fails (enumeration subset)
                (fun k img code =>
                   Imtext {| Schemas.id := str k;
                             Schemas.image_paths := [img];
                             Schemas.texts := None;
                             Schemas.meta := {| Schemas.context := None;
                                                Schemas.labels := [code] |} |}) _
                (fun kv k => generate_example_imtext
                               (config_constructor subset "seacrowd_imtext" version)
                               subset kv k eq_refl)
                pre post key img 0 Hpre Hkey) as [Hlen Hend].
    now rewrite Hlen, Hend.
Qed.

Lemma burapha_run_completes (subset schema version split : string)
    (filepath : dict (list string)) :
  In subset _SUBSETS ->
  schema = "source" \/ schema = "seacrowd_imtext" ->
  Forall (fun kv => In (fst kv) (enumeration subset)) (dataset_items filepath) ->
  let run := _generate_examples (config_constructor subset schema version)
                                filepath split in
  length (yielded run) = length (dataset_items filepath)
  /\ ending run = inr tt.
Proof.
  intros Hsub Hschema Hits run. subst run.
  rewrite (generate_examples_items _ _ _ subset)
    by now apply get_task_constructor.
  rewrite yielded_then_ret, ending_then_ret.
  destruct Hschema as [-> | ->].
  - destruct (resolving_loop_completes (enumeration subset)
                (fun k img code =>
                   Source {| id := str k; image_paths := img; label := [code] |}) _
                (fun kv k => generate_example_source
                               (config_constructor subset "source" version)
                               subset kv k eq_refl)
                _ 0 Hits) as [Hlen Hend].
    now rewrite Hlen, Hend.
  - destruct (resolving_loop_completes (enumeration subset)
                (fun k img code =>
                   Imtext {| Schemas.id := str k;
                             Schemas.image_paths := [img];
                             Schemas.texts := None;
                             Schemas.meta := {| Schemas.context := None;
                                                Schemas.labels := [code] |} |}) _
                (fun kv k => generate_example_imtext
                               (config_constructor subset "seacrowd_imtext" version)
                               subset kv k eq_refl)
                _ 0 Hits) as [Hlen Hend].
    now rewrite Hlen, Hend.
Qed.

(** C8: under the unified image-text schema every record of the handwriting
    loader has no text and no context, and its labels list holds exactly the
    position of the item's class code in the task's enumeration. *)
Theorem C8_imtext_without_caption (subset version split : string)
    (filepath : dict (list string)) (n : nat) (i : Z) (e : example) :
  In subset _SUBSETS ->
  nth_error (yielded (_generate_examples
                        (config_constructor subset "seacrowd_imtext" version)
                        filepath split)) n = Some (i, e) ->
  exists key img code r,
    nth_error (dataset_items filepath) n = Some (key, img)
    /\ index (enumeration subset) key = inr code
    /\ e = Imtext r
    /\ Schemas.texts r = None
    /\ Schemas.context (Schemas.meta r) = None
    /\ Schemas.labels (Schemas.meta r) = [code]
    /\ Schemas.image_paths r = [img]
    /\ Schemas.id r = str i.
Proof.
  intros Hsub H.
  destruct (burapha_yield_nth _ _ _ _ _ _ _ _ Hsub (or_intror eq_refl) H)
    as (key & img & code & H1 & H2 & _ & [[Hs _] | [_ H4]]);
    [discriminate Hs |].
  exists key, img, code. eexists. repeat split; eassumption || reflexivity.
Qed.

Lemma C8_imtext_without_caption_witness :
  exists key img code r,
    nth_error (dataset_items [("012", ["a.png"]); ("319", ["b.png"])]) 1
    = Some (key, img)
    /\ index (enumeration "syllable") key = inr code
    /\ Imtext {| Schemas.id := "1";
                 Schemas.image_paths := ["b.png"];
                 Schemas.texts := None;
                 Schemas.meta := {| Schemas.context := None;
                                    Schemas.labels := [319] |} |} = Imtext r
    /\ Schemas.texts r = None
    /\ Schemas.context (Schemas.meta r) = None
    /\ Schemas.labels (Schemas.meta r) = [code]
    /\ Schemas.image_paths r = [img]
    /\ Schemas.id r = str 1.
Proof.
  apply (C8_imtext_without_caption "syllable" "2024.06.20" "test"
           [("012", ["a.png"]); ("319", ["b.png"])] 1).
  - simpl. tauto.
  - reflexivity.
Defined.

(** C9: the code of a label depends on the label and the enumeration only.
    For every label of a task's enumeration there is one integer code such
    that, in every run of the generator for that task (whatever the declared
    schema, the index, the split and the position), every record yielded for
    an item placed under that label carries exactly this code. *)
Theorem C9_label_lookup_deterministic (subset label : string) :
  In subset _SUBSETS ->
  In label (enumeration subset) ->
  exists code,
    index (enumeration subset) label = inr code
    /\ forall schema version split filepath n img i e,
         schema = "source" \/ schema = "seacrowd_imtext" ->
         nth_error (dataset_items filepath) n = Some (label, img) ->
         nth_error (yielded (_generate_examples
                               (config_constructor subset schema version)
                               filepath split)) n = Some (i, e) ->
         example_labels e = [code].
Proof.
  intros Hsub Hin. destruct (index_from_In _ _ 0 Hin) as [code Hcode].
  exists code. split; [exact Hcode |].
  intros schema version split filepath n img i e Hschema Hitem H.
  destruct (burapha_yield_nth _ _ _ _ _ _ _ _ Hsub Hschema H)
    as (key & img' & code' & H1 & H2 & _ & H4).
  rewrite Hitem in H1. injection H1 as <- <-.
  unfold index in H2. rewrite Hcode in H2. injection H2 as <-.
  destruct H4 as [[_ ->] | [_ ->]]; reflexivity.
Qed.

Lemma C9_label_lookup_deterministic_witness :
  exists code,
    index (enumeration "character") "42" = inr code
    /\ forall schema version split filepath n img i e,
         schema = "source" \/ schema = "seacrowd_imtext" ->
         nth_error (dataset_items filepath) n = Some ("42", img) ->
         nth_error (yielded (_generate_examples
                               (config_constructor "character" schema version)
                               filepath split)) n = Some (i, e) ->
         example_labels e = [code].
Proof.
  apply (C9_label_lookup_deterministic "character" "42").
  - simpl. tauto.
  - apply (nth_error_In _ 42). reflexivity.
Defined.

End BuraphaRecords.

(** ** The layout scanner of burapha_th *)

Section ScannerFacts.
Import Py BuraphaTh.

Lemma str_split_nonempty (sep : ascii) (s : string) : str_split sep s <> [].
Proof.
  induction s as [| c s IH]; simpl; [discriminate |].
  destruct (Ascii.eqb c sep); [discriminate |].
  destruct (str_split sep s); discriminate.
Qed.

(** Splitting [label ++ sep ++ rest], where [label] is free of [sep]. *)
Lemma str_split_first (sep : ascii) (label rest : string) :
  ~ In sep (list_ascii_of_string label) ->
  str_split sep (label ++ String sep rest) = label :: str_split sep rest.
Proof.
  induction label as [| c label IH]; intros Hfree; simpl.
  - now rewrite Ascii.eqb_refl.
  - destruct (Ascii.eqb_spec c sep) as [-> | Hne].
    + exfalso. apply Hfree. now left.
    + rewrite IH; [reflexivity |]. intros Hin. apply Hfree. now right.
Qed.

Lemma dir_label_prefix (label suffix : string) :
  ~ In "-"%char (list_ascii_of_string label) ->
  dir_label (label ++ "-" ++ suffix) = label.
Proof.
  intros Hfree. unfold dir_label.
  change ("-" ++ suffix)%string with (String "-" suffix).
  now rewrite str_split_first.
Qed.

Lemma collect_file_names (g : string -> string) (entries acc : list string) :
  fold_left (fun file_names file_name => file_names ++ [g file_name]) entries acc
  = acc ++ map g entries.
Proof.
  revert acc. induction entries as [| f entries IH]; intros acc; simpl.
  - now rewrite app_nil_r.
  - now rewrite IH, <- app_assoc.
Qed.

Lemma scan_dir_listed (fs : filesystem) (train_path dir_name : string)
    (entries : list string) (data_pair : dict (list string)) :
  listdir fs (os_path_join train_path [dir_name]) = inr entries ->
  scan_dir fs train_path dir_name data_pair
  = inr (dict_set data_pair (dir_label dir_name)
                  (dir_files train_path dir_name entries)).
Proof.
  intros Hls. unfold scan_dir, rbind, dir_label, dir_files. rewrite Hls.
  rewrite collect_file_names. simpl app.
  pose proof (str_split_nonempty "-" dir_name) as Hne.
  destruct (str_split "-" dir_name); [contradiction | reflexivity].
Qed.

Lemma scan_loop_listed (fs : filesystem) (train_path : string)
    (files : string -> list string) (dirs : list string)
    (data_pair : dict (list string)) :
  (forall d, In d dirs ->
             listdir fs (os_path_join train_path [d]) = inr (files d)) ->
  for_each_r dirs data_pair (scan_dir fs train_path)
  = inr (fold_left (scan_step train_path files) dirs data_pair).
Proof.
  revert data_pair. induction dirs as [| d dirs IH]; intros data_pair H; simpl.
  - reflexivity.
  - rewrite (scan_dir_listed _ _ _ (files d)) by (apply H; now left).
    apply IH. intros d' Hd'. apply H. now right.
Qed.

Lemma dict_find_set_same {V} (d : dict V) (k : string) (v : V) :
  dict_find (dict_set d k v) k = Some v.
Proof.
  induction d as [| [k' v'] d IH]; simpl.
  - now rewrite String.eqb_refl.
  - destruct (String.eqb_spec k' k) as [-> | Hne]; simpl.
    + now rewrite String.eqb_refl.
    + destruct (String.eqb_spec k' k); [contradiction | exact IH].
Qed.

Lemma dict_find_set_other {V} (d : dict V) (k k0 : string) (v : V) :
  k <> k0 -> dict_find (dict_set d k v) k0 = dict_find d k0.
Proof.
  intros Hne. induction d as [| [k' v'] d IH]; simpl.
  - destruct (String.eqb_spec k k0); [contradiction | reflexivity].
  - destruct (String.eqb_spec k' k) as [-> | Hne']; simpl.
    + destruct (String.eqb_spec k k0); [contradiction | reflexivity].
    + destruct (String.eqb_spec k' k0); [reflexivity | exact IH].
Qed.

Section Fold.
Variable train_path : string.
Variable files : string -> list string.

(** Directories with other labels leave the entry of a label alone. *)
Lemma scan_fold_other (dirs : list string) (acc : dict (list string))
    (k : string) :
  (forall d, In d dirs -> dir_label d <> k) ->
  dict_find (fold_left (scan_step train_path files) dirs acc) k = dict_find acc k.
Proof.
  revert acc. induction dirs as [| d dirs IH]; intros acc H; simpl.
  - reflexivity.
  - rewrite IH by (intros d' Hd'; apply H; now right).
    apply dict_find_set_other. apply H. now left.
Qed.

(** The entry of a label is the file list of the last directory with it. *)
Lemma scan_fold_last (pre post : list string) (d : string)
    (acc : dict (list string)) :
  (forall d', In d' post -> dir_label d' <> dir_label d) ->
  dict_find (fold_left (scan_step train_path files) (pre ++ d :: post) acc) (dir_label d)
  = Some (dir_files train_path d (files d)).
Proof.
  intros H. rewrite fold_left_app. simpl.
  rewrite scan_fold_other by exact H. apply dict_find_set_same.
Qed.

(** Every entry comes from some directory. *)
Lemma scan_fold_origin (dirs : list string) (acc : dict (list string))
    (k : string) (v : list string) :
  dict_find (fold_left (scan_step train_path files) dirs acc) k = Some v ->
  dict_find acc k = Some v
  \/ exists d, In d dirs /\ dir_label d = k
               /\ v = dir_files train_path d (files d).
Proof.
  revert acc. induction dirs as [| d dirs IH]; intros acc H; simpl in *.
  - now left.
  - destruct (IH _ H) as [Hacc | (d' & Hin & Hk & Hv)].
    + destruct (string_dec (dir_label d) k) as [Heq | Hne].
      * right. exists d. subst k. unfold scan_step in Hacc.
        rewrite dict_find_set_same in Hacc. injection Hacc as <-. auto.
      * left. unfold scan_step in Hacc.
        now rewrite dict_find_set_other in Hacc.
    + right. exists d'. auto.
Qed.

End Fold.

End ScannerFacts.

Section ScannerResults.
Import Py BuraphaTh.

(** C6, as the code has it: when every child directory of the root can be
    listed, the scan returns a mapping whose keys are labels of child
    directories; for a child directory named [label ++ "-" ++ suffix], with
    no delimiter inside [label], the key is [label], and, provided no child
    directory enumerated after it has the same label, the value under that
    key is the list of the joined paths of every file enumerated beneath that
    child directory, in enumeration order. *)
Theorem C6_layout_scanner (fs : filesystem) (train_path : string)
    (dirs : list string) (files : string -> list string) :
  listdir fs train_path = inr dirs ->
  (forall d, In d dirs ->
             listdir fs (os_path_join train_path [d]) = inr (files d)) ->
  exists data_pair,
    scan_layout fs train_path = inr data_pair
    /\ (forall pre label suffix post,
           dirs = pre ++ (label ++ "-" ++ suffix)%string :: post ->
           ~ In "-"%char (list_ascii_of_string label) ->
           (forall d', In d' post -> dir_label d' <> label) ->
           dict_find data_pair label
           = Some (dir_files train_path (label ++ "-" ++ suffix)
                             (files (label ++ "-" ++ suffix)%string)))
    /\ (forall key file_names,
           dict_find data_pair key = Some file_names ->
           exists d, In d dirs /\ dir_label d = key
                     /\ file_names = dir_files train_path d (files d)).
Proof.
  intros Hroot Hdirs. unfold scan_layout, rbind. rewrite Hroot.
  rewrite (scan_loop_listed _ _ files) by exact Hdirs.
  eexists. split; [reflexivity |]. split.
  - intros pre label suffix post -> Hfree Hlast.
    pose proof (dir_label_prefix label suffix Hfree) as Hlabel.
    pose proof (scan_fold_last train_path files pre post
                  (label ++ "-" ++ suffix)%string []) as Hfind.
    rewrite Hlabel in Hfind. now apply Hfind.
  - intros key file_names H.
    destruct (scan_fold_origin _ _ _ _ _ _ H) as [Hnil | Hd];
      [discriminate Hnil | exact Hd].
Qed.

Lemma C6_layout_scanner_witness :
  exists data_pair,
    scan_layout Samples.fs_digits "/cache/tr/train" = inr data_pair
    /\ dict_find data_pair "03"
       = Some ["/cache/tr/train/03-three/p.png";
               "/cache/tr/train/03-three/q.png"].
Proof.
  destruct (C6_layout_scanner Samples.fs_digits "/cache/tr/train"
              ["03-three"; "07-seven"]
              (fun d => if (d =? "03-three")%string then ["p.png"; "q.png"]
                        else ["r.png"]))
    as (data_pair & Hscan & Hlast & _).
  - reflexivity.
  - intros d [<- | [<- | []]]; reflexivity.
  - exists data_pair. split; [exact Hscan |].
    apply (Hlast [] "03" "three" ["07-seven"]).
    + reflexivity.
    + simpl. intros [H | [H | []]]; discriminate H.
    + intros d' [<- | []]. discriminate.
Defined.

(** C6, as the specification words it, fails when two child directories share a
    label: the directory 00-a holds x.png and y.png, yet the value under its
    label 00 is the file list of 00-c, which was enumerated later. *)
Lemma C6_shared_label_counterexample :
  exists data_pair,
    listdir Samples.fs_shared_label "/data/train"
    = inr ["00-a"; "01-b"; "00-c"]
    /\ listdir Samples.fs_shared_label (os_path_join "/data/train" ["00-a"])
       = inr ["x.png"; "y.png"]
    /\ dir_label "00-a" = "00"
    /\ scan_layout Samples.fs_shared_label "/data/train" = inr data_pair
    /\ dict_find data_pair "00" = Some ["/data/train/00-c/w.png"]
    /\ dict_find data_pair (dir_label "00-a")
       <> Some (dir_files "/data/train" "00-a" ["x.png"; "y.png"]).
Proof.
  eexists. repeat (split; [reflexivity |]). discriminate.
Qed.

(** C10: the index handed to the train and to the test split generator is
    one and the same scan of the train directory, the generator does not
    look at its split argument, and so both splits yield the same sequence
    of (id, record) pairs under any configuration. *)
Theorem C10_train_and_test_yield_the_same (config : SEACrowdConfig)
    (dl_manager : DownloadManager) (fs : filesystem)
    (gens : list (SplitGenerator kwargs)) :
  _split_generators config dl_manager fs = inr gens ->
  exists task urls local train_root data_pair,
    get_task config = inr task
    /\ dict_get _URLS task = inr urls
    /\ download_and_extract dl_manager urls = inr local
    /\ dict_get local "train" = inr train_root
    /\ scan_layout fs
         (os_path_join train_root
            [if existsb (String.eqb task) ["character"; "digit"]
             then "train" else "train-ori"])
       = inr data_pair
    /\ gens = [ {| split_name := "train";
                   gen_kwargs := {| filepath := data_pair; split := "train" |} |};
                {| split_name := "test";
                   gen_kwargs := {| filepath := data_pair; split := "test" |} |} ]
    /\ (forall config' split1 split2,
           _generate_examples config' data_pair split1
           = _generate_examples config' data_pair split2)
    /\ (forall config' g_train g_test,
           gens = [g_train; g_test] ->
           run_split config' g_train = run_split config' g_test).
Proof.
  unfold _split_generators, rbind. intros H.
  destruct (get_task config) as [e | task] eqn:Htask; [discriminate |].
  destruct (dict_get _URLS task) as [e | urls] eqn:Hurls; [discriminate |].
  destruct (download_and_extract dl_manager urls) as [e | local] eqn:Hdl;
    [discriminate |].
  destruct (dict_get local "train") as [e | train_root] eqn:Htrain;
    [discriminate |].
  destruct (dict_get local "test") as [e | test_root] eqn:Htest;
    [discriminate |].
  exists task, urls, local, train_root.
  destruct (existsb (String.eqb task) ["character"; "digit"]);
    match type of H with
    | context [scan_layout ?f ?p] =>
        destruct (scan_layout f p) as [e | data_pair] eqn:Hscan;
          [discriminate |]
    end;
    injection H as <-; exists data_pair;
    repeat (split; [reflexivity || assumption |]);
    intros config' g_train g_test Hg; injection Hg as <- <-; reflexivity.
Qed.

Lemma C10_train_and_test_yield_the_same_witness :
  exists task urls local train_root data_pair,
    get_task (config_constructor "digit" "source" "1.0.0") = inr task
    /\ dict_get _URLS task = inr urls
    /\ download_and_extract Samples.dl_digits urls = inr local
    /\ dict_get local "train" = inr train_root
    /\ scan_layout Samples.fs_digits
         (os_path_join train_root
            [if existsb (String.eqb task) ["character"; "digit"]
             then "train" else "train-ori"])
       = inr data_pair
    /\ [ {| split_name := "train";
            gen_kwargs :=
              {| filepath :=
                   [("03", ["/cache/tr/train/03-three/p.png";
                            "/cache/tr/train/03-three/q.png"]);
                    ("07", ["/cache/tr/train/07-seven/r.png"])];
                 split := "train" |} |};
         {| split_name := "test";
            gen_kwargs :=
              {| filepath :=
                   [("03", ["/cache/tr/train/03-three/p.png";
                            "/cache/tr/train/03-three/q.png"]);
                    ("07", ["/cache/tr/train/07-seven/r.png"])];
                 split := "test" |} |} ]
       = [ {| split_name := "train";
              gen_kwargs := {| filepath := data_pair; split := "train" |} |};
           {| split_name := "test";
              gen_kwargs := {| filepath := data_pair; split := "test" |} |} ]
    /\ (forall config' split1 split2,
           _generate_examples config' data_pair split1
           = _generate_examples config' data_pair split2)
    /\ (forall config' g_train g_test,
           [ {| split_name := "train";
                gen_kwargs :=
                  {| filepath :=
                       [("03", ["/cache/tr/train/03-three/p.png";
                                "/cache/tr/train/03-three/q.png"]);
                        ("07", ["/cache/tr/train/07-seven/r.png"])];
                     split := "train" |} |};
             {| split_name := "test";
                gen_kwargs :=
                  {| filepath :=
                       [("03", ["/cache/tr/train/03-three/p.png";
                                "/cache/tr/train/03-three/q.png"]);
                        ("07", ["/cache/tr/train/07-seven/r.png"])];
                     split := "test" |} |} ] = [g_train; g_test] ->
           run_split config' g_train = run_split config' g_test).
Proof.
  apply (C10_train_and_test_yield_the_same
           (config_constructor "digit" "source" "1.0.0")
           Samples.dl_digits Samples.fs_digits).
  reflexivity.
Defined.

End ScannerResults.

(** ** cub_bahasa: the example generator *)

Section CubGenerator.
Import Py Pd CubBahasa.

Lemma range_to_nat (n : nat) : map Z.to_nat (range n) = seq 0 n.
Proof.
  unfold range. rewrite map_map. rewrite <- (map_id (seq 0 n)) at 2.
  apply map_ext. intros i. lia.
Qed.

Lemma getitem_below {A} (l : list A) (j : nat) :
  (j < length l)%nat -> exists a, nth_error l j = Some a /\ getitem l j = inr a.
Proof.
  intros Hj. unfold getitem. destruct (nth_error l j) as [a |] eqn:Hn.
  - now exists a.
  - apply nth_error_None in Hn. lia.
Qed.

(** One caption of a well-formed row gives one record. *)
Lemma imtext_example_ok (r : row) (class_name : string) (j : nat) (key : Z) :
  (j < length (id_caption r))%nat -> (j < length (en_caption r))%nat ->
  image_class (class_id r) = inr class_name ->
  imtext_example r j key
  = ([(key, caption_record r class_name j key)], inr (key + 1)).
Proof.
  intros Hid Hen Hclass. unfold imtext_example, caption_record.
  destruct (getitem_below _ _ Hid) as (t & Ht & ->).
  destruct (getitem_below _ _ Hen) as (c & Hc & ->).
  now rewrite Hclass, Ht, Hc.
Qed.

Lemma imtext_example_counts (r : row) (j : nat) (key : Z) :
  Spec.counts key (imtext_example r j key).
Proof.
  unfold imtext_example.
  destruct (getitem (id_caption r) j); [apply counts_raise |].
  destruct (getitem (en_caption r) j); [apply counts_raise |].
  destruct (image_class (class_id r)); [apply counts_raise |].
  rewrite !bind_lift_inr. apply counts_yield_next.
Qed.

(** The inner loop over the captions [a], [a + 1], ..., [a + n - 1]. *)
Lemma caption_loop (r : row) (class_name : string) (n a : nat) (key : Z) :
  (a + n <= length (id_caption r))%nat ->
  (a + n <= length (en_caption r))%nat ->
  image_class (class_id r) = inr class_name ->
  for_each (seq a n) key (imtext_example r)
  = (map (fun j => (key + Z.of_nat j,
                    caption_record r class_name (a + j) (key + Z.of_nat j)))
         (seq 0 n),
     inr (key + Z.of_nat n)).
Proof.
  revert a key. induction n as [| n IH]; intros a key Hid Hen Hclass.
  - simpl. unfold ret. do 2 f_equal. lia.
  - cbn [seq for_each].
    rewrite (imtext_example_ok r class_name) by (lia || assumption).
    unfold bind. cbn [fst snd].
    rewrite IH by (lia || assumption).
    cbn [fst snd app map]. f_equal.
    + f_equal.
      * rewrite Nat.add_0_r. do 2 f_equal; lia.
      * rewrite <- seq_shift, map_map. apply map_ext. intros j.
        replace (key + 1 + Z.of_nat j) with (key + Z.of_nat (S j)) by lia.
        now replace (S a + j)%nat with (a + S j)%nat by lia.
    + f_equal. lia.
Qed.

Lemma generate_unified (config : SEACrowdConfig) (data : DataFrame row)
    (split : string) :
  schema config = "seacrowd_imtext" ->
  _generate_examples config data split
  = bind (unified_loop data 0) (fun _ => ret tt).
Proof.
  intros Hs. unfold _generate_examples, unified_loop, iterrows.
  rewrite Hs. cbn [String.eqb Ascii.eqb Bool.eqb SEACROWD_SCHEMA_NAME append].
  f_equal. apply for_each_ext. intros [i r] key. now rewrite range_to_nat.
Qed.

Lemma unified_loop_counts (data : DataFrame row) (key : Z) :
  Spec.counts key (unified_loop data key).
Proof.
  apply counts_for_each. intros ir k. apply counts_for_each.
  intros j k'. apply imtext_example_counts.
Qed.

Lemma ending_then_ret_tt {Y A} (m : Gen Y A) :
  ending (bind m (fun _ => ret tt)) = inr tt -> exists a, ending m = inr a.
Proof.
  rewrite ending_then_ret. destruct (ending m) as [e | a]; [discriminate |].
  now exists a.
Qed.

End CubGenerator.

Section CubFanOut.
Import Py Pd CubBahasa.

(** C3: under the unified image-text schema a joined row that carries one
    image and N captions yields exactly N records, right after the records
    of the rows before it; the j-th of them has the image of the row as its
    only image path, the j-th Indonesian caption as its text and the j-th
    English caption as its context, and its id is the id of the previous
    record plus one. *)
Theorem C3_caption_fan_out (config : SEACrowdConfig)
    (pre post : DataFrame row) (idx : Z) (r : row)
    (split class_name : string) (N : nat) :
  schema config = "seacrowd_imtext" ->
  length (id_caption r) = N -> length (en_caption r) = N ->
  image_class (class_id r) = inr class_name ->
  ending (_generate_examples config pre split) = inr tt ->
  exists first_id records,
    first_id = Z.of_nat (length (yielded (_generate_examples config pre split)))
    /\ length records = N
    /\ yielded (_generate_examples config (pre ++ [(idx, r)]) split)
       = yielded (_generate_examples config pre split) ++ records
    /\ (exists rest,
           yielded (_generate_examples config (pre ++ (idx, r) :: post) split)
           = yielded (_generate_examples config pre split) ++ records ++ rest)
    /\ forall j, (j < N)%nat ->
         nth_error records j
         = Some (first_id + Z.of_nat j,
                 Imtext {| Schemas.id := str (first_id + Z.of_nat j);
                           Schemas.image_paths := [image_path r];
                           Schemas.texts := nth_error (id_caption r) j;
                           Schemas.meta :=
                             {| Schemas.context := nth_error (en_caption r) j;
                                Schemas.labels := [class_name] |} |})
         /\ nth_error (id_caption r) j <> None
         /\ nth_error (en_caption r) j <> None.
Proof.
  intros Hs Hid Hen Hclass Hpre.
  rewrite !generate_unified in * by exact Hs.
  rewrite !yielded_then_ret.
  destruct (ending_then_ret_tt _ Hpre) as [k Hk].
  destruct (unified_loop_counts pre 0) as [_ Hcount].
  specialize (Hcount k Hk). simpl in Hcount.
  assert (Hrow : forall rows,
             unified_loop (pre ++ (idx, r) :: rows) 0
             = bind (unified_loop pre 0)
                 (fun s => bind (for_each (seq 0 N) s (imtext_example r))
                             (fun s' => unified_loop rows s'))).
  { intros rows. unfold unified_loop. rewrite for_each_app. simpl.
    now rewrite Hid. }
  set (records :=
         map (fun j => (k + Z.of_nat j,
                        caption_record r class_name (0 + j) (k + Z.of_nat j)))
             (seq 0 N)).
  assert (Hloop : for_each (seq 0 N) k (imtext_example r)
                  = (records, inr (k + Z.of_nat N))).
  { apply caption_loop; [lia | lia | exact Hclass]. }
  exists k, records. split; [exact Hcount |]. split; [| split; [| split]].
  - unfold records. now rewrite length_map, length_seq.
  - rewrite Hrow. unfold bind, yielded, ending in *. rewrite Hk, Hloop.
    simpl. now rewrite app_nil_r.
  - rewrite Hrow. unfold bind, yielded, ending in *. rewrite Hk, Hloop.
    simpl. now eexists.
  - intros j Hj. split; [| split].
    + unfold records.
      rewrite (nth_error_map (fun j => (k + Z.of_nat j,
                 caption_record r class_name (0 + j) (k + Z.of_nat j)))).
      rewrite nth_error_seq.
      destruct (Nat.ltb_spec j N) as [_ | Hge]; [| lia]. reflexivity.
    + intros Hnone. apply nth_error_None in Hnone. lia.
    + intros Hnone. apply nth_error_None in Hnone. lia.
Qed.

Lemma C3_caption_fan_out_witness :
  exists first_id records,
    first_id
    = Z.of_nat (length (yielded (_generate_examples imtext_config [] "train")))
    /\ length records = 3%nat
    /\ yielded (_generate_examples imtext_config
                  ([] ++ [(4, Samples.gull_row)]) "train")
       = yielded (_generate_examples imtext_config [] "train") ++ records
    /\ (exists rest,
           yielded (_generate_examples imtext_config
                      ([] ++ (4, Samples.gull_row) :: []) "train")
           = yielded (_generate_examples imtext_config [] "train")
             ++ records ++ rest)
    /\ forall j, (j < 3)%nat ->
         nth_error records j
         = Some (first_id + Z.of_nat j,
                 Imtext {| Schemas.id := str (first_id + Z.of_nat j);
                           Schemas.image_paths := [image_path Samples.gull_row];
                           Schemas.texts :=
                             nth_error (id_caption Samples.gull_row) j;
                           Schemas.meta :=
                             {| Schemas.context :=
                                  nth_error (en_caption Samples.gull_row) j;
                                Schemas.labels := ["059.California_Gull"] |} |})
         /\ nth_error (id_caption Samples.gull_row) j <> None
         /\ nth_error (en_caption Samples.gull_row) j <> None.
Proof.
  apply (C3_caption_fan_out imtext_config [] [] 4 Samples.gull_row "train"
           "059.California_Gull" 3); reflexivity.
Defined.

End CubFanOut.

(** ** cub_bahasa: the join of the tables *)

Section CubJoin.
Import Py Pd CubBahasa.

Lemma combine_snd {A B} (l : list A) (l' : list B) :
  length l = length l' -> map snd (combine l l') = l'.
Proof.
  revert l'. induction l as [| a l IH]; intros [| b l'] H; simpl in *;
    try discriminate; [reflexivity |].
  f_equal. apply IH. now injection H.
Qed.

Lemma from_rows_snd {R} (rows : list R) : map snd (from_rows rows) = rows.
Proof.
  unfold from_rows, range. apply combine_snd.
  now rewrite length_map, length_seq.
Qed.

Lemma filter_map_snd {A B} (p : B -> bool) (l : list (A * B)) :
  map snd (filter (fun ir => p (snd ir)) l) = filter p (map snd l).
Proof.
  induction l as [| [a b] l IH]; simpl; [reflexivity |].
  destruct (p b); simpl; now rewrite IH.
Qed.

(** A merge is the join of the rows under a fresh index. *)
Lemma merge_cross {L R O} (left : DataFrame L) (right : DataFrame R)
    (same_key : L -> R -> bool) (joined : L -> R -> O) :
  merge left right same_key joined
  = from_rows (cross same_key joined (map snd left) (map snd right)).
Proof.
  unfold merge, cross. f_equal.
  induction left as [| [i l] left IH]; simpl; [reflexivity |].
  rewrite IH. f_equal.
  rewrite <- (filter_map_snd (same_key l)), map_map. reflexivity.
Qed.

Lemma cross_app {L R O} (same_key : L -> R -> bool) (joined : L -> R -> O)
    (l1 l2 : list L) (right : list R) :
  cross same_key joined (l1 ++ l2) right
  = cross same_key joined l1 right ++ cross same_key joined l2 right.
Proof. apply flat_map_app. Qed.

Lemma cross_no_match {L R O} (same_key : L -> R -> bool) (joined : L -> R -> O)
    (left : list L) (right : list R) :
  (forall l r, In l left -> In r right -> same_key l r = false) ->
  cross same_key joined left right = [].
Proof.
  intros H. unfold cross. induction left as [| l left IH]; simpl.
  - reflexivity.
  - rewrite IH by (intros; apply H; [now right | assumption]).
    rewrite app_nil_r.
    replace (filter (same_key l) right) with (@nil R); [reflexivity |].
    symmetry. clear IH. induction right as [| r right IHr]; simpl.
    + reflexivity.
    + rewrite (H l r) by now left.
      apply IHr. intros l' r' Hl Hr. apply H; [assumption | now right].
Qed.

Lemma in_cross {L R O} (same_key : L -> R -> bool) (joined : L -> R -> O)
    (left : list L) (right : list R) (o : O) :
  In o (cross same_key joined left right) ->
  exists l r, In l left /\ In r right /\ same_key l r = true /\ o = joined l r.
Proof.
  unfold cross. rewrite in_flat_map. intros (l & Hl & Ho).
  apply in_map_iff in Ho. destruct Ho as (r & <- & Hr).
  apply filter_In in Hr. destruct Hr as [Hr Hk]. now exists l, r.
Qed.

Lemma merged_rows_app (dl : extracted) (es1 es2 : list (Z * string)) :
  merged_rows dl (es1 ++ es2) = merged_rows dl es1 ++ merged_rows dl es2.
Proof. unfold merged_rows. now rewrite map_app, !cross_app. Qed.

(** [merge_tables] fails on an empty caption file and otherwise returns the
    merged rows under the default index. *)
Lemma merge_tables_rows (dl : extracted) :
  merge_tables dl =
  match df_text_rows (captions_json dl) with
  | [] => inl (KeyError "image_name")
  | _ => inr (from_rows (merged_rows dl (images_txt dl)))
  end.
Proof.
  unfold merge_tables, groupby_image_name, rbind.
  destruct (df_text_rows (captions_json dl)) as [| t ts] eqn:Htext;
    [reflexivity |].
  f_equal. rewrite !merge_cross, !from_rows_snd. f_equal.
  unfold merged_rows, groups_of, image_path_of. rewrite Htext.
  do 3 f_equal. rewrite map_map.
  rewrite <- (from_rows_snd (images_txt dl)) at 2. rewrite map_map.
  reflexivity.
Qed.

(** *** The groups of captions *)

Lemma group_insert_names (r : text_row) (gs : list grouped_row)
    (g : grouped_row) :
  In g (group_insert r gs) ->
  g_image_name g = t_image_name r
  \/ exists g', In g' gs /\ g_image_name g' = g_image_name g.
Proof.
  induction gs as [| g0 gs IH]; simpl.
  - intros [<- | []]. now left.
  - destruct (String.compare (t_image_name r) (g_image_name g0)) eqn:Hc.
    + intros [<- | Hin]; right.
      * exists g0. split; [now left | reflexivity].
      * exists g. split; [now right | reflexivity].
    + intros [<- | [<- | Hin]]; [now left | right | right].
      * exists g0. split; [now left | reflexivity].
      * exists g. split; [now right | reflexivity].
    + intros [<- | Hin].
      * right. exists g0. split; [now left | reflexivity].
      * destruct (IH Hin) as [Hn | (g' & Hg' & Hn)]; [now left |].
        right. exists g'. split; [now right | exact Hn].
Qed.

Lemma fold_insert_names (rows : list text_row) (acc : list grouped_row)
    (g : grouped_row) :
  In g (fold_left (fun groups r => group_insert r groups) rows acc) ->
  (exists t, In t rows /\ t_image_name t = g_image_name g)
  \/ exists g', In g' acc /\ g_image_name g' = g_image_name g.
Proof.
  revert acc. induction rows as [| r rows IH]; intros acc H; simpl in H.
  - right. now exists g.
  - destruct (IH _ H) as [(t & Ht & Hn) | (g' & Hg' & Hn)].
    + left. exists t. split; [now right | exact Hn].
    + destruct (group_insert_names _ _ _ Hg') as [Hr | (g'' & Hg'' & Hn')].
      * left. exists r. split; [now left | congruence].
      * right. exists g''. split; [exact Hg'' | congruence].
Qed.

(** A file name without captions has no group. *)
Lemma no_caption_no_group (text_data : Json.text_data) (image_name : string)
    (g : grouped_row) :
  caption_count text_data image_name = 0%nat ->
  In g (groups_of text_data) -> g_image_name g <> image_name.
Proof.
  unfold caption_count, groups_of. intros Hc Hg Hn.
  destruct (fold_insert_names _ _ _ Hg) as [(t & Ht & Htn) | (g' & [] & _)].
  assert (Hin : In t (filter (fun t => (t_image_name t =? image_name)%string)
                             (df_text_rows text_data))).
  { apply filter_In. split; [exact Ht |]. apply String.eqb_eq. congruence. }
  destruct (filter _ (df_text_rows text_data)); [contradiction | discriminate].
Qed.

(** Every group holds as many English as Indonesian captions. *)
Lemma group_insert_balanced (r : text_row) (gs : list grouped_row) :
  Forall (fun g => length (g_en_caption g) = length (g_id_caption g)) gs ->
  Forall (fun g => length (g_en_caption g) = length (g_id_caption g))
         (group_insert r gs).
Proof.
  induction 1 as [| g0 gs H0 Hgs IH]; simpl.
  - now repeat constructor.
  - destruct (String.compare (t_image_name r) (g_image_name g0)).
    + constructor; [| exact Hgs]. simpl. rewrite !length_app, H0. reflexivity.
    + repeat constructor; assumption.
    + constructor; assumption.
Qed.

Lemma groups_balanced (text_data : Json.text_data) :
  Forall (fun g => length (g_en_caption g) = length (g_id_caption g))
         (groups_of text_data).
Proof.
  unfold groups_of.
  assert (H : forall rows acc,
             Forall (fun g => length (g_en_caption g) = length (g_id_caption g))
                    acc ->
             Forall (fun g => length (g_en_caption g) = length (g_id_caption g))
                    (fold_left (fun groups r => group_insert r groups) rows acc)).
  { induction rows as [| r rows IH]; intros acc Hacc; simpl; [exact Hacc |].
    apply IH, group_insert_balanced, Hacc. }
  apply H. constructor.
Qed.

Lemma group_total_insert (image_name : string) (r : text_row)
    (gs : list grouped_row) :
  group_total image_name (group_insert r gs)
  = (group_total image_name gs
     + if (t_image_name r =? image_name)%string then 1 else 0)%nat.
Proof.
  unfold group_total. induction gs as [| g0 gs IH]; simpl.
  - rewrite (String.eqb_sym image_name).
    destruct (t_image_name r =? image_name)%string; reflexivity.
  - destruct (String.compare (t_image_name r) (g_image_name g0)) eqn:Hc; simpl.
    + apply String.compare_eq_iff in Hc. rewrite <- Hc.
      rewrite (String.eqb_sym image_name).
      destruct (t_image_name r =? image_name)%string; simpl; [| lia].
      rewrite length_app. simpl. lia.
    + rewrite (String.eqb_sym image_name (t_image_name r)).
      destruct (t_image_name r =? image_name)%string; simpl; lia.
    + destruct (image_name =? g_image_name g0)%string; simpl;
        rewrite IH; lia.
Qed.

Lemma group_total_count (text_data : Json.text_data) (image_name : string) :
  group_total image_name (groups_of text_data)
  = caption_count text_data image_name.
Proof.
  unfold groups_of, caption_count.
  assert (H : forall rows acc,
             group_total image_name
               (fold_left (fun groups r => group_insert r groups) rows acc)
             = (group_total image_name acc
                + length (filter (fun t => (t_image_name t =? image_name)%string)
                                 rows))%nat).
  { induction rows as [| r rows IH]; intros acc; simpl; [lia |].
    rewrite IH, group_total_insert.
    destruct (t_image_name r =? image_name)%string; simpl; lia. }
  now rewrite H.
Qed.

End CubJoin.

Section CubInnerJoin.
Import Py Pd CubBahasa.

(** An image without a caption, without a label row or without a split row
    contributes no row to the merged frame. *)
Lemma merged_rows_unmatched (dl : extracted) (x : Z * string) :
  caption_count (captions_json dl) (image_name_of dl (snd x)) = 0%nat
  \/ (forall lb, In lb (image_class_labels_txt dl) -> fst lb <> fst x)
  \/ (forall sp, In sp (train_test_split_txt dl) -> fst sp <> fst x) ->
  merged_rows dl [x] = [].
Proof.
  unfold merged_rows. intros [Hcap | [Hlab | Hspl]].
  - rewrite (cross_no_match _ _ (map _ [x])); [reflexivity |].
    intros im g [<- | []] Hg. simpl. apply String.eqb_neq. intros Hn.
    now apply (no_caption_no_group _ _ g Hcap Hg).
  - rewrite (cross_no_match _ _ (cross _ _ (map _ [x]) _)); [reflexivity |].
    intros ig lb Hig Hlb. apply in_cross in Hig.
    destruct Hig as (im & g & [<- | []] & _ & _ & ->). simpl.
    apply Z.eqb_neq. intros Heq. now apply (Hlab lb Hlb).
  - apply cross_no_match. intros igl sp Higl Hsp. apply in_cross in Higl.
    destruct Higl as (ig & lb & Hig & _ & _ & ->). apply in_cross in Hig.
    destruct Hig as (im & g & [<- | []] & _ & _ & ->). simpl.
    apply Z.eqb_neq. intros Heq. now apply (Hspl sp Hsp).
Qed.

(** An image with one label row and one split row contributes one row per
    group of captions under its file name. *)
Lemma merged_rows_single (dl : extracted) (e : Z * string) (lb sp : Z * Z) :
  filter (fun lb => fst e =? fst lb) (image_class_labels_txt dl) = [lb] ->
  filter (fun sp => fst e =? fst sp) (train_test_split_txt dl) = [sp] ->
  merged_rows dl [e]
  = map (fun g => {| image_id := fst e;
                     image_path := image_path_of dl (snd e);
                     en_caption := g_en_caption g;
                     id_caption := g_id_caption g;
                     class_id := snd lb;
                     is_train := snd sp |})
        (filter (fun g => (image_name_of dl (snd e) =? g_image_name g)%string)
                (groups_of (captions_json dl))).
Proof.
  intros Hlb Hsp. unfold merged_rows, cross at 3. simpl. rewrite app_nil_r.
  fold (image_name_of dl (snd e)).
  induction (filter (fun g => (image_name_of dl (snd e) =? g_image_name g)%string)
                    (groups_of (captions_json dl))) as [| g gs IH]; simpl.
  - reflexivity.
  - change ((fst e, image_path_of dl (snd e), g) :: map (pair (fst e, image_path_of dl (snd e))) gs)
      with ([(fst e, image_path_of dl (snd e), g)]
            ++ map (pair (fst e, image_path_of dl (snd e))) gs).
    rewrite !cross_app, IH. unfold cross. simpl. rewrite Hlb. simpl.
    rewrite Hsp. reflexivity.
Qed.

Lemma caption_total_app (rows1 rows2 : list row) :
  caption_total (rows1 ++ rows2)
  = (caption_total rows1 + caption_total rows2)%nat.
Proof. unfold caption_total. now rewrite map_app, list_sum_app. Qed.

Lemma caption_total_single (dl : extracted) (e : Z * string) :
  has_label_and_split dl e ->
  caption_total (merged_rows dl [e])
  = caption_count (captions_json dl) (image_name_of dl (snd e)).
Proof.
  intros (lb & sp & cn & Hlb & Hsp & _ & _).
  rewrite (merged_rows_single dl e lb sp Hlb Hsp).
  rewrite <- group_total_count. unfold caption_total, group_total.
  now rewrite map_map.
Qed.

Lemma well_formed_single (dl : extracted) (e : Z * string) :
  has_label_and_split dl e -> Forall well_formed (merged_rows dl [e]).
Proof.
  intros (lb & sp & cn & Hlb & Hsp & Hclass & Hflag).
  rewrite (merged_rows_single dl e lb sp Hlb Hsp).
  apply Forall_forall. intros r Hr. apply in_map_iff in Hr.
  destruct Hr as (g & <- & Hg). apply filter_In in Hg. destruct Hg as [Hg _].
  pose proof (groups_balanced (captions_json dl)) as Hbal.
  rewrite Forall_forall in Hbal.
  split; [exact (Hbal g Hg) | split; [now exists cn | exact Hflag]].
Qed.

Lemma merged_rows_cons (dl : extracted) (e : Z * string)
    (es : list (Z * string)) :
  merged_rows dl (e :: es) = merged_rows dl [e] ++ merged_rows dl es.
Proof. exact (merged_rows_app dl [e] es). Qed.

Lemma merged_rows_total (dl : extracted) (es : list (Z * string)) :
  (forall e, In e es -> has_label_and_split dl e) ->
  Forall well_formed (merged_rows dl es)
  /\ caption_total (merged_rows dl es)
     = list_sum (map (fun e => caption_count (captions_json dl)
                                             (image_name_of dl (snd e))) es).
Proof.
  induction es as [| e es IH]; intros H.
  - split; [constructor | reflexivity].
  - destruct IH as [IH1 IH2]; [intros e' He'; apply H; now right |].
    rewrite merged_rows_cons. split.
    + apply Forall_app. split; [| exact IH1].
      apply well_formed_single, H. now left.
    + rewrite caption_total_app, IH2, caption_total_single by (apply H; now left).
      reflexivity.
Qed.

(** On well-formed rows the unified generator ends normally, with one
    record per caption. *)
Lemma unified_loop_total (data : DataFrame row) (key : Z) :
  Forall well_formed (map snd data) ->
  length (yielded (unified_loop data key)) = caption_total (map snd data)
  /\ exists key', ending (unified_loop data key) = inr key'.
Proof.
  revert key. induction data as [| [i r] data IH]; intros key H.
  - split; [reflexivity | now exists key].
  - inversion H as [| r' rs (Hlen & (cn & Hclass) & _) Hrest]; subst.
    destruct (IH (key + Z.of_nat (length (id_caption r))) Hrest)
      as [IHlen (key' & IHend)].
    unfold unified_loop in *. cbn [for_each snd map].
    rewrite (caption_loop r cn) by (simpl; lia || assumption).
    unfold bind, yielded, ending in *. cbn [fst snd].
    rewrite IHend. split; [| now exists key'].
    rewrite length_app, length_map, length_seq, IHlen.
    unfold caption_total. reflexivity.
Qed.

Lemma split_partition (rows : list row) :
  Forall well_formed rows ->
  (caption_total (filter (fun r => (is_train r =? 1)%Z) rows)
   + caption_total (filter (fun r => (is_train r =? 0)%Z) rows))%nat
  = caption_total rows.
Proof.
  unfold caption_total. induction 1 as [| r rows (_ & _ & Hflag) _ IH]; simpl.
  - reflexivity.
  - destruct Hflag as [-> | ->]; simpl; lia.
Qed.

Lemma sum_over_matched {A} (f : A -> nat) (l : list A) (k : nat) :
  (forall a, In a (filter (fun a => (0 <? f a)%nat) l) -> f a = k) ->
  list_sum (map f l)
  = (length (filter (fun a => (0 <? f a)%nat) l) * k)%nat.
Proof.
  induction l as [| a l IH]; intros H; simpl in *; [reflexivity |].
  destruct (Nat.ltb_spec 0 (f a)) as [Hpos | Hzero]; simpl in *.
  - rewrite IH by (intros a' Ha'; apply H; now right).
    rewrite (H a) by now left. lia.
  - rewrite IH by exact H. lia.
Qed.

End CubInnerJoin.

Section CubInnerJoinResult.
Import Py Pd CubBahasa.

Lemma select_rows {R} (p : R -> bool) (rows : list R) :
  map snd (select p (from_rows rows)) = filter p rows.
Proof. unfold select. now rewrite filter_map_snd, from_rows_snd. Qed.

Lemma Forall_filter {A} (P : A -> Prop) (p : A -> bool) (l : list A) :
  Forall P l -> Forall P (filter p l).
Proof.
  rewrite !Forall_forall. intros H a Ha. apply filter_In in Ha. now apply H.
Qed.

(** C7: the merge is an inner join.  An image of [images.txt] that has no
    caption under its file name, or no label row, or no split row,
    contributes no row to the merged frame, and the split generators are
    those of the download without that image.  And when m > 0 images have
    captions, k each, and every image has exactly one label row (with a class
    of the class table) and exactly one split row (flagged 0 or 1), then the
    unified schema produces, over the train and the test split together,
    exactly m * k records and both runs end normally; with 3 images of which
    exactly 2 have captions this is 2 * k. *)
Theorem C7_inner_join (dl : extracted) :
  (forall imgs1 x imgs2,
      images_txt dl = imgs1 ++ x :: imgs2 ->
      caption_count (captions_json dl) (image_name_of dl (snd x)) = 0%nat
      \/ (forall lb, In lb (image_class_labels_txt dl) -> fst lb <> fst x)
      \/ (forall sp, In sp (train_test_split_txt dl) -> fst sp <> fst x) ->
      merged_rows dl [x] = []
      /\ _split_generators dl
         = _split_generators (with_images dl (imgs1 ++ imgs2)))
  /\ (forall config m k,
         schema config = "seacrowd_imtext" ->
         (0 < m)%nat ->
         length (matched_images dl) = m ->
         (forall e, In e (matched_images dl) ->
                    caption_count (captions_json dl) (image_name_of dl (snd e))
                    = k) ->
         (forall e, In e (images_txt dl) -> has_label_and_split dl e) ->
         exists g_train g_test,
           _split_generators dl = inr [g_train; g_test]
           /\ split_name g_train = "train" /\ split_name g_test = "test"
           /\ ending (run_split config g_train) = inr tt
           /\ ending (run_split config g_test) = inr tt
           /\ (length (yielded (run_split config g_train))
               + length (yielded (run_split config g_test)))%nat
              = (m * k)%nat).
Proof.
  split.
  - intros imgs1 x imgs2 Himgs Hno.
    pose proof (merged_rows_unmatched dl x Hno) as Hx.
    split; [exact Hx |].
    unfold _split_generators. rewrite !merge_tables_rows. simpl.
    rewrite Himgs.
    change (x :: imgs2) with ([x] ++ imgs2).
    rewrite !merged_rows_app, Hx. reflexivity.
  - intros config m k Hs Hm Hlen Hk Hall.
    assert (Htext : df_text_rows (captions_json dl) <> []).
    { unfold matched_images in Hlen.
      destruct (filter _ (images_txt dl)) as [| e es] eqn:Hf;
        [simpl in Hlen; lia |].
      assert (He : In e (e :: es)) by now left.
      rewrite <- Hf in He. apply filter_In in He. destruct He as [_ He].
      apply Nat.ltb_lt in He. unfold caption_count in He.
      intros Hnil. rewrite Hnil in He. simpl in He. lia. }
    destruct (merged_rows_total dl (images_txt dl) Hall) as [Hwf Htot].
    unfold _split_generators. rewrite merge_tables_rows.
    destruct (df_text_rows (captions_json dl)) as [| t ts];
      [contradiction |]. simpl rbind.
    eexists. eexists. split; [reflexivity |].
    split; [reflexivity |]. split; [reflexivity |].
    unfold run_split. simpl gen_kwargs. simpl data. simpl split.
    rewrite !generate_unified by exact Hs.
    rewrite !yielded_then_ret, !ending_then_ret.
    set (rows := merged_rows dl (images_txt dl)) in *.
    destruct (unified_loop_total
                (select (fun r => is_train r =? 1) (from_rows rows)) 0)
      as [Hl1 (k1 & He1)];
      [rewrite select_rows; now apply Forall_filter |].
    destruct (unified_loop_total
                (select (fun r => is_train r =? 0) (from_rows rows)) 0)
      as [Hl0 (k0 & He0)];
      [rewrite select_rows; now apply Forall_filter |].
    rewrite He1, He0, Hl1, Hl0, !select_rows.
    split; [reflexivity |]. split; [reflexivity |].
    rewrite (split_partition rows Hwf), Htot, <- Hlen.
    apply (sum_over_matched
             (fun e => caption_count (captions_json dl)
                                     (image_name_of dl (snd e)))).
    exact Hk.
Qed.

Lemma C7_inner_join_witness :
  exists g_train g_test,
    _split_generators Samples.cub_two_of_three = inr [g_train; g_test]
    /\ split_name g_train = "train" /\ split_name g_test = "test"
    /\ ending (run_split imtext_config g_train) = inr tt
    /\ ending (run_split imtext_config g_test) = inr tt
    /\ (length (yielded (run_split imtext_config g_train))
        + length (yielded (run_split imtext_config g_test)))%nat
       = (2 * 2)%nat.
Proof.
  apply (proj2 (C7_inner_join Samples.cub_two_of_three) imtext_config 2%nat 2%nat).
  - reflexivity.
  - lia.
  - reflexivity.
  - intros e He. vm_compute in He. destruct He as [<- | [<- | []]]; reflexivity.
  - intros e [<- | [<- | [<- | []]]];
      (eexists; eexists; eexists; split; [reflexivity |];
       split; [reflexivity |]; split; [reflexivity |]; simpl; tauto).
Defined.

End CubInnerJoinResult.

(** ** Sequential ids *)

Section SequentialIds.
Import Py Pd.

Lemma counts_sequential {E} (g : Gen (Z * E) Z) :
  Spec.counts 0 g ->
  Spec.sequential_ids (yielded (bind g (fun _ => ret tt))).
Proof. intros [H _]. now rewrite yielded_then_ret. Qed.

(** burapha_th numbers its records 0, 1, 2, ... under every configuration. *)
Lemma burapha_ids_sequential (config : SEACrowdConfig)
    (filepath : dict (list string)) (split : string) :
  Spec.sequential_ids
    (yielded (BuraphaTh._generate_examples config filepath split)).
Proof.
  destruct (BuraphaTh.get_task config) as [e | task] eqn:Htask.
  - unfold BuraphaTh._generate_examples. rewrite Htask. exact I.
  - rewrite (generate_examples_items _ _ _ task Htask).
    destruct (string_dec (schema config) "source") as [Hs | Hs].
    { apply counts_sequential.
      apply (resolving_loop_counts (BuraphaTh.enumeration task)
               (fun k img code =>
                  BuraphaTh.Source {| BuraphaTh.id := str k;
                                      BuraphaTh.image_paths := img;
                                      BuraphaTh.label := [code] |}) _
               (fun kv k => generate_example_source config task kv k Hs)). }
    destruct (string_dec (schema config) "seacrowd_imtext") as [Hi | Hi].
    { apply counts_sequential.
      apply (resolving_loop_counts (BuraphaTh.enumeration task)
               (fun k img code =>
                  BuraphaTh.Imtext
                    {| Schemas.id := str k;
                       Schemas.image_paths := [img];
                       Schemas.texts := None;
                       Schemas.meta := {| Schemas.context := None;
                                          Schemas.labels := [code] |} |}) _
               (fun kv k => generate_example_imtext config task kv k Hi)). }
    rewrite yielded_then_ret, for_each_silent; [exact I |].
    intros kv k. now rewrite generate_example_other.
Qed.

(** cub_bahasa numbers its records 0, 1, 2, ... under the unified schema. *)
Lemma cub_unified_ids_sequential (config : SEACrowdConfig)
    (data : DataFrame CubBahasa.row) (split : string) :
  schema config = "seacrowd_imtext" ->
  Spec.sequential_ids
    (yielded (CubBahasa._generate_examples config data split)).
Proof.
  intros Hs. rewrite generate_unified by exact Hs.
  apply counts_sequential, unified_loop_counts.
Qed.

Section MswcIds.
Variable row : Type.
Variable read_parquet : string -> exn + DataFrame row.
Variable task_schema : string.

Lemma generate_rows_counts (paths : list string) (idx : Z) :
  Spec.counts idx (Mswc.generate_rows row read_parquet paths idx).
Proof.
  apply counts_for_each. intros path k.
  destruct (read_parquet path) as [e | df]; [apply counts_raise |].
  rewrite bind_lift_inr. apply counts_for_each.
  intros [i r] k'. apply counts_yield_next.
Qed.

(** mswc numbers its records 0, 1, 2, ... under every configuration. *)
Lemma mswc_ids_sequential (config : SEACrowdConfig) (paths : list string) :
  Spec.sequential_ids
    (yielded (Mswc._generate_examples row read_parquet task_schema
                                      config paths)).
Proof.
  unfold Mswc._generate_examples, Mswc._SUPPORTED_SCHEMA_STRINGS.
  pose proof (generate_rows_counts paths 0) as [Hids _].
  destruct (schema config =? "source")%string.
  - unfold bind, yielded in *.
    destruct (Mswc.generate_rows row read_parquet paths 0) as [ys [e | k]];
      simpl in *; [exact Hids | now rewrite !app_nil_r].
  - cbn [map for_each].
    match goal with |- context [if ?c then _ else _] => destruct c end.
    + unfold bind, yielded in *.
      destruct (Mswc.generate_rows row read_parquet paths 0) as [ys [e | k]];
        simpl in *; [exact Hids | now rewrite !app_nil_r].
    + exact I.
Qed.

End MswcIds.

End SequentialIds.

Section EveryLoader.
Import Py Pd.

(** C1, at the input where it fails.  Three images, the first of them in the
    test split: the source schema of cub_bahasa yields the rows of the train
    split under the keys 1 and 2, the labels these rows have in the merged
    frame, and not under 0 and 1; the unified schema numbers the records of
    the same split from 0. *)
Theorem C1_cub_source_keys_are_row_labels :
  exists g_train g_test,
    CubBahasa._split_generators Samples.cub_download = inr [g_train; g_test]
    /\ ending (CubBahasa.run_split CubBahasa.source_config g_train) = inr tt
    /\ map fst (yielded (CubBahasa.run_split CubBahasa.source_config g_train))
       = [1; 2]
    /\ ~ Spec.sequential_ids
           (yielded (CubBahasa.run_split CubBahasa.source_config g_train))
    /\ Spec.sequential_ids
         (yielded (CubBahasa.run_split CubBahasa.imtext_config g_train)).
Proof.
  eexists. eexists. split; [reflexivity |].
  split; [reflexivity |]. split; [reflexivity |]. split.
  - intros [H _]. discriminate H.
  - now apply cub_unified_ids_sequential.
Qed.




End EveryLoader.

(** ** cub_bahasa: keys of the source schema and the class lookup *)

Section CubSourceKeys.
Import Py Pd CubBahasa.

(** Under the source schema the keys are the index labels of the rows, in
    order, up to the row at which the pass stops. *)
Lemma cub_source_keys (config : SEACrowdConfig) (data : DataFrame row)
    (split : string) :
  schema config = "source" ->
  exists n,
    map fst (yielded (_generate_examples config data split))
    = firstn n (map fst data).
Proof.
  intros Hs. unfold _generate_examples, iterrows. rewrite Hs.
  cbn [String.eqb Ascii.eqb Bool.eqb].
  induction data as [| [key r] data [n IH]].
  - now exists 0%nat.
  - cbn [for_each].
    destruct (image_class (class_id r)) as [e | cn];
      [now exists 0%nat |].
    rewrite bind_lift_inr.
    destruct (source_captions r) as [e | caps];
      [now exists 0%nat |].
    rewrite bind_lift_inr. exists (S n).
    unfold bind at 1. cbn [yield yielded fst snd app map firstn].
    f_equal. exact IH.
Qed.

(** A class id outside the class table stops the pass with [KeyError]
    at the first record of the row, under either declared schema. *)
Lemma cub_class_lookup_is_fatal (i : Z) (r : row) (split : string) :
  int_dict_find IMAGE_CLASS (class_id r) = None ->
  _generate_examples source_config [(i, r)] split
  = ([], inl (KeyError (str (class_id r))))
  /\ (forall t c ts cs,
         id_caption r = t :: ts -> en_caption r = c :: cs ->
         _generate_examples imtext_config [(i, r)] split
         = ([], inl (KeyError (str (class_id r))))).
Proof.
  intros Hnone.
  assert (Hclass : image_class (class_id r) = inl (KeyError (str (class_id r))))
    by (unfold image_class; now rewrite Hnone).
  split.
  - unfold _generate_examples, iterrows.
    cbn [schema source_config String.eqb Ascii.eqb Bool.eqb for_each].
    now rewrite Hclass.
  - intros t c ts cs Ht Hc. rewrite generate_unified by reflexivity.
    unfold unified_loop. cbn [for_each snd]. rewrite Ht.
    cbn [length seq for_each]. unfold imtext_example.
    rewrite Ht, Hc. cbn [getitem nth_error]. now rewrite Hclass.
Qed.

End CubSourceKeys.

(** * Further properties of the loaders *)

(** ** Lists and strings *)

Section MoreLists.
Import Py.

Lemma nodupb_NoDup (l : list string) : Spec.nodupb l = true -> NoDup l.
Proof.
  induction l as [| x l IH]; simpl; intros H; constructor.
  - apply andb_prop in H. destruct H as [H _]. intros Hin.
    apply negb_true_iff in H.
    assert (Hex : existsb (String.eqb x) l = true).
    { apply existsb_exists. exists x. split; [exact Hin |].
      apply String.eqb_refl. }
    congruence.
  - apply IH. apply andb_prop in H. apply H.
Qed.

Lemma index_from_nth (l : list string) (i : nat) (x : string) (p : Z) :
  NoDup l -> nth_error l i = Some x ->
  index_from l x p = inr (p + Z.of_nat i).
Proof.
  revert i p. induction l as [| y l IH]; intros i p Hnd Hn.
  - now destruct i.
  - inversion Hnd as [| y' l' Hy Hl]; subst. destruct i as [| i]; simpl in *.
    + injection Hn as ->. rewrite String.eqb_refl. f_equal. lia.
    + destruct (String.eqb_spec y x) as [-> | _].
      * exfalso. apply Hy. eapply nth_error_In, Hn.
      * rewrite (IH i (p + 1) Hl Hn). f_equal. lia.
Qed.

Lemma str_split_whole (sep : ascii) (s : string) :
  ~ In sep (list_ascii_of_string s) -> str_split sep s = [s].
Proof.
  induction s as [| c s IH]; intros Hfree; simpl; [reflexivity |].
  destruct (Ascii.eqb_spec c sep) as [-> | _].
  - exfalso. apply Hfree. now left.
  - rewrite IH; [reflexivity |]. intros Hin. apply Hfree. now right.
Qed.

Lemma nth_error_range (n i : nat) :
  (i < n)%nat -> nth_error (range n) i = Some (Z.of_nat i).
Proof.
  intros Hi. unfold range. rewrite nth_error_map, nth_error_seq.
  destruct (Nat.ltb_spec i n); [reflexivity | lia].
Qed.

Lemma for_each_r_stops {X S} (body : X -> S -> exn + S) (step : S -> X -> S)
    (pre post : list X) (x : X) (s : S) (e : exn) :
  (forall x' s', In x' pre -> body x' s' = inr (step s' x')) ->
  (forall s', body x s' = inl e) ->
  for_each_r (pre ++ x :: post) s body = inl e.
Proof.
  revert s. induction pre as [| x0 pre IH]; intros s Hpre Hx; simpl.
  - now rewrite Hx.
  - rewrite Hpre by now left.
    apply IH; [| exact Hx]. intros x' s' Hin. apply Hpre. now right.
Qed.

End MoreLists.

(** ** burapha_th: configurations, enumerations and declared features *)

Section BuraphaConfigs.
Import Py BuraphaTh.

(** X1: the task of a constructed configuration is the first segment of
    the subset name split on the underscore; for a subset name without
    underscore it is the subset name itself. *)
Theorem X1_task_of_constructed_config (subset schema version : string) :
  get_task (config_constructor subset schema version)
  = inr (hd "" (str_split "_" subset))
  /\ (~ In "_"%char (list_ascii_of_string subset) ->
      get_task (config_constructor subset schema version) = inr subset).
Proof.
  assert (H : get_task (config_constructor subset schema version)
              = inr (hd "" (str_split "_" subset))).
  { unfold get_task, config_constructor, _DATASETNAME. cbn [subset_id].
    change ("burapha_th" ++ "_" ++ subset)%string
      with ("burapha" ++ String "_" ("th" ++ String "_" subset))%string.
    rewrite str_split_first
      by (simpl; intros Hin; repeat destruct Hin as [Hin | Hin];
          discriminate || contradiction).
    rewrite str_split_first
      by (simpl; intros Hin; repeat destruct Hin as [Hin | Hin];
          discriminate || contradiction).
    pose proof (str_split_nonempty "_" subset) as Hne.
    destruct (str_split "_" subset); [contradiction | reflexivity]. }
  split; [exact H |].
  intros Hfree. now rewrite H, str_split_whole.
Qed.

Lemma X1_task_of_constructed_config_witness :
  get_task (config_constructor "syllable" "source" "1.0.0") = inr "syllable".
Proof.
  apply (proj2 (X1_task_of_constructed_config "syllable" "source" "1.0.0")).
  simpl. intros Hin. repeat destruct Hin as [Hin | Hin];
    discriminate || contradiction.
Defined.

(** X2: the enumerations are the zero-padded decimals 00..77 and 000..319
    without repetition: position [i] holds [str(i).zfill(w)], and looking
    that label up gives [i] back. *)
Theorem X2_enumeration_positions (task : string) (i : nat) :
  (i < length (enumeration task))%nat ->
  length (enumeration task)
  = (if ((task =? "character") || (task =? "digit"))%string
     then 78%nat else 320%nat)
  /\ nth_error (enumeration task) i
     = Some (zfill (str (Z.of_nat i))
                   (if ((task =? "character") || (task =? "digit"))%string
                    then 2%nat else 3%nat))
  /\ index (enumeration task)
           (zfill (str (Z.of_nat i))
                  (if ((task =? "character") || (task =? "digit"))%string
                   then 2%nat else 3%nat))
     = inr (Z.of_nat i).
Proof.
  unfold enumeration.
  destruct ((task =? "character") || (task =? "digit"))%string;
    intros Hi.
  - assert (Hn : nth_error label_chr_dig i = Some (zfill (str (Z.of_nat i)) 2)).
    { unfold label_chr_dig in *. rewrite length_map in Hi.
      unfold range in Hi. rewrite length_map, length_seq in Hi.
      now rewrite nth_error_map, nth_error_range. }
    split; [reflexivity |]. split; [exact Hn |].
    unfold index. rewrite (index_from_nth _ i _ 0); [reflexivity | | exact Hn].
    apply nodupb_NoDup. vm_compute. reflexivity.
  - assert (Hn : nth_error label_syl i = Some (zfill (str (Z.of_nat i)) 3)).
    { unfold label_syl in *. rewrite length_map in Hi.
      unfold range in Hi. rewrite length_map, length_seq in Hi.
      now rewrite nth_error_map, nth_error_range. }
    split; [reflexivity |]. split; [exact Hn |].
    unfold index. rewrite (index_from_nth _ i _ 0); [reflexivity | | exact Hn].
    apply nodupb_NoDup. vm_compute. reflexivity.
Qed.

Lemma X2_enumeration_positions_witness :
  length (enumeration "syllable") = 320%nat
  /\ nth_error (enumeration "syllable") 41 = Some "041"
  /\ index (enumeration "syllable") "041" = inr 41.
Proof.
  apply (X2_enumeration_positions "syllable" 41). vm_compute. lia.
Defined.

End BuraphaConfigs.

(** ** burapha_th: records under any configuration *)

Section BuraphaAnyConfig.
Import Py BuraphaTh.

(** What a yielded record is, for an arbitrary configuration. *)
Lemma burapha_yield_any (config : SEACrowdConfig) (task : string)
    (filepath : dict (list string)) (split : string) (n : nat) (i : Z)
    (e : example) :
  get_task config = inr task ->
  nth_error (yielded (_generate_examples config filepath split)) n
  = Some (i, e) ->
  exists key img code,
    nth_error (dataset_items filepath) n = Some (key, img)
    /\ index (enumeration task) key = inr code
    /\ i = Z.of_nat n
    /\ example_labels e = [code]
    /\ example_id e = str i
    /\ example_images e = [img]
    /\ (schema config = "source" \/ schema config = "seacrowd_imtext").
Proof.
  intros Htask H.
  rewrite (generate_examples_items _ _ _ task Htask), yielded_then_ret in H.
  destruct (string_dec (schema config) "source") as [Hs | Hs].
  { destruct (resolving_loop_nth (enumeration task)
                (fun k img code =>
                   Source {| id := str k; image_paths := img; label := [code] |})
                _ (fun kv k => generate_example_source config task kv k Hs)
                _ _ _ _ _ H) as (key & img & code & H1 & H2 & H3 & ->).
    exists key, img, code. simpl. repeat split; try assumption; try lia.
    now left. }
  destruct (string_dec (schema config) "seacrowd_imtext") as [Hi | Hi].
  { destruct (resolving_loop_nth (enumeration task)
                (fun k img code =>
                   Imtext {| Schemas.id := str k;
                             Schemas.image_paths := [img];
                             Schemas.texts := None;
                             Schemas.meta := {| Schemas.context := None;
                                                Schemas.labels := [code] |} |})
                _ (fun kv k => generate_example_imtext config task kv k Hi)
                _ _ _ _ _ H) as (key & img & code & H1 & H2 & H3 & ->).
    exists key, img, code. simpl. repeat split; try assumption; try lia.
    now right. }
  rewrite for_each_silent in H; [now destruct n |].
  intros kv k. now rewrite generate_example_other.
Qed.

(** X3: the label codes fit the features that [_info] declares.  When
    [_info] returns a feature set, every record the generator yields carries
    one code, that code is a valid position in the declared class names, and
    the class name at that position is the directory label of the item. *)
Theorem X3_codes_fit_declared_features (config : SEACrowdConfig)
    (features : Features) (filepath : dict (list string)) (split : string)
    (n : nat) (i : Z) (e : example) :
  _info config = inr features ->
  nth_error (yielded (_generate_examples config filepath split)) n
  = Some (i, e) ->
  exists key img code,
    nth_error (dataset_items filepath) n = Some (key, img)
    /\ example_labels e = [code]
    /\ 0 <= code < Z.of_nat (length (label_names features))
    /\ nth_error (label_names features) (Z.to_nat code) = Some key.
Proof.
  intros Hinfo H. unfold _info, rbind in Hinfo.
  destruct (get_task config) as [err | task] eqn:Htask; [discriminate |].
  assert (Hnames : label_names features = enumeration task).
  { unfold enumeration.
    destruct (schema config =? "source")%string;
      [injection Hinfo as <-; reflexivity |].
    destruct (schema config =? "seacrowd_imtext")%string;
      [injection Hinfo as <-; reflexivity | discriminate]. }
  destruct (burapha_yield_any _ _ _ _ _ _ _ Htask H)
    as (key & img & code & H1 & H2 & _ & H4 & _).
  exists key, img, code. rewrite Hnames.
  pose proof (index_spec (enumeration task) key) as Hs. rewrite H2 in Hs.
  destruct Hs as (H0 & Hn & _).
  split; [exact H1 |]. split; [exact H4 |]. split; [| exact Hn].
  split; [exact H0 |].
  assert (Hlt : (Z.to_nat code < length (enumeration task))%nat)
    by (apply nth_error_Some; congruence).
  lia.
Qed.

Lemma X3_codes_fit_declared_features_witness :
  exists key img code,
    nth_error (dataset_items [("07", ["a.png"]); ("77", ["b.png"])]) 1
    = Some (key, img)
    /\ example_labels
         (Imtext {| Schemas.id := "1";
                    Schemas.image_paths := ["b.png"];
                    Schemas.texts := None;
                    Schemas.meta := {| Schemas.context := None;
                                       Schemas.labels := [77] |} |})
       = [code]
    /\ 0 <= code < Z.of_nat (length (label_names (ImageTextFeatures label_chr_dig)))
    /\ nth_error (label_names (ImageTextFeatures label_chr_dig)) (Z.to_nat code)
       = Some key.
Proof.
  apply (X3_codes_fit_declared_features
           (config_constructor "character" "seacrowd_imtext" "2024.06.20")
           (ImageTextFeatures label_chr_dig)
           [("07", ["a.png"]); ("77", ["b.png"])] "train" 1 1);
    reflexivity.
Defined.

(** X4: under every configuration, declared or not, the record at position
    [n] of a run has the key [n], carries [str(n)] as its [id] field and
    refers to exactly the file at position [n] of the index. *)
Theorem X4_record_carries_its_position (config : SEACrowdConfig)
    (filepath : dict (list string)) (split : string) (n : nat) (i : Z)
    (e : example) :
  nth_error (yielded (_generate_examples config filepath split)) n
  = Some (i, e) ->
  i = Z.of_nat n
  /\ example_id e = str (Z.of_nat n)
  /\ exists key img,
       nth_error (dataset_items filepath) n = Some (key, img)
       /\ example_images e = [img].
Proof.
  intros H. destruct (get_task config) as [err | task] eqn:Htask.
  - unfold _generate_examples in H. rewrite Htask in H. now destruct n.
  - destruct (burapha_yield_any _ _ _ _ _ _ _ Htask H)
      as (key & img & code & H1 & _ & -> & _ & H5 & H6 & _).
    split; [reflexivity |]. split; [exact H5 |]. now exists key, img.
Qed.

Lemma X4_record_carries_its_position_witness :
  2 = Z.of_nat 2
  /\ example_id (Source {| id := "2"; image_paths := "c.png"; label := [4] |})
     = str (Z.of_nat 2)
  /\ exists key img,
       nth_error (dataset_items [("03", ["a.png"; "b.png"]); ("04", ["c.png"])]) 2
       = Some (key, img)
       /\ example_images
            (Source {| id := "2"; image_paths := "c.png"; label := [4] |})
          = [img].
Proof.
  apply (X4_record_carries_its_position
           (config_constructor "digit" "source" "1.0.0")
           [("03", ["a.png"; "b.png"]); ("04", ["c.png"])] "test" 2 2).
  reflexivity.
Defined.

End BuraphaAnyConfig.

(** ** burapha_th: more on the scan of the train directory *)

Section ScannerMore.
Import Py BuraphaTh.

(** Once the archives are downloaded, [_split_generators] is the scan of
    the train directory of the task. *)
Lemma split_generators_scan (subset schema version : string)
    (dl_manager : DownloadManager) (fs : filesystem)
    (urls local : dict string) (train_root test_root : string) :
  In subset _SUBSETS ->
  dict_get _URLS subset = inr urls ->
  download_and_extract dl_manager urls = inr local ->
  dict_get local "train" = inr train_root ->
  dict_get local "test" = inr test_root ->
  _split_generators (config_constructor subset schema version) dl_manager fs
  = match scan_layout fs (train_dir subset train_root) with
    | inl e => inl e
    | inr data_pair =>
        inr [ {| split_name := "train";
                 gen_kwargs := {| filepath := data_pair; split := "train" |} |};
              {| split_name := "test";
                 gen_kwargs := {| filepath := data_pair; split := "test" |} |} ]
    end.
Proof.
  intros Hsub Hurls Hdl Htrain Htest. unfold _split_generators, rbind, train_dir.
  rewrite (get_task_constructor _ _ _ Hsub), Hurls, Hdl, Htrain, Htest.
  destruct (existsb (String.eqb subset) ["character"; "digit"]); reflexivity.
Qed.

(** X5: a train directory that cannot be listed, or a child of it that
    cannot be listed, is fatal: [_split_generators] ends with the error of
    [os.listdir] and returns no split generator. *)
Theorem X5_unlistable_directory_is_fatal (subset schema version : string)
    (dl_manager : DownloadManager) (fs : filesystem)
    (urls local : dict string) (train_root test_root : string) (e : exn) :
  In subset _SUBSETS ->
  dict_get _URLS subset = inr urls ->
  download_and_extract dl_manager urls = inr local ->
  dict_get local "train" = inr train_root ->
  dict_get local "test" = inr test_root ->
  listdir fs (train_dir subset train_root) = inl e
  \/ (exists pre d post,
         listdir fs (train_dir subset train_root) = inr (pre ++ d :: post)
         /\ (forall d', In d' pre ->
               exists entries,
                 listdir fs (os_path_join (train_dir subset train_root) [d'])
                 = inr entries)
         /\ listdir fs (os_path_join (train_dir subset train_root) [d])
            = inl e) ->
  _split_generators (config_constructor subset schema version) dl_manager fs
  = inl e.
Proof.
  intros Hsub Hurls Hdl Htrain Htest Hfail.
  rewrite (split_generators_scan _ _ _ _ _ _ _ _ _ Hsub Hurls Hdl Htrain Htest).
  unfold scan_layout, rbind.
  destruct Hfail as [Hroot | (pre & d & post & Hroot & Hpre & Hd)];
    rewrite Hroot; [reflexivity |].
  set (td := train_dir subset train_root) in *.
  assert (Hstop : forall acc,
             for_each_r (pre ++ d :: post) acc (scan_dir fs td) = inl e).
  { clear Hroot. induction pre as [| d0 pre IH]; intros acc; simpl.
    - unfold scan_dir, rbind. now rewrite Hd.
    - destruct (Hpre d0 (or_introl eq_refl)) as [entries Hentries].
      rewrite (scan_dir_listed _ _ _ entries) by exact Hentries.
      apply IH. intros d' Hd'. apply Hpre. now right. }
  now rewrite Hstop.
Qed.

Lemma X5_unlistable_directory_is_fatal_witness :
  _split_generators (config_constructor "digit" "source" "1.0.0")
    Samples.dl_digits Samples.fs_broken_child
  = inl (OSError "/cache/tr/train/07-seven").
Proof.
  apply (X5_unlistable_directory_is_fatal "digit" "source" "1.0.0"
           Samples.dl_digits Samples.fs_broken_child
           [("test", "https://services.informatics.buu.ac.th/datasets/Burapha-TH/digit/20210307-test.zip");
            ("train", "https://services.informatics.buu.ac.th/datasets/Burapha-TH/digit/20210307-train.zip")]
           [("test", "/cache/te"); ("train", "/cache/tr")]
           "/cache/tr" "/cache/te").
  - simpl. tauto.
  - reflexivity.
  - reflexivity.
  - reflexivity.
  - reflexivity.
  - right. exists ["03-three"], "07-seven", []. split; [reflexivity |].
    split; [| reflexivity].
    intros d' [<- | []]. now exists ["p.png"].
Defined.

Lemma dict_set_keys {V} (d : dict V) (k : string) (v : V) :
  NoDup (map fst d) ->
  NoDup (map fst (dict_set d k v))
  /\ forall k', In k' (map fst (dict_set d k v)) <-> k' = k \/ In k' (map fst d).
Proof.
  induction d as [| [k0 v0] d IH]; intros Hnd; simpl.
  - split; [repeat constructor; intros [] |]. intros k'. simpl.
    split; [intros [<- | []]; now left | intros [-> | []]; now left].
  - inversion Hnd as [| x l Hk0 Hd]; subst.
    destruct (String.eqb_spec k0 k) as [-> | Hne]; simpl.
    + split; [exact Hnd |]. intros k'.
      split; [intros [H | H]; auto | intros [-> | H]; auto].
    + destruct (IH Hd) as [IH1 IH2]. split.
      * constructor; [| exact IH1]. rewrite IH2. intros [Heq | Hin];
          [congruence | contradiction].
      * intros k'. rewrite IH2.
        split; [intros [H | [H | H]]; auto | intros [H | [H | H]]; auto].
Qed.

Lemma scan_fold_keys (train_path : string) (files : string -> list string)
    (dirs : list string) (acc : dict (list string)) :
  NoDup (map fst acc) ->
  NoDup (map fst (fold_left (scan_step train_path files) dirs acc))
  /\ forall k, In k (map fst (fold_left (scan_step train_path files) dirs acc))
               <-> In k (map dir_label dirs) \/ In k (map fst acc).
Proof.
  revert acc. induction dirs as [| d dirs IH]; intros acc Hnd; simpl.
  - split; [exact Hnd |]. intros k. tauto.
  - destruct (dict_set_keys acc (dir_label d)
                (dir_files train_path d (files d)) Hnd) as [H1 H2].
    change (dict_set acc (dir_label d) (dir_files train_path d (files d)))
      with (scan_step train_path files acc d) in H1, H2.
    destruct (IH _ H1) as [IH1 IH2]. split; [exact IH1 |].
    intros k. rewrite IH2, H2.
    split; [intros [H | [H | H]]; auto | intros [[H | H] | H]; auto].
Qed.

(** X6: the index returned by the scan has no repeated key, and its keys
    are exactly the labels of the child directories, however many of them
    share a label. *)
Theorem X6_index_keys_are_the_labels (fs : filesystem) (train_path : string)
    (dirs : list string) (files : string -> list string) :
  listdir fs train_path = inr dirs ->
  (forall d, In d dirs ->
             listdir fs (os_path_join train_path [d]) = inr (files d)) ->
  exists data_pair,
    scan_layout fs train_path = inr data_pair
    /\ NoDup (map fst data_pair)
    /\ forall key, In key (map fst data_pair) <-> In key (map dir_label dirs).
Proof.
  intros Hroot Hdirs. unfold scan_layout, rbind. rewrite Hroot.
  rewrite (scan_loop_listed _ _ files) by exact Hdirs.
  eexists. split; [reflexivity |].
  destruct (scan_fold_keys train_path files dirs []) as [H1 H2];
    [constructor |].
  split; [exact H1 |]. intros key. rewrite H2. simpl. tauto.
Qed.

Lemma X6_index_keys_are_the_labels_witness :
  exists data_pair,
    scan_layout Samples.fs_shared_label "/data/train" = inr data_pair
    /\ NoDup (map fst data_pair)
    /\ forall key, In key (map fst data_pair)
                   <-> In key (map dir_label ["00-a"; "01-b"; "00-c"]).
Proof.
  apply (X6_index_keys_are_the_labels Samples.fs_shared_label "/data/train"
           ["00-a"; "01-b"; "00-c"]
           (fun d => if (d =? "00-a")%string then ["x.png"; "y.png"]
                     else if (d =? "01-b")%string then ["z.png"]
                     else ["w.png"])).
  - reflexivity.
  - intros d [<- | [<- | [<- | []]]]; reflexivity.
Defined.



End ScannerMore.

Section ScanThenGenerate.
Import Py BuraphaTh.





(** X8: a child directory whose name contains no delimiter is indexed under
    its whole name, and one whose name begins with the delimiter under the
    empty label; neither case is rejected by the scan. *)
Theorem X8_directory_without_delimiter (fs : filesystem)
    (train_path dir_name rest : string) (entries : list string)
    (data_pair : dict (list string)) :
  (~ In "-"%char (list_ascii_of_string dir_name) ->
   listdir fs (os_path_join train_path [dir_name]) = inr entries ->
   scan_dir fs train_path dir_name data_pair
   = inr (dict_set data_pair dir_name (dir_files train_path dir_name entries)))
  /\ (listdir fs (os_path_join train_path [String "-" rest]) = inr entries ->
      scan_dir fs train_path (String "-" rest) data_pair
      = inr (dict_set data_pair ""
               (dir_files train_path (String "-" rest) entries))).
Proof.
  split.
  - intros Hfree Hls. rewrite (scan_dir_listed _ _ _ entries) by exact Hls.
    unfold dir_label. now rewrite str_split_whole.
  - intros Hls. rewrite (scan_dir_listed _ _ _ entries) by exact Hls.
    reflexivity.
Qed.

Lemma X8_directory_without_delimiter_witness :
  scan_dir Samples.fs_digits "/cache/tr" "train" [("train", [])]
  = inr (dict_set [("train", [])] "train"
           (dir_files "/cache/tr" "train" ["03-three"; "07-seven"])).
Proof.
  apply (proj1 (X8_directory_without_delimiter Samples.fs_digits "/cache/tr"
                  "train" "" ["03-three"; "07-seven"] [("train", [])])).
  - simpl. intros Hin. repeat destruct Hin as [Hin | Hin];
      discriminate || contradiction.
  - reflexivity.
Defined.

End ScanThenGenerate.

(** ** cub_bahasa: the class table *)

Section CubClassTable.
Import Py Pd CubBahasa.

Lemma int_dict_find_In {V} (d : list (Z * V)) (k : Z) (v : V) :
  int_dict_find d k = Some v -> In (k, v) d.
Proof.
  induction d as [| [k0 v0] d IH]; simpl; [discriminate |].
  destruct (Z.eqb_spec k0 k) as [-> | _].
  - intros H. injection H as <-. now left.
  - intros H. right. now apply IH.
Qed.

Lemma int_dict_find_key {V} (d : list (Z * V)) (k : Z) :
  In k (map fst d) -> exists v, int_dict_find d k = Some v.
Proof.
  induction d as [| [k0 v0] d IH]; simpl; [contradiction |].
  destruct (Z.eqb_spec k0 k) as [-> | Hne]; [now eexists |].
  intros [Heq | Hin]; [contradiction | now apply IH].
Qed.

Lemma value_determines_key {V} (d : list (Z * V)) (a b : Z) (v : V) :
  NoDup (map snd d) -> In (a, v) d -> In (b, v) d -> a = b.
Proof.
  induction d as [| [k0 v0] d IH]; simpl; [contradiction |].
  intros Hnd Ha Hb. inversion Hnd as [| x l Hv Hrest]; subst.
  destruct Ha as [Ha | Ha], Hb as [Hb | Hb].
  - congruence.
  - injection Ha as -> ->. exfalso. apply Hv.
    change v with (snd (b, v)). now apply in_map.
  - injection Hb as -> ->. exfalso. apply Hv.
    change v with (snd (a, v)). now apply in_map.
  - now apply IH.
Qed.

Lemma image_class_keys : map fst IMAGE_CLASS = map (fun i => i + 1) (range 200).
Proof. vm_compute. reflexivity. Qed.

Lemma image_class_entries :
  forallb (fun kv => String.prefix (zfill (str (fst kv)) 3 ++ ".") (snd kv))
          IMAGE_CLASS = true.
Proof. vm_compute. reflexivity. Qed.

(** X9: the class table accepts exactly the class ids 1..200; the name of a
    class begins with its id, zero-padded to three digits and followed by a
    dot; and no two class ids share a name. *)
Theorem X9_class_table (c : Z) :
  (1 <= c <= 200 ->
   exists class_name,
     image_class c = inr class_name
     /\ String.prefix (zfill (str c) 3 ++ ".") class_name = true)
  /\ (~ 1 <= c <= 200 -> image_class c = inl (KeyError (str c)))
  /\ (forall c' class_name,
         image_class c = inr class_name -> image_class c' = inr class_name ->
         c = c').
Proof.
  assert (Hkeys : In c (map fst IMAGE_CLASS) <-> 1 <= c <= 200).
  { rewrite image_class_keys, in_map_iff. unfold range. split.
    - intros (i & <- & Hi). apply in_map_iff in Hi.
      destruct Hi as (n & <- & Hn). apply in_seq in Hn. lia.
    - intros Hc. exists (c - 1). split; [lia |]. apply in_map_iff.
      exists (Z.to_nat (c - 1)). split; [lia |]. apply in_seq. lia. }
  unfold image_class. split; [| split].
  - intros Hc. apply Hkeys in Hc.
    destruct (int_dict_find_key _ _ Hc) as [v Hv]. rewrite Hv.
    exists v. split; [reflexivity |].
    pose proof image_class_entries as Hall. rewrite forallb_forall in Hall.
    exact (Hall (c, v) (int_dict_find_In _ _ _ Hv)).
  - intros Hc. destruct (int_dict_find IMAGE_CLASS c) as [v |] eqn:Hv;
      [| reflexivity].
    exfalso. apply Hc, Hkeys. apply int_dict_find_In in Hv.
    change c with (fst (c, v)). now apply in_map.
  - intros c' class_name H H'.
    destruct (int_dict_find IMAGE_CLASS c) as [v |] eqn:Hv; [| discriminate].
    destruct (int_dict_find IMAGE_CLASS c') as [v' |] eqn:Hv'; [| discriminate].
    injection H as ->. injection H' as ->.
    apply (value_determines_key IMAGE_CLASS c c' class_name);
      [| now apply int_dict_find_In | now apply int_dict_find_In].
    apply nodupb_NoDup. vm_compute. reflexivity.
Qed.

Lemma X9_class_table_witness :
  (exists class_name,
      image_class 59 = inr class_name
      /\ String.prefix (zfill (str 59) 3 ++ ".") class_name = true)
  /\ image_class 201 = inl (KeyError (str 201)).
Proof.
  split.
  - apply (proj1 (X9_class_table 59)). lia.
  - apply (proj1 (proj2 (X9_class_table 201))). lia.
Defined.

End CubClassTable.

(** ** cub_bahasa: the records of the unified schema *)

Section CubUnifiedRecords.
Import Py Pd CubBahasa.

Lemma for_each_origin {Y X S} (xs : list X) (s : S)
    (body : X -> S -> Gen Y S) (y : Y) :
  In y (yielded (for_each xs s body)) ->
  exists x s', In x xs /\ In y (yielded (body x s')).
Proof.
  revert s. induction xs as [| x xs IH]; intros s H; simpl in H.
  - contradiction.
  - unfold bind, yielded in *.
    destruct (body x s) as [ys [err | s1]] eqn:Hb; simpl in H.
    + exists x, s. split; [now left |]. now rewrite Hb.
    + apply in_app_iff in H. destruct H as [H | H].
      * exists x, s. split; [now left |]. now rewrite Hb.
      * destruct (IH _ H) as (x' & s' & Hx' & Hy).
        exists x', s'. split; [now right | exact Hy].
Qed.

Lemma imtext_example_origin (r : row) (j : nat) (key k : Z) (e : example) :
  In (k, e) (yielded (imtext_example r j key)) ->
  k = key
  /\ exists text ctx class_name,
       nth_error (id_caption r) j = Some text
       /\ nth_error (en_caption r) j = Some ctx
       /\ image_class (class_id r) = inr class_name
       /\ e = Imtext {| Schemas.id := str k;
                        Schemas.image_paths := [image_path r];
                        Schemas.texts := Some text;
                        Schemas.meta := {| Schemas.context := Some ctx;
                                           Schemas.labels := [class_name] |} |}.
Proof.
  unfold imtext_example, getitem.
  destruct (nth_error (id_caption r) j) as [text |]; [| intros []].
  destruct (nth_error (en_caption r) j) as [ctx |]; [| intros []].
  destruct (image_class (class_id r)) as [err | class_name]; [intros [] |].
  rewrite !bind_lift_inr. intros [H | []]. injection H as <- <-.
  split; [reflexivity |]. now exists text, ctx, class_name.
Qed.

(** X10: what a record of the unified schema is.  The record at position
    [n] of a run has the key [n] and [str(n)] as its id; it stems from one
    row of the frame and one caption position of that row: its only image
    path is the image of the row, its text and context are the Indonesian
    and English caption at that position, and its only label is the class
    name of the row, which is one of the label names that [_info] declares. *)
Theorem X10_unified_record (config : SEACrowdConfig) (data : DataFrame row)
    (split : string) (n : nat) (k : Z) (e : example) :
  schema config = "seacrowd_imtext" ->
  nth_error (yielded (_generate_examples config data split)) n = Some (k, e) ->
  k = Z.of_nat n
  /\ exists i r j text ctx class_name,
       In (i, r) data
       /\ nth_error (id_caption r) j = Some text
       /\ nth_error (en_caption r) j = Some ctx
       /\ image_class (class_id r) = inr class_name
       /\ e = Imtext {| Schemas.id := str (Z.of_nat n);
                        Schemas.image_paths := [image_path r];
                        Schemas.texts := Some text;
                        Schemas.meta := {| Schemas.context := Some ctx;
                                           Schemas.labels := [class_name] |} |}
       /\ exists label_names,
            _info config = inr (ImageTextFeatures label_names)
            /\ In class_name label_names.
Proof.
  intros Hs H. rewrite generate_unified in H by exact Hs.
  rewrite yielded_then_ret in H.
  destruct (unified_loop_counts data 0) as [Hids _].
  pose proof (ids_from_nth _ _ _ _ Hids H) as Hk. simpl in Hk.
  split; [lia |].
  apply nth_error_In in H. unfold unified_loop in H.
  apply for_each_origin in H. destruct H as ([i r] & s' & Hir & H).
  apply for_each_origin in H. destruct H as (j & s'' & _ & H).
  apply imtext_example_origin in H.
  destruct H as (_ & text & ctx & class_name & H1 & H2 & H3 & ->).
  cbn [snd] in *.
  exists i, r, j, text, ctx, class_name.
  repeat (split; [assumption |]). split; [do 3 f_equal; lia |].
  exists (map snd IMAGE_CLASS). split.
  - unfold _info. rewrite Hs. reflexivity.
  - unfold image_class in H3.
    destruct (int_dict_find IMAGE_CLASS (class_id r)) as [v |] eqn:Hv;
      [| discriminate H3].
    injection H3 as <-. apply int_dict_find_In in Hv.
    change v with (snd (class_id r, v)). now apply in_map.
Qed.

Lemma X10_unified_record_witness :
  1 = Z.of_nat 1
  /\ exists i r j text ctx class_name,
       In (i, r) [(4, Samples.gull_row)]
       /\ nth_error (id_caption r) j = Some text
       /\ nth_error (en_caption r) j = Some ctx
       /\ image_class (class_id r) = inr class_name
       /\ Imtext {| Schemas.id := "1";
                    Schemas.image_paths := [["/"; "cub"; "images"; "g.jpg"]];
                    Schemas.texts := Some "camar abu-abu";
                    Schemas.meta :=
                      {| Schemas.context := Some "a grey gull";
                         Schemas.labels := ["059.California_Gull"] |} |}
          = Imtext {| Schemas.id := str (Z.of_nat 1);
                      Schemas.image_paths := [image_path r];
                      Schemas.texts := Some text;
                      Schemas.meta := {| Schemas.context := Some ctx;
                                         Schemas.labels := [class_name] |} |}
       /\ exists label_names,
            _info imtext_config = inr (ImageTextFeatures label_names)
            /\ In class_name label_names.
Proof.
  apply (X10_unified_record imtext_config [(4, Samples.gull_row)] "train" 1 1);
    reflexivity.
Defined.

End CubUnifiedRecords.

(** ** cub_bahasa: what the merged frame holds *)

Section CubMergedFrame.
Import Py Pd CubBahasa.

Lemma cross_in {L R O} (same_key : L -> R -> bool) (joined : L -> R -> O)
    (left : list L) (right : list R) (l : L) (r : R) :
  In l left -> In r right -> same_key l r = true ->
  In (joined l r) (cross same_key joined left right).
Proof.
  intros Hl Hr Hk. unfold cross. apply in_flat_map. exists l.
  split; [exact Hl |]. apply in_map. apply filter_In. now split.
Qed.

Lemma in_cross_iff {L R O} (same_key : L -> R -> bool) (joined : L -> R -> O)
    (left : list L) (right : list R) (o : O) :
  In o (cross same_key joined left right) <->
  exists l r, In l left /\ In r right /\ same_key l r = true /\ o = joined l r.
Proof.
  split; [apply in_cross |].
  intros (l & r & Hl & Hr & Hk & ->). now apply cross_in.
Qed.

Lemma combine_fst {A B} (l : list A) (l' : list B) :
  length l = length l' -> map fst (combine l l') = l.
Proof.
  revert l'. induction l as [| a l IH]; intros [| b l'] H; simpl in *;
    try discriminate; [reflexivity |].
  f_equal. apply IH. now injection H.
Qed.

Lemma from_rows_fst {R} (rows : list R) :
  map fst (from_rows rows) = range (length rows).
Proof.
  unfold from_rows. apply combine_fst. unfold range.
  now rewrite length_map, length_seq.
Qed.

Lemma from_rows_length {R} (rows : list R) :
  length (from_rows rows) = length rows.
Proof.
  rewrite <- (length_map snd). now rewrite from_rows_snd.
Qed.

(** Membership in the merged rows, table by table. *)
Lemma in_merged_rows (dl : extracted) (entries : list (Z * string)) (r : row) :
  In r (merged_rows dl entries) <->
  exists e g lb sp,
    In e entries
    /\ In g (groups_of (captions_json dl))
    /\ In lb (image_class_labels_txt dl)
    /\ In sp (train_test_split_txt dl)
    /\ g_image_name g = image_name_of dl (snd e)
    /\ fst lb = fst e
    /\ fst sp = fst e
    /\ r = {| image_id := fst e;
              image_path := image_path_of dl (snd e);
              en_caption := g_en_caption g;
              id_caption := g_id_caption g;
              class_id := snd lb;
              is_train := snd sp |}.
Proof.
  unfold merged_rows. rewrite in_cross_iff. split.
  - intros (igl & sp & Higl & Hsp & Hk3 & ->).
    apply in_cross_iff in Higl. destruct Higl as (ig & lb & Hig & Hlb & Hk2 & ->).
    apply in_cross_iff in Hig. destruct Hig as (im & g & Him & Hg & Hk1 & ->).
    apply in_map_iff in Him. destruct Him as (e & <- & He).
    simpl in *. apply String.eqb_eq in Hk1. apply Z.eqb_eq in Hk2, Hk3.
    exists e, g, lb, sp. unfold image_name_of. now repeat split.
  - intros (e & g & lb & sp & He & Hg & Hlb & Hsp & Hn & Hl & Hs & ->).
    exists ((fst e, image_path_of dl (snd e)), g, snd lb), sp.
    split; [| split; [exact Hsp | split; [simpl; now apply Z.eqb_eq |
                                          reflexivity]]].
    apply in_cross_iff. exists ((fst e, image_path_of dl (snd e)), g), lb.
    split; [| split; [exact Hlb | split; [simpl; now apply Z.eqb_eq |
                                          reflexivity]]].
    apply in_cross_iff. exists (fst e, image_path_of dl (snd e)), g.
    split; [| split; [exact Hg | split; [| reflexivity]]].
    + apply in_map_iff. now exists e.
    + simpl. apply String.eqb_eq. now rewrite Hn.
Qed.

(** X11: the merged frame is the inner join of the four tables, and no
    more.  When [merge_tables] returns a frame, its index is 0, 1, 2, ...,
    and a row is in it exactly when it is built from an entry of
    [images.txt], a caption group with the file name of that entry, a label
    row and a split row with the image id of that entry. *)
Theorem X11_merged_frame_is_the_inner_join (dl : extracted)
    (df : DataFrame row) :
  merge_tables dl = inr df ->
  map fst df = range (length df)
  /\ forall r,
       In r (map snd df) <->
       exists e g lb sp,
         In e (images_txt dl)
         /\ In g (groups_of (captions_json dl))
         /\ In lb (image_class_labels_txt dl)
         /\ In sp (train_test_split_txt dl)
         /\ g_image_name g = image_name_of dl (snd e)
         /\ fst lb = fst e
         /\ fst sp = fst e
         /\ r = {| image_id := fst e;
                   image_path := image_path_of dl (snd e);
                   en_caption := g_en_caption g;
                   id_caption := g_id_caption g;
                   class_id := snd lb;
                   is_train := snd sp |}.
Proof.
  rewrite merge_tables_rows.
  destruct (df_text_rows (captions_json dl)); [discriminate |].
  intros H. injection H as <-. split.
  - now rewrite from_rows_fst, from_rows_length.
  - intros r. rewrite from_rows_snd. apply in_merged_rows.
Qed.

Lemma X11_merged_frame_is_the_inner_join_witness :
  exists df,
    merge_tables Samples.cub_two_of_three = inr df
    /\ map fst df = range (length df)
    /\ length df = 2%nat.
Proof.
  eexists. split; [reflexivity |]. split; [| reflexivity].
  apply (proj1 (X11_merged_frame_is_the_inner_join
                  Samples.cub_two_of_three _ eq_refl)).
Defined.

End CubMergedFrame.

(** ** cub_bahasa: the caption groups *)

Section CubGroups.
Import Py Pd CubBahasa.

Lemma string_compare_refl (s : string) : String.compare s s = Eq.
Proof.
  pose proof (String.compare_antisym s s) as H.
  destruct (String.compare s s); simpl in H; congruence.
Qed.

Lemma string_compare_lt_trans (a b c : string) :
  String.compare a b = Lt -> String.compare b c = Lt ->
  String.compare a c = Lt.
Proof.
  revert b c. induction a as [| ca a IH]; intros [| cb b] [| cc c];
    simpl; try discriminate; try reflexivity.
  unfold Ascii.compare.
  destruct (N.compare_spec (N_of_ascii ca) (N_of_ascii cb)) as [Hab | Hab | Hab];
    destruct (N.compare_spec (N_of_ascii cb) (N_of_ascii cc)) as [Hbc | Hbc | Hbc];
    try discriminate; intros H1 H2.
  - rewrite Hab, Hbc, N.compare_refl. now apply (IH b c).
  - rewrite Hab. now rewrite (proj2 (N.compare_lt_iff _ _) Hbc).
  - rewrite <- Hbc. now rewrite (proj2 (N.compare_lt_iff _ _) Hab).
  - assert (Hac : (N_of_ascii ca < N_of_ascii cc)%N) by lia.
    now rewrite (proj2 (N.compare_lt_iff _ _) Hac).
Qed.

Lemma string_compare_lt_neq (a b : string) :
  String.compare a b = Lt -> a <> b.
Proof. intros H ->. rewrite string_compare_refl in H. discriminate. Qed.

Lemma no_group_above (n : string) (gs : list grouped_row) :
  Forall (fun g => String.compare n (g_image_name g) = Lt) gs ->
  filter (fun g => (n =? g_image_name g)%string) gs = [].
Proof.
  induction 1 as [| g gs Hg _ IH]; simpl; [reflexivity |].
  destruct (String.eqb_spec n (g_image_name g)) as [Heq | _]; [| exact IH].
  now apply string_compare_lt_neq in Hg.
Qed.

Lemma group_insert_sorted (r : text_row) (gs : list grouped_row) :
  StronglySorted name_lt gs -> StronglySorted name_lt (group_insert r gs).
Proof.
  induction 1 as [| g gs Hs IH Hall]; simpl.
  - repeat constructor.
  - destruct (String.compare (t_image_name r) (g_image_name g)) eqn:Hc.
    + constructor; [exact Hs | exact Hall].
    + constructor; [now constructor |]. constructor; [exact Hc |].
      apply Forall_forall. intros g' Hg'. rewrite Forall_forall in Hall.
      unfold name_lt in *. simpl.
      apply (string_compare_lt_trans _ (g_image_name g)); [exact Hc |].
      now apply Hall.
    + constructor; [exact IH |]. apply Forall_forall. intros g' Hg'.
      rewrite Forall_forall in Hall. unfold name_lt in *.
      destruct (group_insert_names _ _ _ Hg') as [Hn | (g'' & Hg'' & Hn)].
      * rewrite Hn, String.compare_antisym, Hc. reflexivity.
      * rewrite <- Hn. now apply Hall.
Qed.

Lemma held_captions_insert (english : bool) (n : string) (r : text_row)
    (gs : list grouped_row) :
  StronglySorted name_lt gs ->
  held_captions english n (group_insert r gs)
  = held_captions english n gs
    ++ (if (t_image_name r =? n)%string then [text_field english r] else []).
Proof.
  unfold held_captions. induction 1 as [| g gs Hs IH Hall]; simpl.
  - rewrite (String.eqb_sym n).
    destruct (t_image_name r =? n)%string; simpl; [| reflexivity].
    now destruct english.
  - destruct (String.compare (t_image_name r) (g_image_name g)) eqn:Hc; simpl.
    + apply String.compare_eq_iff in Hc. rewrite <- Hc.
      rewrite (String.eqb_sym n).
      destruct (String.eqb_spec (t_image_name r) n) as [Hn | _]; simpl;
        [| now rewrite app_nil_r].
      rewrite no_group_above.
      * simpl. rewrite !app_nil_r. now destruct english.
      * rewrite <- Hn, Hc. exact Hall.
    + rewrite (String.eqb_sym n (t_image_name r)).
      destruct (String.eqb_spec (t_image_name r) n) as [Hn | _]; simpl;
        [| now rewrite app_nil_r].
      subst n.
      destruct (String.eqb_spec (t_image_name r) (g_image_name g)) as [Heq | _];
        [now apply string_compare_lt_neq in Hc |].
      rewrite no_group_above.
      * simpl. now destruct english.
      * apply Forall_forall. intros g' Hg'. rewrite Forall_forall in Hall.
        apply (string_compare_lt_trans _ (g_image_name g)); [exact Hc |].
        now apply Hall.
    + destruct (n =? g_image_name g)%string; simpl; rewrite IH;
        [now rewrite app_assoc | reflexivity].
Qed.

Lemma groups_fold (english : bool) (n : string) (rows : list text_row)
    (acc : list grouped_row) :
  StronglySorted name_lt acc ->
  StronglySorted name_lt
    (fold_left (fun groups r => group_insert r groups) rows acc)
  /\ held_captions english n
       (fold_left (fun groups r => group_insert r groups) rows acc)
     = held_captions english n acc
       ++ map (text_field english)
              (filter (fun t => (t_image_name t =? n)%string) rows).
Proof.
  revert acc. induction rows as [| r rows IH]; intros acc Hacc; simpl.
  - split; [exact Hacc | now rewrite app_nil_r].
  - destruct (IH _ (group_insert_sorted r acc Hacc)) as [H1 H2].
    split; [exact H1 |]. rewrite H2, held_captions_insert by exact Hacc.
    rewrite <- app_assoc. f_equal.
    now destruct (t_image_name r =? n)%string.
Qed.

Lemma only_group_of_its_name (gs : list grouped_row) (g : grouped_row) :
  StronglySorted name_lt gs -> In g gs ->
  filter (fun g' => (g_image_name g =? g_image_name g')%string) gs = [g].
Proof.
  induction 1 as [| a gs Hs IH Hall]; intros Hin; [contradiction |]. simpl.
  destruct Hin as [-> | Hin].
  - rewrite String.eqb_refl, no_group_above; [reflexivity | exact Hall].
  - rewrite Forall_forall in Hall. pose proof (Hall g Hin) as Hlt.
    apply string_compare_lt_neq in Hlt.
    destruct (String.eqb_spec (g_image_name g) (g_image_name a)) as [Heq | _];
      [congruence | now apply IH].
Qed.

(** The groups are ordered by file name without repetition, and every group
    holds exactly the captions given under its file name, in file order. *)
Lemma groups_of_keep_file_order (text_data : Json.text_data) :
  StronglySorted name_lt (groups_of text_data)
  /\ forall g,
       In g (groups_of text_data) ->
       g_en_caption g
       = map t_en_caption
             (filter (fun t => (t_image_name t =? g_image_name g)%string)
                     (df_text_rows text_data))
       /\ g_id_caption g
          = map t_id_caption
                (filter (fun t => (t_image_name t =? g_image_name g)%string)
                        (df_text_rows text_data))
       /\ g_id_caption g <> [].
Proof.
  unfold groups_of.
  assert (Hfold : forall english n,
             StronglySorted name_lt
               (fold_left (fun groups r => group_insert r groups)
                          (df_text_rows text_data) [])
             /\ held_captions english n
                  (fold_left (fun groups r => group_insert r groups)
                             (df_text_rows text_data) [])
                = map (text_field english)
                      (filter (fun t => (t_image_name t =? n)%string)
                              (df_text_rows text_data))).
  { intros english n.
    destruct (groups_fold english n (df_text_rows text_data) [])
      as [H1 H2]; [constructor |]. split; [exact H1 | exact H2]. }
  split; [exact (proj1 (Hfold true "")) |].
  intros g Hg.
  assert (Hheld : forall english,
             group_field english g
             = map (text_field english)
                   (filter (fun t => (t_image_name t =? g_image_name g)%string)
                           (df_text_rows text_data))).
  { intros english. destruct (Hfold english (g_image_name g)) as [Hs Hh].
    rewrite <- Hh. unfold held_captions.
    rewrite (only_group_of_its_name _ g Hs Hg). simpl.
    now rewrite app_nil_r. }
  split; [exact (Hheld true) |]. split; [exact (Hheld false) |].
  rewrite (Hheld false : g_id_caption g = _).
  destruct (fold_insert_names _ _ _ Hg) as [(t & Ht & Hn) | (g' & [] & _)].
  assert (Hin : In t (filter (fun t => (t_image_name t =? g_image_name g)%string)
                             (df_text_rows text_data))).
  { apply filter_In. split; [exact Ht |]. now apply String.eqb_eq. }
  destruct (filter _ (df_text_rows text_data)); [contradiction | discriminate].
Qed.

(** X12: the frame of grouped captions that
    [df_text.groupby('image_name').agg(list).reset_index()] gives.  Its index
    counts the groups from 0; the groups are ordered by file name without
    repetition; every file name of the caption file has a group; every group
    holds at least one caption; and the English and the Indonesian captions
    of a group are exactly the captions that the caption file gives under the
    file name of the group, in file order. *)
Theorem X12_groups_keep_file_order (text_data : Json.text_data)
    (gs : DataFrame grouped_row) :
  groupby_image_name (df_text_rows text_data) = inr gs ->
  map fst gs = range (length gs)
  /\ StronglySorted name_lt (map snd gs)
  /\ (forall t, In t (df_text_rows text_data) ->
        exists i g, In (i, g) gs /\ g_image_name g = t_image_name t)
  /\ forall i g,
       In (i, g) gs ->
       g_en_caption g
       = map t_en_caption
             (filter (fun t => (t_image_name t =? g_image_name g)%string)
                     (df_text_rows text_data))
       /\ g_id_caption g
          = map t_id_caption
                (filter (fun t => (t_image_name t =? g_image_name g)%string)
                        (df_text_rows text_data))
       /\ g_id_caption g <> [].
Proof.
  intros H.
  assert (Hgs : gs = from_rows (groups_of text_data)).
  { unfold groupby_image_name in H. unfold groups_of.
    destruct (df_text_rows text_data); [discriminate | now injection H]. }
  clear H. subst gs.
  destruct (groups_of_keep_file_order text_data) as [Hsorted Hgroups].
  split; [now rewrite from_rows_fst, from_rows_length |].
  rewrite from_rows_snd. split; [exact Hsorted |]. split.
  - intros t Ht.
    destruct (groups_fold false (t_image_name t) (df_text_rows text_data) [])
      as [_ Hheld]; [constructor |].
    fold (groups_of text_data) in Hheld. unfold held_captions in Hheld.
    cbn [filter map concat app] in Hheld.
    destruct (filter (fun g => (t_image_name t =? g_image_name g)%string)
                     (groups_of text_data)) as [| g rest] eqn:Hf.
    + exfalso. cbn [map concat] in Hheld.
      assert (Hin : In t (filter (fun t0 => (t_image_name t0 =? t_image_name t)%string)
                                 (df_text_rows text_data))).
      { apply filter_In. split; [exact Ht | apply String.eqb_refl]. }
      destruct (filter _ (df_text_rows text_data));
        [contradiction | discriminate].
    + assert (Hg : In g (filter (fun g => (t_image_name t =? g_image_name g)%string)
                                (groups_of text_data)))
        by (rewrite Hf; now left).
      apply filter_In in Hg. destruct Hg as [Hg Hname].
      apply String.eqb_eq in Hname.
      rewrite <- (from_rows_snd (groups_of text_data)) in Hg.
      apply in_map_iff in Hg. destruct Hg as ([i g'] & Hsnd & Hin).
      cbn [snd] in Hsnd. subst g'. now exists i, g.
  - intros i g Hin. apply Hgroups.
    rewrite <- (from_rows_snd (groups_of text_data)).
    change g with (snd (i, g)). now apply in_map.
Qed.

Lemma X12_groups_keep_file_order_witness :
  exists gs,
    groupby_image_name (df_text_rows (captions_json Samples.cub_two_of_three))
    = inr gs
    /\ map fst gs = [0; 1]
    /\ forall i g,
         In (i, g) gs ->
         g_id_caption g
         = map t_id_caption
               (filter (fun t => (t_image_name t =? g_image_name g)%string)
                       (df_text_rows (captions_json Samples.cub_two_of_three))).
Proof.
  eexists. split; [vm_compute; reflexivity |]. split.
  - refine (eq_trans
              (proj1 (X12_groups_keep_file_order
                        (captions_json Samples.cub_two_of_three) _ eq_refl))
              _).
    reflexivity.
  - intros i g Hin.
    exact (proj1 (proj2
             (proj2 (proj2 (proj2
                (X12_groups_keep_file_order
                   (captions_json Samples.cub_two_of_three) _ eq_refl)))
                i g Hin))).
Defined.

End CubGroups.

(** ** cub_bahasa: the two splits *)

Section CubSplits.
Import Py Pd CubBahasa.

Lemma NoDup_range (n : nat) : NoDup (range n).
Proof.
  unfold range. apply NoDup_map_NoDup_ForallPairs; [| apply seq_NoDup].
  intros a b _ _ H. lia.
Qed.

Lemma keys_filter_NoDup {R} (p : Z * R -> bool) (l : list (Z * R)) :
  NoDup (map fst l) -> NoDup (map fst (filter p l)).
Proof.
  induction l as [| a l IH]; simpl; intros Hnd; [constructor |].
  inversion Hnd as [| x l' Ha Hl]; subst.
  destruct (p a); simpl; [| now apply IH].
  constructor; [| now apply IH]. intros Hin. apply Ha.
  apply in_map_iff in Hin. destruct Hin as (b & Hb & Hin).
  apply filter_In in Hin. rewrite <- Hb. apply in_map. apply Hin.
Qed.

Lemma key_determines_row {R} (l : list (Z * R)) (i : Z) (a b : R) :
  NoDup (map fst l) -> In (i, a) l -> In (i, b) l -> a = b.
Proof.
  induction l as [| [k r] l IH]; simpl; [contradiction |].
  intros Hnd Ha Hb. inversion Hnd as [| x l' Hk Hl]; subst.
  destruct Ha as [Ha | Ha], Hb as [Hb | Hb].
  - congruence.
  - injection Ha as -> ->. exfalso. apply Hk.
    change i with (fst (i, b)). now apply in_map.
  - injection Hb as -> ->. exfalso. apply Hk.
    change i with (fst (i, a)). now apply in_map.
  - now apply IH.
Qed.

(** X13: the two splits share out the merged frame.  A row goes to the
    train split exactly when its flag is 1 and to the test split exactly
    when its flag is 0, under the index label it has in the merged frame; a
    row with any other flag is in neither split; and no index label occurs
    twice, within a split or across the two. *)
Theorem X13_splits_share_out_the_frame (dl : extracted)
    (g_train g_test : SplitGenerator kwargs) :
  _split_generators dl = inr [g_train; g_test] ->
  exists df,
    merge_tables dl = inr df
    /\ (forall i r, In (i, r) (data (gen_kwargs g_train))
                    <-> In (i, r) df /\ is_train r = 1)
    /\ (forall i r, In (i, r) (data (gen_kwargs g_test))
                    <-> In (i, r) df /\ is_train r = 0)
    /\ NoDup (map fst (data (gen_kwargs g_train))
              ++ map fst (data (gen_kwargs g_test))).
Proof.
  unfold _split_generators, rbind. intros H.
  destruct (merge_tables dl) as [err | df] eqn:Hdf; [discriminate |].
  injection H as <- <-. exists df. split; [reflexivity |]. simpl.
  assert (Hnd : NoDup (map fst df)).
  { rewrite merge_tables_rows in Hdf.
    destruct (df_text_rows (captions_json dl)); [discriminate |].
    injection Hdf as <-. rewrite from_rows_fst. apply NoDup_range. }
  unfold select. split; [| split].
  - intros i r. rewrite filter_In. simpl. now rewrite Z.eqb_eq.
  - intros i r. rewrite filter_In. simpl. now rewrite Z.eqb_eq.
  - apply NoDup_app; try (now apply keys_filter_NoDup).
    intros i H1 H0. apply in_map_iff in H1, H0.
    destruct H1 as ([i1 r1] & <- & H1), H0 as ([i0 r0] & Heq & H0).
    simpl in Heq. subst i0. apply filter_In in H1, H0. simpl in *.
    destruct H1 as [H1 Hf1], H0 as [H0 Hf0].
    rewrite (key_determines_row df i1 r1 r0 Hnd H1 H0) in Hf1.
    apply Z.eqb_eq in Hf1, Hf0. congruence.
Qed.

Lemma X13_splits_share_out_the_frame_witness :
  exists df,
    merge_tables Samples.cub_download = inr df
    /\ (forall i r,
           In (i, r) (select (fun r => is_train r =? 1) df)
           <-> In (i, r) df /\ is_train r = 1)
    /\ (forall i r,
           In (i, r) (select (fun r => is_train r =? 0) df)
           <-> In (i, r) df /\ is_train r = 0)
    /\ NoDup (map fst (select (fun r => is_train r =? 1) df)
              ++ map fst (select (fun r => is_train r =? 0) df)).
Proof.
  destruct (X13_splits_share_out_the_frame Samples.cub_download _ _ eq_refl)
    as (df & Hdf & H1 & H0 & Hnd).
  exists df. split; [exact Hdf |].
  vm_compute in Hdf. injection Hdf as <-.
  split; [exact H1 |]. split; [exact H0 | exact Hnd].
Defined.

End CubSplits.

(** ** cub_bahasa: the records of the source schema *)

Section CubSourceRecords.
Import Py Pd CubBahasa.

Lemma source_captions_loop (r : row) (n a : nat) (acc : list Src.caption) :
  (a + n <= length (en_caption r))%nat ->
  (a + n <= length (id_caption r))%nat ->
  for_each_r (seq a n) acc
    (fun i acc =>
       eng <~ getitem (en_caption r) i ;;
       ind <~ getitem (id_caption r) i ;;
       inr (acc ++ [ {| Src.caption_eng := eng; Src.caption_ind := ind |} ]))
  = inr (acc ++ map (fun j => {| Src.caption_eng := nth j (en_caption r) "";
                                 Src.caption_ind := nth j (id_caption r) "" |})
                    (seq a n)).
Proof.
  revert a acc. induction n as [| n IH]; intros a acc Hen Hid; simpl.
  - now rewrite app_nil_r.
  - destruct (getitem_below (en_caption r) a) as (eng & Heng & ->); [lia |].
    destruct (getitem_below (id_caption r) a) as (ind & Hind & ->); [lia |].
    simpl. rewrite IH by lia. rewrite <- app_assoc. simpl.
    now rewrite (nth_error_nth _ _ _ Heng), (nth_error_nth _ _ _ Hind).
Qed.

Lemma paired_by_position (en ind : list string) :
  (length en <= length ind)%nat ->
  map (fun j => {| Src.caption_eng := nth j en "";
                   Src.caption_ind := nth j ind "" |})
      (seq 0 (length en))
  = map (fun p => {| Src.caption_eng := fst p; Src.caption_ind := snd p |})
        (combine en ind).
Proof.
  revert ind. induction en as [| e en IH]; intros [| i ind] H; simpl in *;
    try reflexivity; [lia |].
  f_equal. rewrite <- seq_shift, map_map. apply IH. lia.
Qed.

Lemma source_captions_paired (r : row) :
  (length (en_caption r) <= length (id_caption r))%nat ->
  source_captions r
  = inr (map (fun p => {| Src.caption_eng := fst p; Src.caption_ind := snd p |})
             (combine (en_caption r) (id_caption r))).
Proof.
  intros H. unfold source_captions. rewrite range_to_nat.
  rewrite source_captions_loop by (simpl; lia).
  simpl. now rewrite paired_by_position.
Qed.

Lemma bind_yield {Y B} (y : Y) (f : unit -> Gen Y B) :
  bind (yield y) f = (y :: fst (f tt), snd (f tt)).
Proof. reflexivity. Qed.

Lemma generate_source (config : SEACrowdConfig) (data : DataFrame row)
    (split : string) :
  schema config = "source" ->
  _generate_examples config data split
  = for_each data tt
      (fun ir _ =>
         class_name <- lift (image_class (class_id (snd ir))) ;;
         captions <- lift (source_captions (snd ir)) ;;
         yield (fst ir,
                Source {| Src.image_id := image_id (snd ir);
                          Src.class_id := class_id (snd ir);
                          Src.image_path := image_path (snd ir);
                          Src.class_name := class_name;
                          Src.captions := captions |})).
Proof.
  intros Hs. unfold _generate_examples, iterrows. rewrite Hs.
  cbn [String.eqb Ascii.eqb Bool.eqb]. apply for_each_ext.
  now intros [key r] [].
Qed.

(** The run of the source schema on rows it can turn into records. *)
Lemma source_run_spec (config : SEACrowdConfig) (data : DataFrame row)
    (split : string) :
  schema config = "source" ->
  (forall i r, In (i, r) data ->
     (length (en_caption r) <= length (id_caption r))%nat
     /\ exists class_name, image_class (class_id r) = inr class_name) ->
  ending (_generate_examples config data split) = inr tt
  /\ map fst (yielded (_generate_examples config data split)) = map fst data
  /\ forall n i r,
       nth_error data n = Some (i, r) ->
       exists class_name,
         image_class (class_id r) = inr class_name
         /\ nth_error (yielded (_generate_examples config data split)) n
            = Some (i, source_record r class_name).
Proof.
  intros Hs Hrows. rewrite generate_source by exact Hs.
  induction data as [| [i0 r0] data IH].
  - split; [reflexivity |]. split; [reflexivity |]. intros [| n] i r H;
      discriminate H.
  - destruct (Hrows i0 r0 (or_introl eq_refl)) as [Hlen (cn & Hcn)].
    destruct IH as (IH1 & IH2 & IH3);
      [intros i r Hin; apply (Hrows i r); now right |].
    cbn [for_each fst snd]. rewrite Hcn, bind_lift_inr.
    rewrite source_captions_paired by exact Hlen. rewrite bind_lift_inr.
    rewrite bind_yield.
    unfold yielded, ending in *. cbn [fst snd map].
    split; [exact IH1 |]. split; [now rewrite IH2 |].
    intros [| n] i r H; simpl in H.
    + injection H as <- <-. exists cn. split; [exact Hcn | reflexivity].
    + exact (IH3 n i r H).
Qed.

(** X14: the source schema passes the rows through.  On a frame whose rows
    have a class id of the class table and at least as many Indonesian as
    English captions, the run ends normally and yields one record per row,
    in order, under the index label of the row; the record holds the fields
    of the row, the class name of its class id, and the captions paired
    position by position. *)
Theorem X14_source_records (config : SEACrowdConfig) (data : DataFrame row)
    (split : string) :
  schema config = "source" ->
  (forall i r, In (i, r) data ->
     (length (en_caption r) <= length (id_caption r))%nat
     /\ exists class_name, image_class (class_id r) = inr class_name) ->
  ending (_generate_examples config data split) = inr tt
  /\ map fst (yielded (_generate_examples config data split)) = map fst data
  /\ forall n i r,
       nth_error data n = Some (i, r) ->
       exists class_name,
         image_class (class_id r) = inr class_name
         /\ nth_error (yielded (_generate_examples config data split)) n
            = Some (i, source_record r class_name).
Proof. exact (source_run_spec config data split). Qed.

Lemma X14_source_records_witness :
  ending (_generate_examples source_config [(4, Samples.gull_row)] "train")
  = inr tt
  /\ map fst (yielded (_generate_examples source_config
                         [(4, Samples.gull_row)] "train"))
     = map fst [(4, Samples.gull_row)]
  /\ forall n i r,
       nth_error [(4, Samples.gull_row)] n = Some (i, r) ->
       exists class_name,
         image_class (class_id r) = inr class_name
         /\ nth_error (yielded (_generate_examples source_config
                                  [(4, Samples.gull_row)] "train")) n
            = Some (i, source_record r class_name).
Proof.
  apply (X14_source_records source_config [(4, Samples.gull_row)] "train").
  - reflexivity.
  - intros i r [H | []]. injection H as <- <-. split; [simpl; lia |].
    now exists "059.California_Gull".
Defined.

End CubSourceRecords.

(** ** cub_bahasa: how a run on a split can end *)

Section CubOutcomes.
Import Py Pd CubBahasa.

Lemma image_class_cases (c : Z) :
  (exists class_name, image_class c = inr class_name)
  \/ image_class c = inl (KeyError (str c)).
Proof.
  unfold image_class. destruct (int_dict_find IMAGE_CLASS c);
    [left; now eexists | now right].
Qed.

Lemma source_outcome (config : SEACrowdConfig) (data : DataFrame row)
    (split : string) :
  schema config = "source" ->
  (forall i r, In (i, r) data ->
               length (en_caption r) = length (id_caption r)) ->
  ending (_generate_examples config data split) = inr tt
  \/ exists i r,
       In (i, r) data
       /\ image_class (class_id r) = inl (KeyError (str (class_id r)))
       /\ ending (_generate_examples config data split)
          = inl (KeyError (str (class_id r))).
Proof.
  intros Hs Hrows. rewrite generate_source by exact Hs.
  induction data as [| [i0 r0] data IH].
  - now left.
  - cbn [for_each fst snd].
    destruct (image_class_cases (class_id r0)) as [[cn Hcn] | Hbad].
    + rewrite Hcn, bind_lift_inr.
      rewrite source_captions_paired
        by (rewrite (Hrows i0 r0 (or_introl eq_refl)); lia).
      rewrite bind_lift_inr, bind_yield. unfold ending in *. cbn [snd].
      destruct IH as [IH | (i & r & Hin & Hc & IH)];
        [intros i r Hin; apply (Hrows i r); now right | now left |].
      right. exists i, r. split; [now right | now split].
    + right. exists i0, r0. split; [now left |]. split; [exact Hbad |].
      now rewrite Hbad.
Qed.

Lemma unified_outcome (data : DataFrame row) (key : Z) :
  (forall i r, In (i, r) data ->
               length (en_caption r) = length (id_caption r)) ->
  (exists key', ending (unified_loop data key) = inr key')
  \/ exists i r,
       In (i, r) data
       /\ image_class (class_id r) = inl (KeyError (str (class_id r)))
       /\ ending (unified_loop data key) = inl (KeyError (str (class_id r))).
Proof.
  intros Hrows. revert key. induction data as [| [i0 r0] data IH]; intros key.
  - left. now exists key.
  - assert (Hrest : forall i r, In (i, r) data ->
                      length (en_caption r) = length (id_caption r))
      by (intros i r Hin; apply (Hrows i r); now right).
    pose proof (Hrows i0 r0 (or_introl eq_refl)) as Hlen.
    unfold unified_loop in *. cbn [for_each snd].
    destruct (image_class_cases (class_id r0)) as [[cn Hcn] | Hbad].
    + rewrite (caption_loop r0 cn) by (simpl; lia || assumption).
      unfold bind, ending in *. cbn [fst snd].
      destruct (IH Hrest (key + Z.of_nat (length (id_caption r0))))
        as [IH' | (i & r & Hin & Hc & IH')]; [now left |].
      right. exists i, r. split; [now right | now split].
    + destruct (id_caption r0) as [| t ts] eqn:Hid.
      * cbn [length seq for_each]. rewrite bind_ret_l.
        destruct (IH Hrest key) as [IH' | (i & r & Hin & Hc & IH')];
          [now left |].
        right. exists i, r. split; [now right | now split].
      * destruct (en_caption r0) as [| c cs] eqn:Hen; [discriminate Hlen |].
        right. exists i0, r0. split; [now left |]. split; [exact Hbad |].
        cbn [length seq for_each]. unfold imtext_example.
        rewrite Hid, Hen. cbn [getitem nth_error]. rewrite Hbad.
        reflexivity.
Qed.

Lemma merged_rows_balanced (dl : extracted) (entries : list (Z * string))
    (r : row) :
  In r (merged_rows dl entries) ->
  length (en_caption r) = length (id_caption r).
Proof.
  intros H. apply in_merged_rows in H.
  destruct H as (e & g & lb & sp & _ & Hg & _ & _ & _ & _ & _ & ->). simpl.
  pose proof (groups_balanced (captions_json dl)) as Hbal.
  rewrite Forall_forall in Hbal. now apply Hbal.
Qed.

(** X15: on the frames that [_split_generators] builds, a run under a
    declared schema never stops on a caption index: it either ends normally
    or stops with [KeyError] for the class id of one of its rows, an id that
    is not in the class table. *)
Theorem X15_runs_stop_on_class_ids_only (dl : extracted)
    (gens : list (SplitGenerator kwargs)) (g : SplitGenerator kwargs)
    (config : SEACrowdConfig) :
  _split_generators dl = inr gens ->
  In g gens ->
  schema config = "source" \/ schema config = "seacrowd_imtext" ->
  ending (run_split config g) = inr tt
  \/ exists i r,
       In (i, r) (data (gen_kwargs g))
       /\ image_class (class_id r) = inl (KeyError (str (class_id r)))
       /\ ending (run_split config g) = inl (KeyError (str (class_id r))).
Proof.
  unfold _split_generators, rbind. intros H Hg Hschema.
  rewrite merge_tables_rows in H.
  destruct (df_text_rows (captions_json dl)); [discriminate |].
  injection H as <-.
  assert (Hbal : forall i r, In (i, r) (data (gen_kwargs g)) ->
                   length (en_caption r) = length (id_caption r)).
  { intros i r Hin.
    apply (merged_rows_balanced dl (images_txt dl)).
    rewrite <- (from_rows_snd (merged_rows dl (images_txt dl))).
    change r with (snd (i, r)). apply in_map.
    destruct Hg as [<- | [<- | []]]; simpl in Hin; unfold select in Hin;
      apply filter_In in Hin; apply Hin. }
  unfold run_split. destruct Hschema as [Hs | Hs].
  - exact (source_outcome config _ _ Hs Hbal).
  - rewrite generate_unified by exact Hs. rewrite ending_then_ret.
    destruct (unified_outcome (data (gen_kwargs g)) 0 Hbal)
      as [[key' Hend] | (i & r & Hin & Hc & Hend)]; rewrite Hend.
    + now left.
    + right. now exists i, r.
Qed.

Lemma X15_runs_stop_on_class_ids_only_witness :
  ending (run_split imtext_config
            {| split_name := "train";
               gen_kwargs :=
                 {| data :=
                      [(1, {| image_id := 2;
                              image_path :=
                                ["/"; "cache"; "cub"; "CUB_200_2011"; "images";
                                 "001.Black_footed_Albatross"; "b.jpg"];
                              en_caption := ["a white bird"];
                              id_caption := ["burung putih"];
                              class_id := 1;
                              is_train := 1 |});
                       (2, {| image_id := 3;
                              image_path :=
                                ["/"; "cache"; "cub"; "CUB_200_2011"; "images";
                                 "002.Laysan_Albatross"; "c.jpg"];
                              en_caption := ["a grey bird"];
                              id_caption := ["burung abu-abu"];
                              class_id := 2;
                              is_train := 1 |})];
                    split := "train" |} |}) = inr tt
  \/ exists i r,
       In (i, r)
          [(1, {| image_id := 2;
                  image_path :=
                    ["/"; "cache"; "cub"; "CUB_200_2011"; "images";
                     "001.Black_footed_Albatross"; "b.jpg"];
                  en_caption := ["a white bird"];
                  id_caption := ["burung putih"];
                  class_id := 1;
                  is_train := 1 |});
           (2, {| image_id := 3;
                  image_path :=
                    ["/"; "cache"; "cub"; "CUB_200_2011"; "images";
                     "002.Laysan_Albatross"; "c.jpg"];
                  en_caption := ["a grey bird"];
                  id_caption := ["burung abu-abu"];
                  class_id := 2;
                  is_train := 1 |})]
       /\ image_class (class_id r) = inl (KeyError (str (class_id r)))
       /\ ending (run_split imtext_config
                    {| split_name := "train";
                       gen_kwargs :=
                         {| data :=
                              [(1, {| image_id := 2;
                                      image_path :=
                                        ["/"; "cache"; "cub"; "CUB_200_2011";
                                         "images";
                                         "001.Black_footed_Albatross"; "b.jpg"];
                                      en_caption := ["a white bird"];
                                      id_caption := ["burung putih"];
                                      class_id := 1;
                                      is_train := 1 |});
                               (2, {| image_id := 3;
                                      image_path :=
                                        ["/"; "cache"; "cub"; "CUB_200_2011";
                                         "images";
                                         "002.Laysan_Albatross"; "c.jpg"];
                                      en_caption := ["a grey bird"];
                                      id_caption := ["burung abu-abu"];
                                      class_id := 2;
                                      is_train := 1 |})];
                            split := "train" |} |})
          = inl (KeyError (str (class_id r))).
Proof.
  refine (X15_runs_stop_on_class_ids_only Samples.cub_download _ _
            imtext_config eq_refl _ _).
  - left. reflexivity.
  - now right.
Defined.

End CubOutcomes.

(** ** cub_bahasa: the two schemas side by side *)

Section CubBothSchemas.
Import Py Pd CubBahasa.

Lemma source_caption_sum (config : SEACrowdConfig) (data : DataFrame row)
    (split : string) :
  schema config = "source" ->
  Forall well_formed (map snd data) ->
  list_sum (map (fun y => source_caption_count (snd y))
                (yielded (_generate_examples config data split)))
  = caption_total (map snd data).
Proof.
  intros Hs Hwf. rewrite generate_source by exact Hs.
  induction data as [| [i0 r0] data IH]; [reflexivity |].
  inversion Hwf as [| r rs (Hlen & (cn & Hcn) & _) Hrest]; subst.
  cbn [for_each fst snd]. rewrite Hcn, bind_lift_inr.
  rewrite source_captions_paired by lia.
  rewrite bind_lift_inr, bind_yield. unfold yielded in *.
  specialize (IH Hrest).
  match type of IH with
  | context [for_each data tt ?b] => set (rest := for_each data tt b) in *
  end.
  unfold caption_total, list_sum in *.
  cbn [fst map fold_right]. rewrite IH.
  cbn [snd source_caption_count Src.captions].
  rewrite length_map, length_combine. lia.
Qed.

(** X16: the two schemas agree on the captions.  On well-formed rows the
    unified schema yields as many records as the source records of the same
    frame hold captions, one per caption of every row. *)
Theorem X16_one_unified_record_per_source_caption
    (source unified : SEACrowdConfig) (data : DataFrame row) (split : string) :
  schema source = "source" ->
  schema unified = "seacrowd_imtext" ->
  Forall well_formed (map snd data) ->
  length (yielded (_generate_examples unified data split))
  = list_sum (map (fun y => source_caption_count (snd y))
                  (yielded (_generate_examples source data split)))
  /\ length (yielded (_generate_examples source data split)) = length data
  /\ ending (_generate_examples unified data split) = inr tt
  /\ ending (_generate_examples source data split) = inr tt.
Proof.
  intros Hs Hu Hwf.
  rewrite (source_caption_sum source data split Hs Hwf).
  destruct (unified_loop_total data 0 Hwf) as [Hlen (key' & Hend)].
  destruct (source_run_spec source data split Hs) as (He & Hk & _).
  { intros i r Hin. rewrite Forall_forall in Hwf.
    destruct (Hwf r) as (Hl & Hc & _).
    - change r with (snd (i, r)). now apply in_map.
    - split; [lia | exact Hc]. }
  rewrite generate_unified by exact Hu.
  rewrite yielded_then_ret, ending_then_ret, Hend.
  split; [exact Hlen |]. split; [| split; [reflexivity | exact He]].
  rewrite <- (length_map fst), Hk. apply length_map.
Qed.

Lemma X16_one_unified_record_per_source_caption_witness :
  length (yielded (_generate_examples imtext_config
                     [(4, Samples.gull_row)] "train"))
  = list_sum (map (fun y => source_caption_count (snd y))
                  (yielded (_generate_examples source_config
                              [(4, Samples.gull_row)] "train")))
  /\ length (yielded (_generate_examples source_config
                        [(4, Samples.gull_row)] "train"))
     = length [(4, Samples.gull_row)]
  /\ ending (_generate_examples imtext_config
               [(4, Samples.gull_row)] "train") = inr tt
  /\ ending (_generate_examples source_config
               [(4, Samples.gull_row)] "train") = inr tt.
Proof.
  apply (X16_one_unified_record_per_source_caption source_config imtext_config
           [(4, Samples.gull_row)] "train").
  - reflexivity.
  - reflexivity.
  - constructor; [| constructor].
    split; [reflexivity |]. split; [now exists "059.California_Gull" |].
    now right.
Defined.

End CubBothSchemas.

(** ** mswc: the rows of the parquet files *)

Section MswcRows.
Import Py Pd.
Variable row : Type.
Variable read_parquet : string -> exn + DataFrame row.
Variable task_schema : string.

Lemma bind_ret_r {Y A} (m : Gen Y A) : bind m (fun a => ret a) = m.
Proof.
  destruct m as [ys [e | a]]; unfold bind, ret; simpl; [reflexivity |].
  now rewrite app_nil_r.
Qed.

Lemma numbered_app {R} (k : Z) (rows1 rows2 : list R) :
  Spec.numbered k (rows1 ++ rows2)
  = Spec.numbered k rows1
    ++ Spec.numbered (k + Z.of_nat (length rows1)) rows2.
Proof.
  revert k. induction rows1 as [| r rows1 IH]; intros k; simpl.
  - now replace (k + 0) with k by lia.
  - rewrite IH. do 3 f_equal. lia.
Qed.

Lemma numbered_rows {R} (k : Z) (rows : list R) :
  map snd (Spec.numbered k rows) = rows
  /\ map fst (Spec.numbered k rows)
     = map (fun i => k + i) (range (length rows)).
Proof.
  revert k. induction rows as [| r rows IH]; intros k; simpl.
  - now split.
  - destruct (IH (k + 1)) as [H1 H2]. rewrite H1, H2. split; [reflexivity |].
    unfold range. simpl. f_equal; [f_equal; lia |].
    rewrite <- seq_shift, !map_map. apply map_ext. intros i. lia.
Qed.

(** The loop over the rows of one file. *)
Lemma frame_loop (df : DataFrame row) (idx : Z) :
  for_each (iterrows df) idx
    (fun '(_, r) idx => yield (idx, r) ;;; ret (idx + 1))
  = (Spec.numbered idx (map snd df), inr (idx + Z.of_nat (length df))).
Proof.
  unfold iterrows. revert idx. induction df as [| [i r] df IH]; intros idx.
  - simpl. unfold ret. do 2 f_equal. lia.
  - cbn [for_each]. rewrite bind_assoc, bind_yield, bind_ret_l, IH.
    cbn [fst snd map Spec.numbered length]. f_equal. f_equal. lia.
Qed.

(** The loop over the files while every file can be read. *)
Lemma generate_rows_read (frames : string -> DataFrame row)
    (paths : list string) (idx : Z) :
  (forall path, In path paths -> read_parquet path = inr (frames path)) ->
  Mswc.generate_rows row read_parquet paths idx
  = (Spec.numbered idx (flat_map (fun path => map snd (frames path)) paths),
     inr (idx + Z.of_nat (length (flat_map (fun path => map snd (frames path))
                                           paths)))).
Proof.
  unfold Mswc.generate_rows. revert idx.
  induction paths as [| path paths IH]; intros idx Hread.
  - simpl. unfold ret. do 2 f_equal. lia.
  - cbn [for_each flat_map]. rewrite (Hread path) by now left.
    rewrite bind_lift_inr, frame_loop.
    unfold bind at 1. cbn [fst snd].
    rewrite IH by (intros p Hp; apply Hread; now right).
    cbn [fst snd]. rewrite numbered_app, length_app, !length_map.
    f_equal. f_equal. lia.
Qed.

(** The loop over the files up to a file that cannot be read. *)
Lemma generate_rows_unread (frames : string -> DataFrame row)
    (pre post : list string) (path : string) (e : exn) (idx : Z) :
  (forall p, In p pre -> read_parquet p = inr (frames p)) ->
  read_parquet path = inl e ->
  Mswc.generate_rows row read_parquet (pre ++ path :: post) idx
  = (Spec.numbered idx (flat_map (fun p => map snd (frames p)) pre), inl e).
Proof.
  intros Hpre Hpath. unfold Mswc.generate_rows. rewrite for_each_app.
  fold (Mswc.generate_rows row read_parquet pre idx).
  rewrite (generate_rows_read frames pre idx Hpre).
  cbn [for_each]. rewrite Hpath. unfold bind. cbn [fst snd lift].
  now rewrite app_nil_r.
Qed.

(** Under a declared schema the generator is the loop over the files. *)
Lemma mswc_declared (config : SEACrowdConfig) (paths : list string) :
  schema config = "source"
  \/ schema config = ("seacrowd_" ++ task_schema)%string ->
  Mswc._generate_examples row read_parquet task_schema config paths
  = bind (Mswc.generate_rows row read_parquet paths 0) (fun _ => ret tt).
Proof.
  intros Hschema. unfold Mswc._generate_examples, Mswc._SUPPORTED_SCHEMA_STRINGS.
  destruct (String.eqb_spec (schema config) "source") as [Hs | Hs].
  - rewrite bind_assoc. apply bind_ext. intros idx. now rewrite bind_ret_l.
  - destruct Hschema as [Hs' | Hu]; [contradiction |].
    cbn [map for_each]. rewrite Hu, String.eqb_refl.
    rewrite bind_ret_r, bind_assoc. apply bind_ext. intros idx.
    now rewrite bind_ret_l.
Qed.

End MswcRows.

Section MswcRuns.
Import Py Pd.
Variable row : Type.
Variable read_parquet : string -> exn + DataFrame row.
Variable task_schema : string.

(** X17: the unified schema of mswc changes nothing: under
    seacrowd_<task schema> the generator gives exactly the run it gives
    under the source schema, the rows of the parquet files as they are. *)
Theorem X17_unified_rows_are_source_rows (source unified : SEACrowdConfig)
    (paths : list string) :
  schema source = "source" ->
  schema unified = ("seacrowd_" ++ task_schema)%string ->
  Mswc._generate_examples row read_parquet task_schema unified paths
  = Mswc._generate_examples row read_parquet task_schema source paths.
Proof.
  intros Hs Hu.
  rewrite (mswc_declared row read_parquet task_schema unified paths)
    by now right.
  rewrite (mswc_declared row read_parquet task_schema source paths)
    by now left.
  reflexivity.
Qed.

(** X18: when every file can be read, a run under a declared schema ends
    normally and yields all rows of all files, file after file and row after
    row, numbered 0, 1, 2, ... across the files; the index labels of the
    frames play no part. *)
Theorem X18_all_rows_in_file_order (config : SEACrowdConfig)
    (frames : string -> DataFrame row) (paths : list string) :
  schema config = "source"
  \/ schema config = ("seacrowd_" ++ task_schema)%string ->
  (forall path, In path paths -> read_parquet path = inr (frames path)) ->
  Mswc._generate_examples row read_parquet task_schema config paths
  = (Spec.numbered 0 (flat_map (fun path => map snd (frames path)) paths),
     inr tt)
  /\ map snd (yielded (Mswc._generate_examples row read_parquet task_schema
                         config paths))
     = flat_map (fun path => map snd (frames path)) paths
  /\ map fst (yielded (Mswc._generate_examples row read_parquet task_schema
                         config paths))
     = range (length (flat_map (fun path => map snd (frames path)) paths)).
Proof.
  intros Hschema Hread.
  rewrite (mswc_declared row read_parquet task_schema config paths Hschema).
  rewrite (generate_rows_read row read_parquet frames paths 0 Hread).
  unfold bind, yielded. cbn [fst snd ret]. rewrite app_nil_r.
  destruct (numbered_rows 0
              (flat_map (fun path => map snd (frames path)) paths)) as [H1 H2].
  split; [reflexivity |]. split; [exact H1 |].
  rewrite H2. rewrite <- (map_id (range _)) at 2. apply map_ext.
  intros i. lia.
Qed.

(** X19: a file that cannot be read stops the run with the read error after
    the rows of the files before it have been yielded; the files after it
    are not read. *)
Theorem X19_read_error_after_earlier_files (config : SEACrowdConfig)
    (frames : string -> DataFrame row) (pre post : list string)
    (path : string) (e : exn) :
  schema config = "source"
  \/ schema config = ("seacrowd_" ++ task_schema)%string ->
  (forall p, In p pre -> read_parquet p = inr (frames p)) ->
  read_parquet path = inl e ->
  Mswc._generate_examples row read_parquet task_schema config
    (pre ++ path :: post)
  = (Spec.numbered 0 (flat_map (fun p => map snd (frames p)) pre), inl e).
Proof.
  intros Hschema Hpre Hpath.
  rewrite (mswc_declared row read_parquet task_schema config _ Hschema).
  now rewrite (generate_rows_unread row read_parquet frames pre post path e 0
                 Hpre Hpath).
Qed.

Lemma generate_rows_ending (paths : list string) (idx : Z) :
  (exists idx', ending (Mswc.generate_rows row read_parquet paths idx)
                = inr idx')
  \/ exists path e,
       In path paths /\ read_parquet path = inl e
       /\ ending (Mswc.generate_rows row read_parquet paths idx) = inl e.
Proof.
  unfold Mswc.generate_rows. revert idx.
  induction paths as [| path paths IH]; intros idx.
  - left. now exists idx.
  - cbn [for_each]. destruct (read_parquet path) as [e | df] eqn:Hread.
    + right. exists path, e. split; [now left | now split].
    + rewrite bind_lift_inr, frame_loop. unfold bind, ending in *.
      cbn [fst snd].
      destruct (IH (idx + Z.of_nat (length df)))
        as [Hok | (p & e & Hp & Hr & He)]; [now left |].
      right. exists p, e. split; [now right | now split].
Qed.

(** X20: [_info] and the generator accept the same configurations.  When
    [_info] rejects a configuration the generator raises the very same
    error without yielding anything; when [_info] returns a feature set the
    generator ends normally or stops with the error of a file that cannot
    be read. *)
Theorem X20_info_and_generator_agree (config : SEACrowdConfig)
    (paths : list string) :
  (forall err,
      Mswc._info task_schema config = inl err ->
      Mswc._generate_examples row read_parquet task_schema config paths
      = ([], inl err))
  /\ (forall features,
         Mswc._info task_schema config = inr features ->
         ending (Mswc._generate_examples row read_parquet task_schema
                   config paths) = inr tt
         \/ exists path e,
              In path paths /\ read_parquet path = inl e
              /\ ending (Mswc._generate_examples row read_parquet task_schema
                           config paths) = inl e).
Proof.
  unfold Mswc._info. split.
  - intros err Herr.
    destruct (String.eqb_spec (schema config) "source") as [Hs | Hs];
      [discriminate |].
    destruct (String.eqb_spec (schema config) ("seacrowd_" ++ task_schema))
      as [Hu | Hu]; [discriminate |].
    injection Herr as <-.
    unfold Mswc._generate_examples, Mswc._SUPPORTED_SCHEMA_STRINGS.
    destruct (String.eqb_spec (schema config) "source"); [contradiction |].
    cbn [map for_each].
    destruct (String.eqb_spec (schema config) ("seacrowd_" ++ task_schema));
      [contradiction | reflexivity].
  - intros features Hf.
    assert (Hschema : schema config = "source"
                      \/ schema config = ("seacrowd_" ++ task_schema)%string).
    { destruct (String.eqb_spec (schema config) "source") as [Hs | Hs];
        [now left |].
      destruct (String.eqb_spec (schema config) ("seacrowd_" ++ task_schema))
        as [Hu | Hu]; [now right | discriminate]. }
    rewrite (mswc_declared row read_parquet task_schema config paths Hschema).
    rewrite ending_then_ret.
    destruct (generate_rows_ending paths 0)
      as [[idx' Hok] | (path & e & Hp & Hr & He)].
    + left. now rewrite Hok.
    + right. exists path, e. rewrite He. now repeat split.
Qed.

End MswcRuns.

Section MswcWitnesses.
Import Py Pd.

Lemma X17_unified_rows_are_source_rows_witness :
  Mswc._generate_examples string
    (fun path => if (path =? "a.parquet")%string
                 then inr [(7, "left"); (9, "right")]
                 else inr [(7, "up")])
    "sptext"
    {| name := "mswc_seacrowd_sptext"; version := "1.0.0";
       description := "mswc seacrowd_sptext schema";
       schema := "seacrowd_sptext"; subset_id := "mswc" |}
    ["a.parquet"; "b.parquet"]
  = Mswc._generate_examples string
      (fun path => if (path =? "a.parquet")%string
                   then inr [(7, "left"); (9, "right")]
                   else inr [(7, "up")])
      "sptext"
      {| name := "mswc_source"; version := "1.0.0";
         description := "mswc source schema";
         schema := "source"; subset_id := "mswc" |}
      ["a.parquet"; "b.parquet"].
Proof.
  apply (X17_unified_rows_are_source_rows string); reflexivity.
Defined.

Lemma X18_all_rows_in_file_order_witness :
  Mswc._generate_examples string
    (fun path => if (path =? "a.parquet")%string
                 then inr [(7, "left"); (9, "right")]
                 else inr [(7, "up")])
    "sptext"
    {| name := "mswc_source"; version := "1.0.0";
       description := "mswc source schema";
       schema := "source"; subset_id := "mswc" |}
    ["a.parquet"; "b.parquet"]
  = ([(0, "left"); (1, "right"); (2, "up")], inr tt).
Proof.
  apply (proj1 (X18_all_rows_in_file_order string
                  (fun path => if (path =? "a.parquet")%string
                               then inr [(7, "left"); (9, "right")]
                               else inr [(7, "up")])
                  "sptext"
                  {| name := "mswc_source"; version := "1.0.0";
                     description := "mswc source schema";
                     schema := "source"; subset_id := "mswc" |}
                  (fun path => if (path =? "a.parquet")%string
                               then [(7, "left"); (9, "right")]
                               else [(7, "up")])
                  ["a.parquet"; "b.parquet"]
                  (or_introl eq_refl)
                  ltac:(intros path [<- | [<- | []]]; reflexivity))).
Defined.

Lemma X19_read_error_after_earlier_files_witness :
  Mswc._generate_examples string
    (fun path => if (path =? "a.parquet")%string
                 then inr [(7, "left"); (9, "right")]
                 else inl (OSError path))
    "sptext"
    {| name := "mswc_source"; version := "1.0.0";
       description := "mswc source schema";
       schema := "source"; subset_id := "mswc" |}
    (["a.parquet"] ++ "b.parquet" :: ["c.parquet"])
  = ([(0, "left"); (1, "right")], inl (OSError "b.parquet")).
Proof.
  apply (X19_read_error_after_earlier_files string
           (fun path => if (path =? "a.parquet")%string
                        then inr [(7, "left"); (9, "right")]
                        else inl (OSError path))
           "sptext"
           {| name := "mswc_source"; version := "1.0.0";
              description := "mswc source schema";
              schema := "source"; subset_id := "mswc" |}
           (fun _ => [(7, "left"); (9, "right")])
           ["a.parquet"] ["c.parquet"] "b.parquet" (OSError "b.parquet")).
  - now left.
  - intros p [<- | []]. reflexivity.
  - reflexivity.
Defined.

Lemma X20_info_and_generator_agree_witness :
  Mswc._generate_examples string (fun path => inr [(0, path)]) "sptext"
    Samples.bogus_config ["a.parquet"]
  = ([], inl (ValueError "Invalid config: burapha_th_digit_bogus_schema")).
Proof.
  apply (proj1 (X20_info_and_generator_agree string
                  (fun path => inr [(0, path)]) "sptext"
                  Samples.bogus_config ["a.parquet"])).
  reflexivity.
Defined.

End MswcWitnesses.

(** ** cub_bahasa: how many rows an image gets *)

Section CubRowsPerImage.
Import Py Pd CubBahasa.

Lemma cross_length_uniform {L R O} (same_key : L -> R -> bool)
    (joined : L -> R -> O) (left : list L) (right : list R) (c : nat) :
  (forall l, In l left -> length (filter (same_key l) right) = c) ->
  length (cross same_key joined left right) = (length left * c)%nat.
Proof.
  unfold cross. induction left as [| l left IH]; intros H; simpl.
  - reflexivity.
  - rewrite length_app, length_map.
    rewrite (H l) by now left.
    rewrite IH by (intros l' Hl'; apply H; now right).
    reflexivity.
Qed.

(** A file name has one group when the caption file has a caption for it,
    and none otherwise. *)
Lemma groups_per_name (text_data : Json.text_data) (n : string) :
  length (filter (fun g => (n =? g_image_name g)%string) (groups_of text_data))
  = if (0 <? caption_count text_data n)%nat then 1%nat else 0%nat.
Proof.
  destruct (filter (fun g => (n =? g_image_name g)%string)
                   (groups_of text_data)) as [| g gs] eqn:Hf.
  - pose proof (group_total_count text_data n) as Hc.
    unfold group_total in Hc. rewrite Hf in Hc. simpl in Hc.
    now rewrite <- Hc.
  - assert (Hg : In g (filter (fun g => (n =? g_image_name g)%string)
                              (groups_of text_data)))
      by (rewrite Hf; now left).
    apply filter_In in Hg. destruct Hg as [Hg Hn].
    apply String.eqb_eq in Hn. subst n.
    assert (Hsorted : StronglySorted name_lt (groups_of text_data)).
    { unfold groups_of.
      apply (groups_fold true "" (df_text_rows text_data) []). constructor. }
    rewrite (only_group_of_its_name _ g Hsorted Hg) in Hf.
    injection Hf as <-. simpl.
    destruct (Nat.ltb_spec 0 (caption_count text_data (g_image_name g)))
      as [_ | Hzero]; [reflexivity |].
    exfalso. apply (no_caption_no_group text_data (g_image_name g) g);
      [lia | exact Hg | reflexivity].
Qed.

(** The number of rows that one entry of [images.txt] gets. *)
Lemma merged_rows_per_image (dl : extracted) (e : Z * string) :
  length (merged_rows dl [e])
  = ((if (0 <? caption_count (captions_json dl)
                              (image_name_of dl (snd e)))%nat
      then 1 else 0)
     * length (filter (fun lb => (fst e =? fst lb)%Z)
                      (image_class_labels_txt dl))
     * length (filter (fun sp => (fst e =? fst sp)%Z)
                      (train_test_split_txt dl)))%nat.
Proof.
  unfold merged_rows.
  rewrite (cross_length_uniform _ _ _ _
             (length (filter (fun sp => fst e =? fst sp)
                             (train_test_split_txt dl)))).
  - rewrite (cross_length_uniform _ _ _ _
               (length (filter (fun lb => fst e =? fst lb)
                               (image_class_labels_txt dl)))).
    + f_equal. f_equal. unfold cross. simpl. rewrite app_nil_r, length_map.
      apply groups_per_name.
    + intros ig Hig. apply in_cross in Hig.
      destruct Hig as (im & g & [<- | []] & _ & _ & ->). reflexivity.
  - intros igl Higl. apply in_cross in Higl.
    destruct Higl as (ig & lb & Hig & _ & _ & ->). apply in_cross in Hig.
    destruct Hig as (im & g & [<- | []] & _ & _ & ->). reflexivity.
Qed.

(** X21: the rows an image gets in the frame that [merge_tables] builds.
    The rows of the frame are those of the entries of [images.txt], entry
    after entry; an entry without captions gets none; one with captions gets
    one row for every pair of a label row and a split row that carry its
    image id, so a repeated label or split row repeats the image; and every
    row of an entry carries the entry's image id and path. *)
Theorem X21_rows_per_image (dl : extracted) (df : DataFrame row) :
  merge_tables dl = inr df ->
  length df
  = list_sum
      (map (fun e =>
              ((if (0 <? caption_count (captions_json dl)
                                       (image_name_of dl (snd e)))%nat
                then 1 else 0)
               * length (filter (fun lb => (fst e =? fst lb)%Z)
                                (image_class_labels_txt dl))
               * length (filter (fun sp => (fst e =? fst sp)%Z)
                                (train_test_split_txt dl)))%nat)
           (images_txt dl))
  /\ forall before e after,
       images_txt dl = before ++ e :: after ->
       exists rows_before rows_e rows_after,
         map snd df = rows_before ++ rows_e ++ rows_after
         /\ length rows_e
            = ((if (0 <? caption_count (captions_json dl)
                                       (image_name_of dl (snd e)))%nat
                then 1 else 0)
               * length (filter (fun lb => (fst e =? fst lb)%Z)
                                (image_class_labels_txt dl))
               * length (filter (fun sp => (fst e =? fst sp)%Z)
                                (train_test_split_txt dl)))%nat
         /\ (forall r, In r rows_e ->
               image_id r = fst e /\ image_path r = image_path_of dl (snd e))
         /\ (forall r, In r rows_before ->
               exists e', In e' before /\ image_id r = fst e')
         /\ (forall r, In r rows_after ->
               exists e', In e' after /\ image_id r = fst e').
Proof.
  intros H. rewrite merge_tables_rows in H.
  assert (Hdf : df = from_rows (merged_rows dl (images_txt dl)))
    by (destruct (df_text_rows (captions_json dl));
        [discriminate | now injection H]).
  clear H. subst df. split.
  - rewrite from_rows_length.
    induction (images_txt dl) as [| e es IH]; [reflexivity |].
    rewrite merged_rows_cons, length_app, IH, merged_rows_per_image.
    reflexivity.
  - intros before e after Hentries. rewrite from_rows_snd, Hentries.
    exists (merged_rows dl before), (merged_rows dl [e]),
           (merged_rows dl after).
    split; [now rewrite merged_rows_app, merged_rows_cons |].
    split; [apply merged_rows_per_image |].
    split; [| split].
    + intros r Hr. apply in_merged_rows in Hr.
      destruct Hr as (e' & g & lb & sp & [<- | []] & _ & _ & _ & _ & _ & _ & ->).
      now split.
    + intros r Hr. apply in_merged_rows in Hr.
      destruct Hr as (e' & g & lb & sp & He' & _ & _ & _ & _ & _ & _ & ->).
      now exists e'.
    + intros r Hr. apply in_merged_rows in Hr.
      destruct Hr as (e' & g & lb & sp & He' & _ & _ & _ & _ & _ & _ & ->).
      now exists e'.
Qed.

Lemma X21_rows_per_image_witness :
  exists df,
    merge_tables Samples.cub_repeated_label = inr df
    /\ length df = 3%nat
    /\ map image_id (map snd df) = [1; 1; 2].
Proof.
  eexists. split; [vm_compute; reflexivity |]. split.
  - refine (eq_trans
              (proj1 (X21_rows_per_image Samples.cub_repeated_label _ eq_refl))
              _).
    vm_compute. reflexivity.
  - vm_compute. reflexivity.
Defined.

End CubRowsPerImage.

Section CubSourcePass.
Import Py Pd CubBahasa.

(** X22: how far a pass under the source schema gets.  The keys it yields
    are the index labels of the first rows of the frame, one per row and in
    order.  Either the pass ends normally, and then every row has its
    record; or it stops with an error, and then the row after the last
    record is the one whose class lookup or caption pairing raised that
    error. *)
Theorem X22_source_pass_reaches_the_failing_row (config : SEACrowdConfig)
    (data : DataFrame row) (split : string) :
  schema config = "source" ->
  map fst (yielded (_generate_examples config data split))
  = firstn (length (yielded (_generate_examples config data split)))
           (map fst data)
  /\ ((ending (_generate_examples config data split) = inr tt
       /\ length (yielded (_generate_examples config data split))
          = length data)
      \/ exists i r e,
           nth_error data
             (length (yielded (_generate_examples config data split)))
           = Some (i, r)
           /\ ending (_generate_examples config data split) = inl e
           /\ (image_class (class_id r) = inl e
               \/ (exists class_name,
                      image_class (class_id r) = inr class_name)
                  /\ source_captions r = inl e)).
Proof.
  intros Hs. rewrite generate_source by exact Hs.
  match goal with
  | |- context [for_each data tt ?b] => set (body := b)
  end.
  induction data as [| [key r] data [IHkeys IHend]].
  - split; [reflexivity |]. left. now split.
  - cbn [for_each].
    destruct (image_class (class_id r)) as [e | cn] eqn:Hcn.
    { assert (Hb : body (key, r) tt = ([], inl e))
        by (unfold body; cbn [fst snd]; now rewrite Hcn).
      rewrite Hb. split; [reflexivity |]. right. exists key, r, e.
      split; [reflexivity |]. split; [reflexivity | now left]. }
    destruct (source_captions r) as [e | caps] eqn:Hcaps.
    { assert (Hb : body (key, r) tt = ([], inl e))
        by (unfold body; cbn [fst snd]; rewrite Hcn, bind_lift_inr;
            now rewrite Hcaps).
      rewrite Hb. split; [reflexivity |]. right. exists key, r, e.
      split; [reflexivity |]. split; [reflexivity |].
      right. split; [now exists cn | exact Hcaps]. }
    assert (Hb : body (key, r) tt
                 = ([(key, Source {| Src.image_id := image_id r;
                                     Src.class_id := class_id r;
                                     Src.image_path := image_path r;
                                     Src.class_name := cn;
                                     Src.captions := caps |})], inr tt))
      by (unfold body; cbn [fst snd]; rewrite Hcn, bind_lift_inr;
          rewrite Hcaps, bind_lift_inr; reflexivity).
    rewrite Hb. unfold bind, yielded, ending in *.
    cbn [fst snd app map length firstn nth_error].
    split; [now f_equal |].
    destruct IHend as [[Hend Hlen] | (i & r' & e & Hnth & Hend & Hwhy)].
    + left. split; [exact Hend | now f_equal].
    + right. now exists i, r', e.
Qed.

Lemma X22_source_pass_reaches_the_failing_row_witness :
  map fst (yielded (_generate_examples source_config
                      [(4, Samples.gull_row); (9, Samples.stray_row);
                       (11, Samples.gull_row)] "train"))
  = [4]
  /\ exists e,
       ending (_generate_examples source_config
                 [(4, Samples.gull_row); (9, Samples.stray_row);
                  (11, Samples.gull_row)] "train") = inl e
       /\ image_class (class_id Samples.stray_row) = inl e.
Proof.
  destruct (X22_source_pass_reaches_the_failing_row source_config
              [(4, Samples.gull_row); (9, Samples.stray_row);
               (11, Samples.gull_row)] "train" eq_refl)
    as [Hkeys [[Hend _] | (i & r & e & Hnth & Hend & Hwhy)]].
  - discriminate Hend.
  - split; [exact Hkeys |]. exists e. split; [exact Hend |].
    injection Hnth as _ <-.
    destruct Hwhy as [Hwhy | [[cn Hcn] _]]; [exact Hwhy | discriminate Hcn].
Defined.

End CubSourcePass.

(** * Label resolution in burapha_th and cub_bahasa *)

Section CubClassLookup.
Import Py Pd CubBahasa.

Lemma image_class_positions :
  forallb (fun kv =>
             match nth_error (map snd IMAGE_CLASS) (Z.to_nat (fst kv - 1)) with
             | Some v => (v =? snd kv)%string && (1 <=? fst kv)
             | None => false
             end) IMAGE_CLASS = true.
Proof. vm_compute. reflexivity. Qed.

(** The class name of a class id is the entry at position id - 1 of the
    class names. *)
Lemma image_class_position (c : Z) (class_name : string) :
  image_class c = inr class_name ->
  1 <= c
  /\ nth_error (map snd IMAGE_CLASS) (Z.to_nat (c - 1)) = Some class_name.
Proof.
  unfold image_class.
  destruct (int_dict_find IMAGE_CLASS c) as [v |] eqn:Hv; [| discriminate].
  intros H. injection H as <-. apply int_dict_find_In in Hv.
  pose proof image_class_positions as Hall. rewrite forallb_forall in Hall.
  specialize (Hall (c, v) Hv). cbn [fst snd] in Hall.
  destruct (nth_error (map snd IMAGE_CLASS) (Z.to_nat (c - 1))) as [w |];
    [| discriminate].
  apply andb_prop in Hall. destruct Hall as [Hw Hc].
  apply String.eqb_eq in Hw. apply Z.leb_le in Hc. subst w. now split.
Qed.

Lemma group_insert_holds (r : text_row) (gs : list grouped_row) :
  Forall holds_caption gs -> Forall holds_caption (group_insert r gs).
Proof.
  unfold holds_caption. induction 1 as [| g0 gs H0 Hgs IH]; simpl.
  - repeat constructor. discriminate.
  - destruct (String.compare (t_image_name r) (g_image_name g0)).
    + constructor; [| exact Hgs]. simpl.
      destruct (g_id_caption g0); discriminate.
    + constructor; [simpl; discriminate |]. now constructor.
    + now constructor.
Qed.

Lemma groups_hold_captions (text_data : Json.text_data) :
  Forall holds_caption (groups_of text_data).
Proof.
  unfold groups_of.
  assert (H : forall rows acc,
             Forall holds_caption acc ->
             Forall holds_caption
               (fold_left (fun groups r => group_insert r groups) rows acc)).
  { induction rows as [| r rows IH]; intros acc Hacc; simpl; [exact Hacc |].
    apply IH, group_insert_holds, Hacc. }
  apply H. constructor.
Qed.

(** The rows of the frames that [_split_generators] hands out. *)
Lemma split_frame_rows (dl : extracted) (gens : list (SplitGenerator kwargs))
    (g : SplitGenerator kwargs) (i : Z) (r : row) :
  _split_generators dl = inr gens -> In g gens ->
  In (i, r) (data (gen_kwargs g)) ->
  length (en_caption r) = length (id_caption r)
  /\ id_caption r <> []
  /\ (is_train r = 0 \/ is_train r = 1).
Proof.
  unfold _split_generators, rbind. intros H Hg Hin.
  rewrite merge_tables_rows in H.
  destruct (df_text_rows (captions_json dl)); [discriminate |].
  injection H as <-.
  assert (Hrow : In r (merged_rows dl (images_txt dl))
                 /\ (is_train r = 0 \/ is_train r = 1)).
  { destruct Hg as [<- | [<- | []]]; simpl in Hin; unfold select in Hin;
      apply filter_In in Hin; destruct Hin as [Hin Hflag];
      simpl in Hflag; apply Z.eqb_eq in Hflag;
      (split; [| now (left + right)]);
      rewrite <- (from_rows_snd (merged_rows dl (images_txt dl)));
      change r with (snd (i, r)); now apply in_map. }
  destruct Hrow as [Hrow Hflag].
  split; [exact (merged_rows_balanced dl _ r Hrow) |].
  split; [| exact Hflag].
  apply in_merged_rows in Hrow.
  destruct Hrow as (e & g' & lb & sp & _ & Hg' & _ & _ & _ & _ & _ & ->).
  simpl. pose proof (groups_hold_captions (captions_json dl)) as Hall.
  rewrite Forall_forall in Hall. exact (Hall g' Hg').
Qed.

(** Where a record of the source schema comes from. *)
Lemma source_origin (config : SEACrowdConfig) (data : DataFrame row)
    (split : string) (k : Z) (e : example) :
  schema config = "source" ->
  In (k, e) (yielded (_generate_examples config data split)) ->
  exists r class_name,
    In (k, r) data
    /\ image_class (class_id r) = inr class_name
    /\ example_class_names e = [class_name].
Proof.
  intros Hs H. rewrite generate_source in H by exact Hs.
  apply for_each_origin in H. destruct H as ([i r] & [] & Hin & H).
  cbn [fst snd] in H.
  destruct (image_class (class_id r)) as [err | cn] eqn:Hcn; [destruct H |].
  rewrite bind_lift_inr in H.
  destruct (source_captions r) as [err | caps]; [destruct H |].
  rewrite bind_lift_inr in H. destruct H as [H | []].
  injection H as <- <-. now exists r, cn.
Qed.

(** Where a record of the unified schema comes from. *)
Lemma unified_origin (config : SEACrowdConfig) (data : DataFrame row)
    (split : string) (k : Z) (e : example) :
  schema config = "seacrowd_imtext" ->
  In (k, e) (yielded (_generate_examples config data split)) ->
  exists i r class_name,
    In (i, r) data
    /\ image_class (class_id r) = inr class_name
    /\ example_class_names e = [class_name].
Proof.
  intros Hs H. rewrite generate_unified in H by exact Hs.
  rewrite yielded_then_ret in H. unfold unified_loop in H.
  apply for_each_origin in H. destruct H as ([i r] & s' & Hir & H).
  apply for_each_origin in H. destruct H as (j & s'' & _ & H).
  apply imtext_example_origin in H. cbn [snd] in H.
  destruct H as (_ & text & ctx & cn & _ & _ & Hcn & ->).
  now exists i, r, cn.
Qed.

(** A row whose class id is not in the class table stops the pass, after the
    records of the rows before it. *)
Lemma source_stops_at_unknown_class (config : SEACrowdConfig)
    (pre post : DataFrame row) (i : Z) (r : row) (split : string) :
  schema config = "source" ->
  (forall i' r', In (i', r') pre ->
     (length (en_caption r') <= length (id_caption r'))%nat
     /\ exists class_name, image_class (class_id r') = inr class_name) ->
  image_class (class_id r) = inl (KeyError (str (class_id r))) ->
  _generate_examples config (pre ++ (i, r) :: post) split
  = (yielded (_generate_examples config pre split),
     inl (KeyError (str (class_id r)))).
Proof.
  intros Hs Hpre Hbad.
  destruct (source_run_spec config pre split Hs Hpre) as (Hend & _).
  rewrite !generate_source in * by exact Hs.
  rewrite for_each_app. unfold bind at 1. unfold ending, yielded in *.
  rewrite Hend. cbn [for_each fst snd]. rewrite Hbad.
  cbn [bind lift fst snd]. unfold bind. cbn [fst snd].
  now rewrite app_nil_r.
Qed.

Lemma unified_stops_at_unknown_class (config : SEACrowdConfig)
    (pre post : DataFrame row) (i : Z) (r : row) (split : string) :
  schema config = "seacrowd_imtext" ->
  Forall well_formed (map snd pre) ->
  length (en_caption r) = length (id_caption r) ->
  id_caption r <> [] ->
  image_class (class_id r) = inl (KeyError (str (class_id r))) ->
  _generate_examples config (pre ++ (i, r) :: post) split
  = (yielded (_generate_examples config pre split),
     inl (KeyError (str (class_id r)))).
Proof.
  intros Hs Hpre Hlen Hne Hbad.
  destruct (unified_loop_total pre 0 Hpre) as [_ (key' & Hend)].
  rewrite !generate_unified by exact Hs. rewrite yielded_then_ret.
  unfold unified_loop in *. rewrite for_each_app.
  unfold ending, yielded in *. unfold bind at 2. rewrite Hend.
  cbn [for_each fst snd].
  destruct (id_caption r) as [| t ts] eqn:Hid; [contradiction |].
  destruct (en_caption r) as [| c cs] eqn:Hen; [discriminate Hlen |].
  cbn [length seq for_each].
  assert (Hfirst : imtext_example r 0 key'
                   = ([], inl (KeyError (str (class_id r))))).
  { unfold imtext_example. rewrite Hid, Hen. cbn [getitem nth_error].
    rewrite Hbad. reflexivity. }
  rewrite Hfirst. unfold bind. cbn [lift fst snd]. now rewrite app_nil_r.
Qed.

Lemma class_member (c : Z) :
  In c (map fst IMAGE_CLASS) ->
  exists class_name, image_class c = inr class_name.
Proof.
  intros H. apply int_dict_find_key in H. destruct H as [v Hv].
  exists v. unfold image_class. now rewrite Hv.
Qed.

Lemma class_stranger (c : Z) :
  ~ In c (map fst IMAGE_CLASS) -> image_class c = inl (KeyError (str c)).
Proof.
  intros H. unfold image_class.
  destruct (int_dict_find IMAGE_CLASS c) as [v |] eqn:Hv; [| reflexivity].
  exfalso. apply H. apply int_dict_find_In in Hv.
  change c with (fst (c, v)). now apply in_map.
Qed.

(** A pass over rows whose class ids are all in the class table ends
    normally. *)
Lemma cub_run_completes (config : SEACrowdConfig) (data : DataFrame row)
    (split : string) :
  schema config = "source" \/ schema config = "seacrowd_imtext" ->
  (forall i r, In (i, r) data ->
     length (en_caption r) = length (id_caption r)
     /\ (is_train r = 0 \/ is_train r = 1)
     /\ In (class_id r) (map fst IMAGE_CLASS)) ->
  ending (_generate_examples config data split) = inr tt.
Proof.
  intros [Hs | Hs] Hrows.
  - apply (source_run_spec config data split Hs).
    intros i r Hin. destruct (Hrows i r Hin) as (Hlen & _ & Hc).
    split; [lia | now apply class_member].
  - rewrite generate_unified by exact Hs. rewrite ending_then_ret.
    assert (Hwf : Forall well_formed (map snd data)).
    { apply Forall_forall. intros r Hr. apply in_map_iff in Hr.
      destruct Hr as ([i r'] & <- & Hin). cbn [snd].
      destruct (Hrows i r' Hin) as (Hlen & Hflag & Hc).
      split; [exact Hlen |]. split; [now apply class_member | exact Hflag]. }
    destruct (unified_loop_total data 0 Hwf) as [_ (key' & Hend)].
    now rewrite Hend.
Qed.

(** The pass stops at the first row whose class id is not in the class
    table, after the records of the rows before it. *)
Lemma cub_run_stops (config : SEACrowdConfig) (pre post : DataFrame row)
    (i : Z) (r : row) (split : string) :
  schema config = "source" \/ schema config = "seacrowd_imtext" ->
  (forall i' r', In (i', r') (pre ++ (i, r) :: post) ->
     length (en_caption r') = length (id_caption r')
     /\ id_caption r' <> []
     /\ (is_train r' = 0 \/ is_train r' = 1)) ->
  (forall i' r', In (i', r') pre -> In (class_id r') (map fst IMAGE_CLASS)) ->
  ~ In (class_id r) (map fst IMAGE_CLASS) ->
  _generate_examples config (pre ++ (i, r) :: post) split
  = (yielded (_generate_examples config pre split),
     inl (KeyError (str (class_id r)))).
Proof.
  intros Hschema Hrows Hpre Hbad. apply class_stranger in Hbad.
  assert (Hr : In (i, r) (pre ++ (i, r) :: post))
    by (apply in_or_app; right; now left).
  destruct (Hrows i r Hr) as (Hlen & Hne & _).
  destruct Hschema as [Hs | Hs].
  - apply source_stops_at_unknown_class; [exact Hs | | exact Hbad].
    intros i' r' Hin.
    destruct (Hrows i' r' (in_or_app _ _ _ (or_introl Hin))) as (Hl & _).
    split; [lia | exact (class_member _ (Hpre i' r' Hin))].
  - apply unified_stops_at_unknown_class; try assumption.
    apply Forall_forall. intros r' Hr'. apply in_map_iff in Hr'.
    destruct Hr' as ([i' r''] & <- & Hin). cbn [snd].
    destruct (Hrows i' r'' (in_or_app _ _ _ (or_introl Hin)))
      as (Hl & _ & Hflag).
    split; [exact Hl |].
    split; [exact (class_member _ (Hpre i' r'' Hin)) | exact Hflag].
Qed.

(** The class name of every record is the one the class table gives for the
    class id of a row of the frame. *)
Lemma cub_record_origin (config : SEACrowdConfig) (data : DataFrame row)
    (split : string) (k : Z) (e : example) :
  schema config = "source" \/ schema config = "seacrowd_imtext" ->
  In (k, e) (yielded (_generate_examples config data split)) ->
  exists i r class_name,
    In (i, r) data
    /\ image_class (class_id r) = inr class_name
    /\ nth_error (map snd IMAGE_CLASS) (Z.to_nat (class_id r - 1))
       = Some class_name
    /\ example_class_names e = [class_name].
Proof.
  intros [Hs | Hs] H.
  - destruct (source_origin config data split k e Hs H)
      as (r & cn & Hin & Hcn & He).
    exists k, r, cn. repeat (split; [assumption |]).
    split; [exact (proj2 (image_class_position _ _ Hcn)) | exact He].
  - destruct (unified_origin config data split k e Hs H)
      as (i & r & cn & Hin & Hcn & He).
    exists i, r, cn. repeat (split; [assumption |]).
    split; [exact (proj2 (image_class_position _ _ Hcn)) | exact He].
Qed.

(** Under the unified schema the class is looked up once per caption: a row
    without captions would pass without a lookup.  The frames of
    [_split_generators] hold no such row ([split_frame_rows]). *)
Lemma captionless_row_is_not_looked_up (i : Z) (r : row) (split : string) :
  id_caption r = [] ->
  _generate_examples imtext_config [(i, r)] split = ([], inr tt).
Proof.
  intros H. rewrite generate_unified by reflexivity.
  unfold unified_loop. cbn [for_each snd]. rewrite H. reflexivity.
Qed.

End CubClassLookup.

Section LabelResolution.
Import Py Pd.

(** C5: label resolution is a lookup by value.  In burapha_th the code of a
    label is the first position of the label in the task's enumeration, and
    every record the pass yields carries, for the item at its own position,
    exactly that code; when the label of some item is not in the enumeration
    the pass stops there with the lookup error, having yielded the records
    of the items before it and nothing else (the item is neither skipped nor
    given a default code); when the label of every item is in the
    enumeration the pass ends normally with one record per item.  In
    cub_bahasa, on the frames that [_split_generators] hands out and under
    either declared schema, every record carries the class name that the
    class table gives for the class id of its row, which is the entry at
    position id - 1 of the class names; a row whose class id is not in the
    table stops the pass with the lookup error for that id, after exactly
    the records of the rows before it; and when the class id of every row is
    in the table the pass ends normally. *)
Theorem C5_label_resolution (subset schema_name version split : string)
    (filepath : dict (list string)) :
  In subset BuraphaTh._SUBSETS ->
  schema_name = "source" \/ schema_name = "seacrowd_imtext" ->
  (forall key,
      match index (BuraphaTh.enumeration subset) key with
      | inr code =>
          0 <= code
          /\ nth_error (BuraphaTh.enumeration subset) (Z.to_nat code) = Some key
          /\ forall j, (j < Z.to_nat code)%nat ->
                       nth_error (BuraphaTh.enumeration subset) j <> Some key
      | inl e => e = ValueError key /\ ~ In key (BuraphaTh.enumeration subset)
      end)
  /\ (forall n i e,
         nth_error (yielded (BuraphaTh._generate_examples
                               (BuraphaTh.config_constructor subset schema_name version)
                               filepath split)) n = Some (i, e) ->
         exists key img code,
           nth_error (BuraphaTh.dataset_items filepath) n = Some (key, img)
           /\ index (BuraphaTh.enumeration subset) key = inr code
           /\ nth_error (BuraphaTh.enumeration subset) (Z.to_nat code) = Some key
           /\ BuraphaTh.example_labels e = [code]
           /\ BuraphaTh.example_id e = str (Z.of_nat n)
           /\ BuraphaTh.example_images e = [img])
  /\ (forall pre key img post,
         BuraphaTh.dataset_items filepath = pre ++ (key, img) :: post ->
         Forall (fun kv => In (fst kv) (BuraphaTh.enumeration subset)) pre ->
         ~ In key (BuraphaTh.enumeration subset) ->
         length (yielded (BuraphaTh._generate_examples
                            (BuraphaTh.config_constructor subset schema_name version)
                            filepath split)) = length pre
         /\ ending (BuraphaTh._generate_examples
                      (BuraphaTh.config_constructor subset schema_name version)
                      filepath split) = inl (ValueError key))
  /\ (Forall (fun kv => In (fst kv) (BuraphaTh.enumeration subset))
             (BuraphaTh.dataset_items filepath) ->
      length (yielded (BuraphaTh._generate_examples
                         (BuraphaTh.config_constructor subset schema_name version)
                         filepath split))
      = length (BuraphaTh.dataset_items filepath)
      /\ ending (BuraphaTh._generate_examples
                   (BuraphaTh.config_constructor subset schema_name version)
                   filepath split) = inr tt)
  /\ (forall (dl : CubBahasa.extracted)
             (gens : list (SplitGenerator CubBahasa.kwargs))
             (g : SplitGenerator CubBahasa.kwargs) (config : SEACrowdConfig),
         CubBahasa._split_generators dl = inr gens ->
         In g gens ->
         schema config = "source"
         \/ schema config = "seacrowd_imtext" ->
         (forall k e,
             In (k, e) (yielded (CubBahasa.run_split config g)) ->
             exists i r class_name,
               In (i, r) (CubBahasa.data (gen_kwargs g))
               /\ CubBahasa.image_class (CubBahasa.class_id r) = inr class_name
               /\ nth_error (map snd CubBahasa.IMAGE_CLASS)
                            (Z.to_nat (CubBahasa.class_id r - 1))
                  = Some class_name
               /\ CubBahasa.example_class_names e = [class_name])
         /\ (forall pre i r post,
                CubBahasa.data (gen_kwargs g) = pre ++ (i, r) :: post ->
                (forall i' r', In (i', r') pre ->
                   In (CubBahasa.class_id r') (map fst CubBahasa.IMAGE_CLASS)) ->
                ~ In (CubBahasa.class_id r) (map fst CubBahasa.IMAGE_CLASS) ->
                yielded (CubBahasa.run_split config g)
                = yielded (CubBahasa._generate_examples
                             config pre (CubBahasa.split (gen_kwargs g)))
                /\ ending (CubBahasa._generate_examples
                             config pre (CubBahasa.split (gen_kwargs g)))
                   = inr tt
                /\ ending (CubBahasa.run_split config g)
                   = inl (KeyError (str (CubBahasa.class_id r))))
         /\ ((forall i r, In (i, r) (CubBahasa.data (gen_kwargs g)) ->
                In (CubBahasa.class_id r) (map fst CubBahasa.IMAGE_CLASS)) ->
             ending (CubBahasa.run_split config g) = inr tt)).
Proof.
  intros Hsub Hschema. split; [| split; [| split; [| split]]].
  - intros key. apply index_spec.
  - intros n i e H.
    destruct (burapha_yield_any _ subset _ _ _ _ _
                (get_task_constructor subset schema_name version Hsub) H)
      as (key & img & code & Hitem & Hcode & -> & Hl & Hi & Him & _).
    exists key, img, code. split; [exact Hitem |]. split; [exact Hcode |].
    split; [| now repeat split].
    pose proof (index_spec (BuraphaTh.enumeration subset) key) as Hspec.
    rewrite Hcode in Hspec. apply Hspec.
  - intros pre key img post Hits Hpre Hkey.
    exact (burapha_run_fails _ _ _ _ _ _ _ _ _ Hsub Hschema Hits Hpre Hkey).
  - intros Hits. exact (burapha_run_completes _ _ _ _ _ Hsub Hschema Hits).
  - intros dl gens g config Hgens Hg Hs.
    pose proof (split_frame_rows dl gens g) as Hrows.
    unfold CubBahasa.run_split. split; [| split].
    + intros k e H. exact (cub_record_origin _ _ _ _ _ Hs H).
    + intros pre i r post Hdata Hpre Hbad.
      assert (Hall : forall i' r', In (i', r') (pre ++ (i, r) :: post) ->
                length (CubBahasa.en_caption r')
                = length (CubBahasa.id_caption r')
                /\ CubBahasa.id_caption r' <> []
                /\ (CubBahasa.is_train r' = 0 \/ CubBahasa.is_train r' = 1)).
      { intros i' r' Hin. rewrite <- Hdata in Hin.
        exact (Hrows i' r' Hgens Hg Hin). }
      rewrite Hdata.
      rewrite (cub_run_stops config pre post i r _ Hs Hall Hpre Hbad).
      split; [reflexivity |]. split; [| reflexivity].
      apply cub_run_completes; [exact Hs |].
      intros i' r' Hin.
      destruct (Hall i' r' (in_or_app _ _ _ (or_introl Hin)))
        as (Hl & _ & Hflag).
      split; [exact Hl |]. split; [exact Hflag | exact (Hpre i' r' Hin)].
    + intros Hall. apply cub_run_completes; [exact Hs |].
      intros i r Hin. destruct (Hrows i r Hgens Hg Hin) as (Hl & _ & Hflag).
      split; [exact Hl |]. split; [exact Hflag | exact (Hall i r Hin)].
Qed.

Lemma C5_label_resolution_witness :
  (length (yielded (BuraphaTh._generate_examples
                      (BuraphaTh.config_constructor "digit" "source" "1.0.0")
                      [("03", ["a.png"]); ("7", ["b.png"]); ("04", ["c.png"])]
                      "train")) = 1%nat
   /\ ending (BuraphaTh._generate_examples
                (BuraphaTh.config_constructor "digit" "source" "1.0.0")
                [("03", ["a.png"]); ("7", ["b.png"]); ("04", ["c.png"])]
                "train") = inl (ValueError "7"))
  /\ exists gens g,
       CubBahasa._split_generators Samples.cub_bad_class = inr gens
       /\ In g gens
       /\ length (yielded (CubBahasa.run_split CubBahasa.imtext_config g))
          = 1%nat
       /\ ending (CubBahasa.run_split CubBahasa.imtext_config g)
          = inl (KeyError "201").
Proof.
  assert (Hsub : In "digit" BuraphaTh._SUBSETS) by (simpl; tauto).
  assert (Hschema : "source" = "source" \/ "source" = "seacrowd_imtext")
    by now left.
  split.
  - refine (proj1 (proj2 (proj2
              (C5_label_resolution "digit" "source" "1.0.0" "train"
                 [("03", ["a.png"]); ("7", ["b.png"]); ("04", ["c.png"])]
                 Hsub Hschema)))
              [("03", "a.png")] "7" "b.png" [("04", "c.png")] _ _ _).
    + reflexivity.
    + constructor; [| constructor]. apply (nth_error_In _ 3). reflexivity.
    + apply (index_absent _ _ (ValueError "7")). reflexivity.
  - eexists. eexists. split; [vm_compute; reflexivity |].
    split; [left; reflexivity |].
    match goal with
    | |- context [CubBahasa.run_split _ ?g] =>
        lazymatch eval vm_compute in (CubBahasa.data (gen_kwargs g)) with
        | ?x :: (?i, ?r) :: ?post =>
            destruct (proj1 (proj2 (proj2 (proj2 (proj2 (proj2
                        (C5_label_resolution "digit" "source" "1.0.0" "train"
                           [("03", ["a.png"]); ("7", ["b.png"]);
                            ("04", ["c.png"])] Hsub Hschema))))
                        Samples.cub_bad_class _ g CubBahasa.imtext_config
                        eq_refl (or_introl eq_refl) (or_intror eq_refl)))
                      [x] i r post)
              as (Hy & _ & He)
        end
    end.
    + vm_compute. reflexivity.
    + intros i' r' [H | []]. injection H as _ <-. vm_compute. tauto.
    + vm_compute. intros H.
      repeat (destruct H as [H | H]; [discriminate H |]). exact H.
    + split; [rewrite Hy; reflexivity | exact He].
Defined.

End LabelResolution.
